(** * host.py : the daemon supervisor, peer connections, benchmark and
      presence tokens of a P2P CDN host, embedded in Rocq.

    The Python methods of [IPFSClient] talk to the outside world only through
    [subprocess], [os] and [time].  The embedding makes that world explicit:
    every such call is recorded in a trace of [event]s, and the answer the
    world gives is a function of the trace so far (an oracle, [OS]).  A
    statement quantified over every [OS] therefore covers every sequence of
    answers the operating system can give.

    The measured times of the benchmark are binary64 floating-point numbers
    (type [float]), and their sum and quotient round as Python's do.  The
    reading of the clock is modelled by the rational number it denotes (type
    [Q]), and its division by 60 is the exact one.  Environment
    variables ([IPFS_PATH], [TIMEFORMAT]) influence the world only through the
    oracle and are not tracked.  Unbounded [while] loops take a bound on their
    number of iterations ([fuel]); reaching it is the outcome [Timeout]. *)

From Stdlib Require Import Floats.
From Stdlib Require Import ZArith QArith Qround List String Ascii Bool Lia.
From Stdlib Require Import DecimalString.
From Stdlib Require DecimalPos DecimalZ.
Import ListNotations.
Open Scope string_scope.
Open Scope Z_scope.

(** ** Python strings *)

Module Py.

(** The double quote character, for shell commands that contain it. *)
Definition dquote : string := String (ascii_of_nat 34) EmptyString.

(** [str(n)] and ["{}".format(n)] for an integer. *)
Definition str (n : Z) : string := NilZero.string_of_int (Z.to_int n).

(** The characters [bytes.strip()] and [str.strip()] remove:
    space, tab, newline, vertical tab, form feed, carriage return. *)
Definition is_space (c : ascii) : bool :=
  let n := nat_of_ascii c in
  (Nat.eqb n 32 || (Nat.leb 9 n && Nat.leb n 13))%bool.

Fixpoint lstrip (s : string) : string :=
  match s with
  | String c s' => if is_space c then lstrip s' else s
  | EmptyString => EmptyString
  end.

Fixpoint all_space (s : string) : bool :=
  match s with
  | String c s' => (is_space c && all_space s')%bool
  | EmptyString => true
  end.

Fixpoint rstrip (s : string) : string :=
  match s with
  | String c s' => if all_space s then EmptyString else String c (rstrip s')
  | EmptyString => EmptyString
  end.

Definition strip (s : string) : string := rstrip (lstrip s).

(** [needle in hay] for strings: a substring test. *)
Fixpoint contains (needle hay : string) : bool :=
  (String.prefix needle hay ||
   match hay with
   | String _ hay' => contains needle hay'
   | EmptyString => false
   end)%bool.

(** [int(x)] for a float [x], given as the rational it denotes: truncation
    toward zero. *)
Definition int_of_float (x : Q) : Z := Z.quot (Qnum x) (Zpos (Qden x)).

(** The float an integer is converted to when it meets a float in an
    operation, for an integer from 0 to 2^63 - 1 such as a length. *)
Definition float_of_int (n : Z) : float := PrimFloat.of_uint63 (Uint63.of_Z n).

(** [sum(l)] for a list of floats: it adds from the left, starting at 0, and
    every addition rounds to the nearest binary64 number, as CPython 2.7 to
    3.11 do. *)
Definition sum (l : list float) : float :=
  fold_left PrimFloat.add l PrimFloat.zero.

(** [x / n] for a float [x] and an integer [n] that is not 0. *)
Definition truediv (x : float) (n : Z) : float :=
  PrimFloat.div x (float_of_int n).

(** What [daemon_running] returns: an [int] or [False]. *)
Inductive int_or_False : Type :=
| Int (n : Z)
| False_.

(** Truth value of such an object in a condition: [False] and [0] are false. *)
Definition truthy (v : int_or_False) : bool :=
  match v with
  | Int n => negb (n =? 0)
  | False_ => false
  end.

(** The integer a system call receives for it ([False] is the integer 0). *)
Definition as_int (v : int_or_False) : Z :=
  match v with
  | Int n => n
  | False_ => 0
  end.

(** A decimal reading of [int(s)] for the examples: optional surrounding
    white space, an optional sign, then one or more digits. *)
Definition is_digit (c : ascii) : bool :=
  let n := nat_of_ascii c in (Nat.leb 48 n && Nat.leb n 57)%bool.

Fixpoint digits_value (s : string) (acc : Z) : option Z :=
  match s with
  | EmptyString => Some acc
  | String c s' =>
      if is_digit c
      then digits_value s' (10 * acc + Z.of_nat (nat_of_ascii c) - 48)
      else None
  end.

Definition unsigned_decimal (s : string) : option Z :=
  match s with
  | EmptyString => None
  | _ => digits_value s 0
  end.

Definition decimal_int (s : string) : option Z :=
  match strip s with
  | String "-" s' => option_map Z.opp (unsigned_decimal s')
  | String "+" s' => unsigned_decimal s'
  | s' => unsigned_decimal s'
  end.

End Py.

(** ** Outcomes and the trace monad *)

(** Exceptions that leave a method uncaught. *)
Inductive exn : Type :=
| ValueError
| ZeroDivisionError
| OSError
| UnicodeDecodeError.

(** How a call ends: it returns, the process exits ([exit()], never caught on
    the paths modelled here), an exception propagates, the process is killed
    by a [SIGKILL] it sent to its own process group, or the iteration bound
    of the model is reached. *)
Inductive result (A : Type) : Type :=
| Ret (a : A)
| Exit
| Raise (e : exn)
| Killed
| Timeout.

Arguments Ret {A} a.
Arguments Exit {A}.
Arguments Raise {A} e.
Arguments Killed {A}.
Arguments Timeout {A}.

(** The calls the program makes to the outside world. *)
Inductive event : Type :=
| CheckOutput (cmd : string)   (* subprocess.check_output(cmd, shell=True) *)
| CheckCall (cmd : string)     (* subprocess.check_call(cmd, shell=True) *)
| Call (cmd : string)          (* subprocess.call(cmd, shell=True) *)
| Popen (cmd : string)         (* subprocess.Popen(cmd, shell=True) *)
| Kill (pid : Z)               (* os.kill(pid, signal.SIGKILL) *)
| PathExists (path : string)   (* os.path.exists(path) *)
| Remove (path : string)       (* os.remove(path) *)
| TimeTime                     (* time.time() *)
| Sleep (secs : Z)             (* time.sleep(secs) *)
| Print (line : string).       (* print(line) *)

Definition trace : Type := list event.

(** The world's answers, each a function of the calls made before.  [None]
    and [false] stand for the call raising an exception.  The last three
    fields are the Python builtins [int], [float] and [bytes.decode], with
    [None] for the exception they raise. *)
Record OS : Type := {
  check_output_result : trace -> string -> option string;
  check_call_result : trace -> string -> bool;
  call_result : trace -> string -> Z;
  popen_result : trace -> string -> bool;
  kill_result : trace -> Z -> bool;
  path_exists_result : trace -> string -> bool;
  remove_result : trace -> string -> bool;
  time_result : trace -> Q;
  int_of : string -> option Z;
  float_of : string -> option float;
  decode_utf8 : string -> option string
}.

(** The trace after one more call. *)
Definition log (h : trace) (e : event) : trace := (h ++ [e])%list.

Definition M (A : Type) : Type := trace -> result A * trace.

Definition ret {A : Type} (a : A) : M A := fun h => (Ret a, h).

Definition bind {A B : Type} (m : M A) (k : A -> M B) : M B :=
  fun h =>
    match m h with
    | (Ret a, h') => k a h'
    | (Exit, h') => (Exit, h')
    | (Raise e, h') => (Raise e, h')
    | (Killed, h') => (Killed, h')
    | (Timeout, h') => (Timeout, h')
    end.

Definition exit {A : Type} : M A := fun h => (Exit, h).
Definition raise {A : Type} (e : exn) : M A := fun h => (Raise e, h).
Definition timeout {A : Type} : M A := fun h => (Timeout, h).

Notation "x <- m ;; k" := (bind m (fun x => k))
  (at level 61, m at next level, right associativity).
Notation "m ;; k" := (bind m (fun _ => k))
  (at level 61, right associativity).

(** [for x in l: body(x)] *)
Fixpoint for_each {A : Type} (l : list A) (body : A -> M unit) : M unit :=
  match l with
  | [] => ret tt
  | x :: l' => body x ;; for_each l' body
  end.

(** ** Data model *)

Module IPFSNode.
Record t : Type := { id : string; address : string }.
End IPFSNode.

Module IPFSFile.
Record t : Type := { url : string; hash : string }.
End IPFSFile.

(** The dictionary [get_stats] returns. *)
Record stats : Type := { tries : Z; gets : list float; average : float }.

Record IPFSClient : Type := { ipfs_binary : string; ipfs_path : string }.

(** ** The methods of [IPFSClient] *)

Section Client.

Variable os : OS.
Variable self : IPFSClient.

(** *** Calls to the outside world *)

Definition print (line : string) : M unit :=
  fun h => (Ret tt, log h (Print line)).

(** [subprocess.check_output(cmd, shell=True)]: the output, or [None] when
    the call raises (a non-zero exit status among others). *)
Definition subprocess_check_output (cmd : string) : M (option string) :=
  fun h => (Ret (check_output_result os h cmd), log h (CheckOutput cmd)).

(** [subprocess.check_call(cmd, shell=True, ...)]: [false] when it raises. *)
Definition subprocess_check_call (cmd : string) : M bool :=
  fun h => (Ret (check_call_result os h cmd), log h (CheckCall cmd)).

(** [subprocess.call(cmd, shell=True)]: the exit status. *)
Definition subprocess_call (cmd : string) : M Z :=
  fun h => (Ret (call_result os h cmd), log h (Call cmd)).

(** [subprocess.Popen(cmd, shell=True, ...)]: [false] when it raises. *)
Definition subprocess_Popen (cmd : string) : M bool :=
  fun h => (Ret (popen_result os h cmd), log h (Popen cmd)).

(** [os.kill(pid, signal.SIGKILL)]: [false] when it raises.  The process id
    0 names the process group of the caller: the signal reaches the host
    itself, which cannot catch it, and the call never returns.  The ids that
    [pgrep ipfs] prints are those of other processes. *)
Definition os_kill (pid : Z) : M bool :=
  fun h =>
    (if pid =? 0 then Killed else Ret (kill_result os h pid),
     log h (Kill pid)).

Definition os_path_exists (path : string) : M bool :=
  fun h => (Ret (path_exists_result os h path), log h (PathExists path)).

(** [os.remove(path)]; its [OSError] is caught nowhere. *)
Definition os_remove (path : string) : M unit :=
  fun h =>
    (if remove_result os h path then Ret tt else Raise OSError,
     log h (Remove path)).

Definition time_time : M Q :=
  fun h => (Ret (time_result os h), log h TimeTime).

Definition time_sleep (secs : Z) : M unit :=
  fun h => (Ret tt, log h (Sleep secs)).

(** *** Commands *)

(** ["{} {}".format(self.ipfs_binary, command)] *)
Definition _get_command (command : string) : string :=
  ipfs_binary self ++ " " ++ command.

Definition failed_ipfs_command (command : string) : string :=
  "ERROR: Failed to run ipfs command: " ++ command
    ++ ". Please report this error".

(** The capture call shape: the output of the command, or an error line and
    [exit()]. *)
Definition check_output (command : string) : M string :=
  r <- subprocess_check_output (_get_command command) ;;
  match r with
  | Some out => ret out
  | None => print (failed_ipfs_command command) ;; exit
  end.

(** The fire-and-forget call shape: the exit status, whatever it is. *)
Definition call (command : string) : M Z :=
  subprocess_call (_get_command command).

(** The timed call shape.  The [decode] sits inside the [try], so a failure
    to decode ends in [exit()] as well. *)
Definition time (command : string) : M string :=
  r <- subprocess_check_output
         ("(time " ++ _get_command command ++ "&> /dev/null ) 2>&1") ;;
  match r with
  | Some out =>
      match decode_utf8 os out with
      | Some s => ret s
      | None => print (failed_ipfs_command command) ;; exit
      end
  | None => print (failed_ipfs_command command) ;; exit
  end.

Definition time_get (hash : string) : M float :=
  s <- time ("get " ++ hash) ;;
  match float_of os (Py.strip s) with
  | Some t => ret t
  | None => raise ValueError
  end.

(** *** Daemon supervisor *)

Definition daemon_available : M bool :=
  subprocess_check_call (_get_command "stats bitswap").

(** Every exception is caught and turned into [False]. *)
Definition daemon_running : M Py.int_or_False :=
  r <- subprocess_check_output "pgrep ipfs" ;;
  match r with
  | Some out =>
      match int_of os (Py.strip out) with
      | Some pid => ret (Py.Int pid)
      | None => ret Py.False_
      end
  | None => ret Py.False_
  end.

(** The [while] loop of [kill_daemon]; [pid] was read before the loop. *)
Fixpoint kill_loop (fuel : nat) (pid : Py.int_or_False) : M unit :=
  match fuel with
  | O => timeout
  | S fuel' =>
      r <- daemon_running ;;
      if Py.truthy r then
        print "Killing daemon..." ;;
        delivered <- os_kill (Py.as_int pid) ;;
        if delivered then kill_loop fuel' pid else ret tt
      else ret tt
  end.

Definition kill_daemon (fuel : nat) : M unit :=
  pid <- daemon_running ;;
  kill_loop fuel pid.

(** The first [while] loop of [launch_daemon]: spawn until a process is
    found.  [bound] is the iteration bound handed to [kill_daemon]. *)
Fixpoint spawn_loop (bound fuel : nat) : M unit :=
  match fuel with
  | O => timeout
  | S fuel' =>
      r <- daemon_running ;;
      if Py.truthy r then ret tt
      else
        spawned <- subprocess_Popen (_get_command "daemon &") ;;
        (if spawned then ret tt else kill_daemon bound) ;;
        spawn_loop bound fuel'
  end.

(** The second [while] loop of [launch_daemon]: wait until ready. *)
Fixpoint ready_loop (fuel : nat) : M unit :=
  match fuel with
  | O => timeout
  | S fuel' =>
      ready <- daemon_available ;;
      if ready then ret tt
      else
        print "Waiting for daemon... [may take a min, do not quit]" ;;
        time_sleep 1 ;;
        ready_loop fuel'
  end.

(** What [launch_daemon] does once it has decided to start a daemon. *)
Definition start_daemon (fuel : nat) : M unit :=
  print "Launching daemon..." ;;
  spawn_loop fuel fuel ;;
  ready_loop fuel ;;
  print "Success.".

Definition launch_daemon (fuel : nat) : M unit :=
  ready <- daemon_available ;;
  if ready then ret tt
  else
    r <- daemon_running ;;
    (if Py.truthy r then kill_daemon fuel else ret tt) ;;
    start_daemon fuel.

(** *** Peer connections *)

Definition is_connected (ipfs_node : IPFSNode.t) : M bool :=
  out <- check_output "swarm addrs" ;;
  match decode_utf8 os out with
  | Some addrs => ret (Py.contains (IPFSNode.id ipfs_node) addrs)
  | None => raise UnicodeDecodeError
  end.

Definition ensure_connected (ipfs_node : IPFSNode.t) : M unit :=
  connected <- is_connected ipfs_node ;;
  if negb connected
  then check_output ("swarm connect " ++ IPFSNode.address ipfs_node) ;; ret tt
  else ret tt.

Definition ensure_disconnected (ipfs_node : IPFSNode.t) : M unit :=
  connected <- is_connected ipfs_node ;;
  if connected
  then check_output ("swarm disconnect " ++ IPFSNode.address ipfs_node) ;; ret tt
  else ret tt.

(** *** Benchmark *)

(** [all(self.is_connected(h) for h in hosts)]: stops at the first host
    that is not connected. *)
Fixpoint all_connected (hosts : list IPFSNode.t) : M bool :=
  match hosts with
  | [] => ret true
  | h :: hosts' =>
      connected <- is_connected h ;;
      if connected then all_connected hosts' else ret false
  end.

(** [if os.path.exists(file.hash): os.remove(file.hash)] *)
Definition remove_local_copy (file : IPFSFile.t) : M unit :=
  present <- os_path_exists (IPFSFile.hash file) ;;
  if present then os_remove (IPFSFile.hash file) else ret tt.

Definition attempt_banner (tries samples : Z) : string :=
  "Attempt " ++ Py.str tries ++ " out of (min: " ++ Py.str samples
    ++ ", max: " ++ Py.str (samples * 2) ++ ")".

(** One pass through the body of the [while] loop of [get_stats], after
    [tries += 1]: the measured time, and whether every host was still
    connected after the fetch. *)
Definition attempt (file : IPFSFile.t) (hosts : list IPFSNode.t)
    (samples tries : Z) : M (float * bool) :=
  print (attempt_banner tries samples) ;;
  for_each hosts ensure_connected ;;
  check_output "repo gc" ;;
  remove_local_copy file ;;
  t <- time_get (IPFSFile.hash file) ;;
  ok <- all_connected hosts ;;
  ret (t, ok).

(** The [while] loop of [get_stats], from given values of [gets] and
    [tries]; it returns their final values. *)
Fixpoint get_stats_loop (fuel : nat) (file : IPFSFile.t)
    (hosts : list IPFSNode.t) (samples : Z) (gets : list float) (tries : Z)
    : M (list float * Z) :=
  if ((Z.of_nat (List.length gets) <? samples) && (tries <? samples * 2))%bool
  then
    match fuel with
    | O => timeout
    | S fuel' =>
        let tries := tries + 1 in
        r <- attempt file hosts samples tries ;;
        let (t, ok) := r in
        get_stats_loop fuel' file hosts samples
          (if ok then (gets ++ [t])%list else gets) tries
    end
  else ret (gets, tries).

(** [sum(gets) / len(gets)] under true division: for an empty list both are
    the integer 0 and the division raises; otherwise the float sum is
    divided by the length, which rounds once more. *)
Definition mean_of (gets : list float) : M float :=
  if Z.of_nat (List.length gets) =? 0
  then raise ZeroDivisionError
  else ret (Py.truediv (Py.sum gets) (Z.of_nat (List.length gets))).

(** The loop makes fewer than [samples * 2] passes, which is the bound
    given to the model of the loop. *)
Definition get_stats (file : IPFSFile.t) (hosts : list IPFSNode.t)
    (samples : Z) : M stats :=
  print "Collecting ipfs stats..." ;;
  r <- get_stats_loop (Z.to_nat (samples * 2)) file hosts samples [] 0 ;;
  let (gets, tries) := r in
  remove_local_copy file ;;
  avg <- mean_of gets ;;
  ret {| tries := tries; gets := gets; average := avg |}.

(** *** Presence tokens *)

(** [int(now / 60)] *)
Definition sessionId (now : Q) : Z := Py.int_of_float (now / 60)%Q.

(** The windows [sessionId + i for i in range(3)]. *)
Definition windows (now : Q) : list Z :=
  map (fun i => sessionId now + i) [0; 1; 2].

Definition token (window : Z) : string :=
  "Member of P2P CDN Session: " ++ Py.str window.

Definition sharedTokens (now : Q) : list string := map token (windows now).

(** The shell pipeline that adds and pins one token. *)
Definition publish_command (t : string) : string :=
  "echo -n " ++ Py.dquote ++ t ++ Py.dquote ++ " | " ++ ipfs_binary self
    ++ " add | awk  '{print $2}' | " ++ ipfs_binary self ++ " pin add".

Definition failed_command (cmd : string) : string :=
  "ERROR: Failed to run command: " ++ cmd ++ ". Please report this error".

Definition publish (t : string) : M unit :=
  let cmd := publish_command t in
  r <- subprocess_check_output cmd ;;
  match r with
  | Some _ => ret tt
  | None => print (failed_command cmd)
  end.

Definition genHostSwarmFiles : M unit :=
  now <- time_time ;;
  for_each (sharedTokens now) publish.

End Client.

(** ** Reading traces *)

Definition is_spawn (e : event) : bool :=
  match e with Popen _ => true | _ => false end.

Definition is_poll (e : event) : bool :=
  match e with CheckOutput cmd => String.eqb cmd "pgrep ipfs" | _ => false end.

Definition is_signal (e : event) : bool :=
  match e with Kill _ => true | _ => false end.

Definition is_probe (e : event) : bool :=
  match e with CheckCall _ => true | _ => false end.

Definition count (p : event -> bool) (h : trace) : nat :=
  List.length (filter p h).

(** Spawn attempts, polls of the process table, signals sent and readiness
    probes in a trace. *)
Definition spawns : trace -> nat := count is_spawn.
Definition polls : trace -> nat := count is_poll.
Definition signals : trace -> nat := count is_signal.
Definition probes : trace -> nat := count is_probe.

(** The commands given to [subprocess.check_output], in order. *)
Definition captured (h : trace) : list string :=
  flat_map (fun e => match e with CheckOutput cmd => [cmd] | _ => [] end) h.

(** The process ids signalled, in order. *)
Definition signalled (h : trace) : list Z :=
  flat_map (fun e => match e with Kill pid => [pid] | _ => [] end) h.

(** An attempt of [get_stats] announces itself with a line that starts with
    the word Attempt; no other line the program prints does. *)
Definition is_attempt (e : event) : bool :=
  match e with Print line => String.prefix "Attempt " line | _ => false end.

(** The attempts started in a trace. *)
Definition attempts : trace -> nat := count is_attempt.

(** A timed fetch, and a query of the swarm address listing by the client
    of the examples. *)
Definition is_fetch (e : event) : bool :=
  match e with CheckOutput cmd => String.prefix "(time " cmd | _ => false end.

Definition is_listing (e : event) : bool :=
  match e with
  | CheckOutput cmd => String.eqb cmd "./go-ipfs/ipfs swarm addrs"
  | _ => false
  end.

(** ** Reading the oracle *)

(** The object [daemon_running] returns when called after the trace [h]. *)
Definition poll_answer (os : OS) (h : trace) : Py.int_or_False :=
  match check_output_result os h "pgrep ipfs" with
  | Some out =>
      match int_of os (Py.strip out) with
      | Some pid => Py.Int pid
      | None => Py.False_
      end
  | None => Py.False_
  end.

(** The process-table query finds exactly one process after the trace [h]. *)
Definition process_found (os : OS) (h : trace) (pid : Z) : Prop :=
  exists out, check_output_result os h "pgrep ipfs" = Some out
              /\ int_of os (Py.strip out) = Some pid.

(** What the swarm address listing says about a node after the trace [h]:
    [Some b] when the listing is obtained and decoded. *)
Definition listed (os : OS) (self : IPFSClient) (ipfs_node : IPFSNode.t)
    (h : trace) : option bool :=
  match check_output_result os h (_get_command self "swarm addrs") with
  | Some out =>
      option_map (Py.contains (IPFSNode.id ipfs_node)) (decode_utf8 os out)
  | None => None
  end.

(** ** Vocabulary of the statements *)

(** The seconds elapsed in the minute of [t]. *)
Definition offset (t : Q) : Q := (t - inject_Z (60 * sessionId t))%Q.

(** The rational number a float denotes; [None] for the infinities and the
    value that is not a number. *)
Definition value (x : float) : option Q :=
  match Prim2SF x with
  | S754_zero _ => Some 0%Q
  | S754_finite negative m e =>
      Some ((if negative then - inject_Z (Zpos m) else inject_Z (Zpos m))
            * Qpower 2 e)%Q
  | S754_infinity _ => None
  | S754_nan => None
  end.


(** What follows the announcement in one attempt. *)
Definition attempt_body (os : OS) (self : IPFSClient) (file : IPFSFile.t)
    (hosts : list IPFSNode.t) : M (float * bool) :=
  for_each hosts (ensure_connected os self) ;;
  check_output os self "repo gc" ;;
  remove_local_copy os file ;;
  t <- time_get os self (IPFSFile.hash file) ;;
  ok <- all_connected os self hosts ;;
  ret (t, ok).

(** A computation that never reaches an iteration bound and only appends
    events to the trace, none of them the start of an attempt. *)
Definition quiet {A : Type} (m : M A) : Prop :=
  forall (h : trace) (r : result A) (h' : trace),
    m h = (r, h') ->
    r <> Timeout /\ exists ev, h' = (h ++ ev)%list /\ attempts ev = 0%nat.

(** ** Worlds for the examples *)

Module Example.

Definition newline : string := String (ascii_of_nat 10) EmptyString.

(** [float(s)] for a plain decimal numeral of at most 15 digits, such as
    [0.25] or [3]: its digits read as an integer and the power of ten they
    are scaled by are both binary64 numbers, and their quotient, rounded
    once, is the binary64 number nearest to the numeral. *)
Fixpoint split_dot (s : string) : string * option string :=
  match s with
  | EmptyString => (EmptyString, None)
  | String c s' =>
      if Ascii.eqb c "." then (EmptyString, Some s')
      else let (a, b) := split_dot s' in (String c a, b)
  end.

Definition decimal_float (s : string) : option float :=
  match split_dot (Py.strip s) with
  | (whole, None) => option_map Py.float_of_int (Py.unsigned_decimal whole)
  | (whole, Some frac) =>
      match Py.unsigned_decimal whole, Py.unsigned_decimal frac with
      | Some w, Some f =>
          let scale := 10 ^ Z.of_nat (String.length frac) in
          Some (Py.truediv (Py.float_of_int (w * scale + f)) scale)
      | _, _ => None
      end
  end.

(** A world given by the answers to the process-table query, to the
    readiness probe, to the other captured commands, to the signals and by
    the clock; spawning, file removal and decoding never fail, and no local
    copy of a file exists. *)
Definition world (pgrep : nat -> option string) (ready : nat -> bool)
    (capture : trace -> string -> option string)
    (deliver : trace -> Z -> bool) (clock : Q) : OS :=
  {| check_output_result := fun h cmd =>
       if String.eqb cmd "pgrep ipfs" then pgrep (polls h) else capture h cmd;
     check_call_result := fun h _ => ready (probes h);
     call_result := fun _ _ => 0;
     popen_result := fun _ _ => true;
     kill_result := deliver;
     path_exists_result := fun _ _ => false;
     remove_result := fun _ _ => true;
     time_result := fun _ => clock;
     int_of := Py.decimal_int;
     float_of := decimal_float;
     decode_utf8 := Some |}.

Definition client : IPFSClient :=
  {| ipfs_binary := "./go-ipfs/ipfs"; ipfs_path := "./go-ipfs/.ipfs/" |}.

Definition peer : IPFSNode.t :=
  {| IPFSNode.id := "QmA"; IPFSNode.address := "/ip4/1.2.3.4/tcp/4001/p2p/QmA" |}.

Definition target : IPFSFile.t :=
  {| IPFSFile.url := "https://example.org/x"; IPFSFile.hash := "QmXYZ" |}.

(** No match on the first five polls, process 4242 from the sixth on; the
    daemon is ready from the second probe on. *)
Definition five_misses : OS :=
  world (fun n => if Nat.ltb n 5 then None else Some ("4242" ++ newline))
        (fun n => Nat.leb 1 n)
        (fun _ _ => Some EmptyString) (fun _ _ => true) 0.

End Example.

(** Two matching processes: the query prints two lines. *)
Definition two_processes : OS :=
  Example.world
    (fun _ => Some ("12" ++ Example.newline ++ "34" ++ Example.newline))
    (fun _ => true) (fun _ _ => Some EmptyString) (fun _ _ => true) 0.

(** A process 4242 that is running but does not answer the readiness probe:
    it is found by the first three polls and gone after the signal; the poll
    after the next spawn finds the fresh process 4300, which is ready at the
    second probe. *)
Definition stale_daemon : OS :=
  Example.world
    (fun n => if Nat.ltb n 3 then Some ("4242" ++ Example.newline)
              else if Nat.ltb n 5 then None
              else Some ("4300" ++ Example.newline))
    (fun n => Nat.leb 1 n)
    (fun _ _ => Some EmptyString) (fun _ _ => true) 0.

(** Nothing is found by the query made on entry; process 42 is found by the
    next query and by none after it.  Signals are delivered. *)
Definition late_process : OS :=
  Example.world
    (fun n => if Nat.eqb n 1 then Some ("42" ++ Example.newline) else None)
    (fun _ => true) (fun _ _ => Some EmptyString) (fun _ _ => true) 0.

(** Process 41 is found on entry and is gone right after; every later query
    finds process 42.  No signal can be delivered to 41. *)
Definition replaced_process : OS :=
  Example.world
    (fun n => if Nat.eqb n 0 then Some ("41" ++ Example.newline)
              else Some ("42" ++ Example.newline))
    (fun _ => true) (fun _ _ => Some EmptyString) (fun _ _ => false) 0.

(** Process 42 is found by every query and no signal can be delivered to
    it; the daemon answers the readiness probe from the second probe on. *)
Definition unkillable : OS :=
  Example.world
    (fun _ => Some ("42" ++ Example.newline)) (fun n => Nat.leb 1 n)
    (fun _ _ => Some EmptyString) (fun _ _ => false) 0.

(** The swarm never lists the peer, and every command succeeds. *)
Definition silent_swarm : OS :=
  Example.world (fun _ => None) (fun _ => true)
                (fun _ _ => Some EmptyString) (fun _ _ => true) 0.

(** The swarm always lists the peer, and every command succeeds. *)
Definition full_swarm : OS :=
  Example.world (fun _ => None) (fun _ => true)
                (fun _ _ => Some "/ip4/1.2.3.4/tcp/4001/p2p/QmA")
                (fun _ _ => true) 0.

(** A world given by the successive swarm address listings, the answer to
    the garbage collection and the successive outputs of the timed fetch. *)
Definition benchmark_world (listing : nat -> string) (gc : option string)
    (times : list string) : OS :=
  Example.world
    (fun _ => None) (fun _ => true)
    (fun h cmd =>
       if String.eqb cmd "./go-ipfs/ipfs swarm addrs"
       then Some (listing (count is_listing h))
       else if String.eqb cmd "./go-ipfs/ipfs repo gc" then gc
       else if String.prefix "(time " cmd
       then Some (nth (count is_fetch h) times "1.000" ++ Example.newline)
       else Some EmptyString)
    (fun _ _ => true) 0.

(** The peer stays connected; the fetches take 0.25, 0.5 and 0.75 seconds. *)
Definition steady : OS :=
  benchmark_world (fun _ => "/ip4/1.2.3.4/tcp/4001/p2p/QmA")
                  (Some EmptyString) ["0.250"; "0.500"; "0.750"].

(** The peer is missing from the second listing only, which is the check
    made after the first fetch. *)
Definition churn : OS :=
  benchmark_world
    (fun k => if Nat.eqb k 1 then EmptyString
              else "/ip4/1.2.3.4/tcp/4001/p2p/QmA")
    (Some EmptyString) ["0.250"; "0.500"; "0.750"].


(** The peer is never listed. *)
Definition lonely : OS :=
  benchmark_world (fun _ => EmptyString) (Some EmptyString)
                  ["0.250"; "0.500"; "0.750"].

(** The garbage collection fails. *)
Definition gc_fails : OS :=
  benchmark_world (fun _ => "/ip4/1.2.3.4/tcp/4001/p2p/QmA") None
                  ["0.250"; "0.500"; "0.750"].

(** The clock reads one second before the epoch. *)
Definition before_epoch : OS :=
  Example.world (fun _ => None) (fun _ => true)
                (fun _ _ => Some EmptyString) (fun _ _ => true)
                (inject_Z (-1)).

(** The clock reads 120 seconds. *)
Definition at_120 : OS :=
  Example.world (fun _ => None) (fun _ => true)
                (fun _ _ => Some EmptyString) (fun _ _ => true) 120.

(** ** Further code of host.py *)

(** [IPFSNode.__init__]: the node, or [None] for the [AssertionError] of
    [assert id in address]. *)
Definition IPFSNode_init (id address : string) : option IPFSNode.t :=
  if Py.contains id address
  then Some {| IPFSNode.id := id; IPFSNode.address := address |}
  else None.

(** [os.environ], read with [get] and written by assignment and [pop]. *)
Definition environ : Type := string -> option string.

Definition environ_set (key value : string) (env : environ) : environ :=
  fun k => if String.eqb k key then Some value else env k.

Definition environ_pop (key : string) (env : environ) : environ :=
  fun k => if String.eqb k key then None else env k.

(** [_ensure_path]: what it does to [os.environ]. *)
Definition _ensure_path (self : IPFSClient) (env : environ) : environ :=
  match env "IPFS_PATH" with
  | Some path =>
      if String.eqb path (ipfs_path self) then env
      else environ_set "IPFS_PATH" (ipfs_path self) env
  | None => environ_set "IPFS_PATH" (ipfs_path self) env
  end.

(** [_unset_path]: what it does to [os.environ]. *)
Definition _unset_path (env : environ) : environ :=
  environ_pop "IPFS_PATH" env.


Module IPFSDownloader.

Definition BASE_URL : string :=
  "https://dist.ipfs.io/go-ipfs/v0.5.0/go-ipfs_v0.5.0_".

(** How a call of the downloader ends: it returns, [sys.exit(msg)] is
    called, or adding [None] to a string raises [TypeError]. *)
Inductive outcome (A : Type) : Type :=
| Returns (a : A)
| SysExit (msg : string)
| TypeError.

Arguments Returns {A} a.
Arguments SysExit {A} msg.
Arguments TypeError {A}.

(** [get_ipfs_download_postfix], from [sys.maxsize], [platform.machine()]
    and [sys.platform].  A platform that no branch names falls off the end
    of the function, which returns [None]. *)
Definition get_ipfs_download_postfix (maxsize : Z)
    (machine platform_name : string) : outcome (option string) :=
  let is_64bits := 2 ^ 32 <? maxsize in
  let is_arm := Py.contains "arm" machine in
  if (String.eqb platform_name "linux" || String.eqb platform_name "linux2")%bool
  then
    if is_arm then
      if is_64bits then Returns (Some "linux-arm64.tar.gz")
      else Returns (Some "linux-arm.tar.gz")
    else if is_64bits then Returns (Some "linux-amd64.tar.gz")
    else Returns (Some "linux-386.tar.gz")
  else if String.eqb platform_name "darwin" then
    if is_64bits then Returns (Some "darwin-amd64.tar.gz")
    else Returns (Some "darwin-386.tar.gz")
  else if String.eqb platform_name "win32" then
    SysExit "Windows is not supported"
  else Returns None.

(** [cls.BASE_URL + cls.get_ipfs_download_postfix()] *)
Definition get_ipfs_download_link (maxsize : Z)
    (machine platform_name : string) : outcome string :=
  match get_ipfs_download_postfix maxsize machine platform_name with
  | Returns (Some postfix) => Returns (BASE_URL ++ postfix)
  | Returns None => TypeError
  | SysExit msg => SysExit msg
  | TypeError => TypeError
  end.

End IPFSDownloader.

(** In the events [ev] that follow the trace [h], every spawn comes right
    after a poll of the process table whose answer counts as false. *)
Definition spawn_follows_miss (os : OS) (h : trace) (ev : list event) : Prop :=
  forall a cmd b,
    ev = (a ++ Popen cmd :: b)%list ->
    exists a0, a = (a0 ++ [CheckOutput "pgrep ipfs"])%list
               /\ Py.truthy (poll_answer os (h ++ a0)%list) = false.

Definition is_sleep (e : event) : bool :=
  match e with Sleep _ => true | _ => false end.

(** The calls of [time.sleep] in a trace. *)
Definition sleeps : trace -> nat := count is_sleep.

(** The daemon never answers the readiness probe.  Process 42 is found by
    the first query; the second query lists it with a second process, and
    so yields no process id; the third finds process 42 alone again. *)
Definition stale_never_killed : OS :=
  Example.world
    (fun n => if Nat.eqb n 1
              then Some ("42" ++ Example.newline ++ "43" ++ Example.newline)
              else Some ("42" ++ Example.newline))
    (fun _ => false) (fun _ _ => Some EmptyString) (fun _ _ => true) 0.


(** Process 4242 is found by the query made on entry and by the next two,
    and by none after; signals are delivered. *)
Definition dying_process : OS :=
  Example.world
    (fun n => if Nat.ltb n 3 then Some ("4242" ++ Example.newline) else None)
    (fun _ => true) (fun _ _ => Some EmptyString) (fun _ _ => true) 0.

(** No match on the first three polls, process 4242 after; the daemon is
    ready at the fourth probe. *)
Definition slow_start : OS :=
  Example.world
    (fun n => if Nat.ltb n 3 then None else Some ("4242" ++ Example.newline))
    (fun n => Nat.leb 3 n)
    (fun _ _ => Some EmptyString) (fun _ _ => true) 0.

(** Every captured command fails. *)
Definition all_fail : OS :=
  Example.world (fun _ => None) (fun _ => true) (fun _ _ => None)
                (fun _ _ => true) 120.

(** ** Counting in traces *)

Lemma count_app (p : event -> bool) (h1 h2 : trace) :
  count p (h1 ++ h2)%list = (count p h1 + count p h2)%nat.
Proof.
  unfold count. rewrite filter_app, length_app. reflexivity.
Qed.

Lemma count_log (p : event -> bool) (h : trace) (e : event) :
  count p (log h e) = (count p h + if p e then 1 else 0)%nat.
Proof.
  unfold log. rewrite count_app. unfold count. simpl.
  destruct (p e); reflexivity.
Qed.

Lemma count_cons (p : event -> bool) (e : event) (h : trace) :
  count p (e :: h) = ((if p e then 1 else 0) + count p h)%nat.
Proof. unfold count. simpl. destruct (p e); reflexivity. Qed.

Lemma count_nil (p : event -> bool) : count p [] = 0%nat.
Proof. reflexivity. Qed.

(** Reduce the counts of a trace built from known events. *)
Ltac counting :=
  unfold spawns, polls, signals, probes, log;
  repeat rewrite ?count_app, ?count_cons, ?count_nil;
  simpl.

Lemma captured_app (h1 h2 : trace) :
  captured (h1 ++ h2)%list = (captured h1 ++ captured h2)%list.
Proof. unfold captured. apply flat_map_app. Qed.

Lemma signalled_app (h1 h2 : trace) :
  signalled (h1 ++ h2)%list = (signalled h1 ++ signalled h2)%list.
Proof. unfold signalled. apply flat_map_app. Qed.

(** ** The process-table query *)

Lemma daemon_running_eq (os : OS) (h : trace) :
  daemon_running os h = (Ret (poll_answer os h), log h (CheckOutput "pgrep ipfs")).
Proof.
  unfold daemon_running, poll_answer, bind, subprocess_check_output, ret.
  destruct (check_output_result os h "pgrep ipfs") as [out|]; [|reflexivity].
  destruct (int_of os (Py.strip out)); reflexivity.
Qed.

Lemma poll_answer_Int (os : OS) (h : trace) (pid : Z) :
  poll_answer os h = Py.Int pid <-> process_found os h pid.
Proof.
  unfold poll_answer, process_found. split.
  - destruct (check_output_result os h "pgrep ipfs") as [out|]; [|discriminate].
    destruct (int_of os (Py.strip out)) as [n|] eqn:E; [|discriminate].
    intros [= ->]. exists out. split; [reflexivity | exact E].
  - intros [out [-> ->]]. reflexivity.
Qed.

Lemma poll_answer_False (os : OS) (h : trace) :
  poll_answer os h = Py.False_ <-> ~ exists pid, process_found os h pid.
Proof.
  split.
  - intros E [pid F]. apply poll_answer_Int in F. congruence.
  - intros N. destruct (poll_answer os h) as [pid|] eqn:E; [|reflexivity].
    exfalso. apply N. exists pid. apply poll_answer_Int. exact E.
Qed.

(** C10: [daemon_running] always returns and never raises.  It makes one
    process-table query and returns a process id exactly when the query
    succeeds and its stripped output reads as one integer; in every other
    case (no match, a failing query, output that is not one integer) it
    returns [False].  With two matching processes the output has two lines
    and the answer is [False]. *)
Theorem daemon_running_total :
  forall (os : OS) (h : trace),
    (exists v : Py.int_or_False,
        daemon_running os h = (Ret v, log h (CheckOutput "pgrep ipfs"))
        /\ (forall pid, v = Py.Int pid <-> process_found os h pid)
        /\ (v = Py.False_ <-> ~ exists pid, process_found os h pid))
    /\ daemon_running two_processes h
       = (Ret Py.False_, log h (CheckOutput "pgrep ipfs")).
Proof.
  intros os h. split.
  - exists (poll_answer os h). split; [apply daemon_running_eq|]. split.
    + intros pid. apply poll_answer_Int.
    + apply poll_answer_False.
  - rewrite daemon_running_eq. reflexivity.
Qed.

(** ** Killing the daemon *)

Lemma kill_loop_S (os : OS) (fuel : nat) (pid : Py.int_or_False) (h : trace) :
  kill_loop os (S fuel) pid h =
  let h1 := log h (CheckOutput "pgrep ipfs") in
  if Py.truthy (poll_answer os h) then
    let h2 := log h1 (Print "Killing daemon...") in
    let h3 := log h2 (Kill (Py.as_int pid)) in
    if Py.as_int pid =? 0 then (Killed, h3)
    else if kill_result os h2 (Py.as_int pid)
    then kill_loop os fuel pid h3
    else (Ret tt, h3)
  else (Ret tt, h1).
Proof.
  simpl. unfold bind at 1. rewrite daemon_running_eq.
  destruct (Py.truthy (poll_answer os h)); [|reflexivity].
  unfold bind, print, os_kill, ret. simpl.
  destruct (Py.as_int pid =? 0); [reflexivity|].
  destruct (kill_result os _ (Py.as_int pid)); reflexivity.
Qed.

Lemma kill_daemon_eq (os : OS) (fuel : nat) (h : trace) :
  kill_daemon os fuel h =
  kill_loop os fuel (poll_answer os h) (log h (CheckOutput "pgrep ipfs")).
Proof.
  unfold kill_daemon, bind. rewrite daemon_running_eq. reflexivity.
Qed.

(** What the loop of [kill_daemon] adds to the trace: polls, progress lines
    and signals, every signal to the process id read before the loop.  It
    ends by returning, by reaching the iteration bound, or with the host
    killed by its own signal. *)
Lemma kill_loop_trace (os : OS) (fuel : nat) (pid : Py.int_or_False) :
  forall (h : trace) (r : result unit) (h' : trace),
    kill_loop os fuel pid h = (r, h') ->
    (r = Ret tt \/ r = Timeout \/ r = Killed)
    /\ exists ev, h' = (h ++ ev)%list
         /\ spawns ev = 0%nat /\ probes ev = 0%nat
         /\ Forall (fun p => p = Py.as_int pid) (signalled ev).
Proof.
  induction fuel as [|fuel IH]; intros h r h' E.
  - simpl in E. inversion E; subst. split; [right; left; reflexivity|].
    exists []. rewrite app_nil_r. repeat split; constructor.
  - rewrite kill_loop_S in E. cbv zeta in E.
    assert (Hone : forall r0 : result unit,
               (r0, log (log (log h (CheckOutput "pgrep ipfs"))
                             (Print "Killing daemon..."))
                        (Kill (Py.as_int pid))) = (r, h') ->
               exists ev, h' = (h ++ ev)%list
                 /\ spawns ev = 0%nat /\ probes ev = 0%nat
                 /\ Forall (fun p => p = Py.as_int pid) (signalled ev)).
    { intros r0 E0. inversion E0; subst.
      exists [CheckOutput "pgrep ipfs"; Print "Killing daemon...";
              Kill (Py.as_int pid)].
      unfold log. rewrite <- !app_assoc. simpl.
      repeat split. repeat constructor. }
    destruct (Py.truthy (poll_answer os h)).
    + destruct (Py.as_int pid =? 0).
      { split; [|exact (Hone _ E)]. inversion E. right; right; reflexivity. }
      destruct (kill_result os _ (Py.as_int pid)).
      * apply IH in E. destruct E as [Hr [ev [-> [Hs [Hp Hk]]]]].
        split; [exact Hr|].
        exists ([CheckOutput "pgrep ipfs"; Print "Killing daemon...";
                 Kill (Py.as_int pid)] ++ ev)%list.
        unfold log. rewrite <- !app_assoc. simpl. split; [reflexivity|].
        unfold spawns, probes in *. rewrite !count_cons, Hs, Hp.
        repeat split. constructor; [reflexivity | exact Hk].
      * split; [|exact (Hone _ E)]. inversion E. left; reflexivity.
    + inversion E; subst. split; [left; reflexivity|].
      exists [CheckOutput "pgrep ipfs"]. repeat split. constructor.
Qed.

Lemma kill_daemon_trace (os : OS) (fuel : nat) (h : trace)
    (r : result unit) (h' : trace) :
  kill_daemon os fuel h = (r, h') ->
  (r = Ret tt \/ r = Timeout \/ r = Killed)
  /\ exists ev, h' = (h ++ ev)%list
       /\ spawns ev = 0%nat /\ probes ev = 0%nat
       /\ Forall (fun p => p = Py.as_int (poll_answer os h)) (signalled ev).
Proof.
  rewrite kill_daemon_eq. intros E. apply kill_loop_trace in E.
  destruct E as [Hr [ev [-> [Hs [Hp Hk]]]]]. split; [exact Hr|].
  exists (CheckOutput "pgrep ipfs" :: ev). unfold log.
  rewrite <- app_assoc. simpl. repeat split; assumption.
Qed.

(** The loop of [kill_daemon] while the query keeps finding a process for
    [j] more polls and every signal to the process id read on entry is
    delivered: one signal per poll that finds a process, and the loop ends at
    the first poll that does not.  For a signal to be sent at all the id read
    on entry must not be 0. *)
Lemma kill_loop_stops (os : OS) (pid : Py.int_or_False) (B P : nat) :
  (forall h, (B <= polls h < P)%nat -> Py.truthy (poll_answer os h) = true) ->
  (forall h, polls h = P -> Py.truthy (poll_answer os h) = false) ->
  (forall h, kill_result os h (Py.as_int pid) = true) ->
  forall (j fuel : nat) (h : trace),
    (j = 0%nat \/ Py.as_int pid <> 0) ->
    (B <= polls h)%nat -> (polls h + j = P)%nat -> (j < fuel)%nat ->
    exists ev,
      kill_loop os fuel pid h
      = (Ret tt, ((h ++ ev) ++ [CheckOutput "pgrep ipfs"])%list)
      /\ signalled ev = repeat (Py.as_int pid) j
      /\ polls ev = j /\ spawns ev = 0%nat.
Proof.
  intros Hfound Hgone Hdeliver.
  induction j as [|j IH]; intros fuel h Hpid HB Hj Hfuel;
    (destruct fuel as [|fuel]; [lia|]); rewrite kill_loop_S; cbv zeta.
  - rewrite Hgone by lia. exists []. rewrite app_nil_r. repeat split.
  - rewrite Hfound by lia.
    assert (Hnz : Py.as_int pid <> 0) by (destruct Hpid; [discriminate | assumption]).
    apply Z.eqb_neq in Hnz. rewrite Hnz, Hdeliver.
    destruct (IH fuel
                (log (log (log h (CheckOutput "pgrep ipfs"))
                          (Print "Killing daemon..."))
                     (Kill (Py.as_int pid))))
      as [ev [E [Hs [Hp Hsp]]]].
    + right. apply Z.eqb_neq. exact Hnz.
    + unfold polls in *. counting. lia.
    + unfold polls in *. counting. lia.
    + lia.
    + exists (CheckOutput "pgrep ipfs" :: Print "Killing daemon..."
                :: Kill (Py.as_int pid) :: ev).
      split.
      * rewrite E. unfold log. rewrite <- !app_assoc. reflexivity.
      * unfold polls, spawns in *. rewrite !count_cons, Hp, Hsp.
        simpl. rewrite Hs. repeat split.
Qed.

(** ** Launching the daemon *)

Section Launch.

Variable os : OS.
Variable self : IPFSClient.

Local Abbreviation probe := (_get_command self "stats bitswap").
Local Abbreviation daemon := (_get_command self "daemon &").
Local Abbreviation pgrep := "pgrep ipfs".

Lemma launch_daemon_eq (fuel : nat) (h : trace) :
  launch_daemon os self fuel h =
  let h1 := log h (CheckCall probe) in
  if check_call_result os h probe then (Ret tt, h1)
  else
    let h2 := log h1 (CheckOutput pgrep) in
    if Py.truthy (poll_answer os h1)
    then (kill_daemon os fuel ;; start_daemon os self fuel) h2
    else start_daemon os self fuel h2.
Proof.
  unfold launch_daemon, daemon_available, subprocess_check_call.
  unfold bind at 1. cbv zeta.
  destruct (check_call_result os h _); [reflexivity|].
  unfold bind at 1. rewrite daemon_running_eq.
  destruct (Py.truthy _); [reflexivity|].
  unfold bind at 1. reflexivity.
Qed.

Lemma spawn_loop_S (bound fuel : nat) (h : trace) :
  spawn_loop os self bound (S fuel) h =
  let h1 := log h (CheckOutput pgrep) in
  if Py.truthy (poll_answer os h) then (Ret tt, h1)
  else
    let h2 := log h1 (Popen daemon) in
    if popen_result os h1 daemon
    then spawn_loop os self bound fuel h2
    else (kill_daemon os bound ;; spawn_loop os self bound fuel) h2.
Proof.
  simpl. unfold bind at 1. rewrite daemon_running_eq.
  destruct (Py.truthy _); [reflexivity|].
  unfold bind at 1. unfold subprocess_Popen. cbv zeta.
  destruct (popen_result os _ _); reflexivity.
Qed.

Lemma ready_loop_S (fuel : nat) (h : trace) :
  ready_loop os self (S fuel) h =
  let h1 := log h (CheckCall probe) in
  if check_call_result os h probe then (Ret tt, h1)
  else
    ready_loop os self fuel
      (log (log h1 (Print "Waiting for daemon... [may take a min, do not quit]"))
           (Sleep 1)).
Proof.
  simpl. unfold bind at 1. unfold daemon_available, subprocess_check_call.
  cbv zeta. destruct (check_call_result os h _); reflexivity.
Qed.

(** Waiting for readiness spawns nothing, polls nothing and signals nothing. *)
Lemma ready_loop_trace (fuel : nat) :
  forall (h : trace) (r : result unit) (h' : trace),
    ready_loop os self fuel h = (r, h') ->
    (r = Ret tt \/ r = Timeout)
    /\ exists ev, h' = (h ++ ev)%list
         /\ spawns ev = 0%nat /\ polls ev = 0%nat /\ signals ev = 0%nat.
Proof.
  induction fuel as [|fuel IH]; intros h r h' E.
  - inversion E; subst. split; [right; reflexivity|].
    exists []. rewrite app_nil_r. repeat split.
  - rewrite ready_loop_S in E. cbv zeta in E.
    destruct (check_call_result os h probe).
    + inversion E; subst. split; [left; reflexivity|].
      exists [CheckCall probe]. repeat split.
    + apply IH in E. destruct E as [Hr [ev [-> [Hs [Hp Hk]]]]].
      split; [exact Hr|].
      exists (CheckCall probe
                :: Print "Waiting for daemon... [may take a min, do not quit]"
                :: Sleep 1 :: ev).
      unfold log. rewrite <- !app_assoc. simpl. split; [reflexivity|].
      unfold spawns, polls, signals in *. rewrite !count_cons, Hs, Hp, Hk.
      repeat split.
Qed.

(** The start loop when the process table shows no process until its poll
    number [P] (counted over the whole trace) and spawning never raises:
    one spawn after each failed poll, and the loop ends at the poll that
    finds the process. *)
Lemma spawn_loop_misses (bound P : nat) :
  (forall h, (polls h < P)%nat -> check_output_result os h pgrep = None) ->
  (forall h, polls h = P -> Py.truthy (poll_answer os h) = true) ->
  (forall h cmd, popen_result os h cmd = true) ->
  forall (j fuel : nat) (h : trace),
    (polls h + j = P)%nat -> (j < fuel)%nat ->
    exists ev,
      spawn_loop os self bound fuel h
      = (Ret tt, ((h ++ ev) ++ [CheckOutput pgrep])%list)
      /\ spawns ev = j /\ polls ev = j /\ signals ev = 0%nat.
Proof.
  intros Hmiss Hmatch Hspawn.
  induction j as [|j IH]; intros fuel h Hj Hfuel;
    (destruct fuel as [|fuel]; [lia|]); rewrite spawn_loop_S; cbv zeta.
  - rewrite Hmatch by lia. exists []. rewrite app_nil_r. repeat split.
  - assert (Hnone : poll_answer os h = Py.False_).
    { unfold poll_answer. rewrite Hmiss by lia. reflexivity. }
    rewrite Hnone. simpl Py.truthy. cbv iota. rewrite Hspawn.
    destruct (IH fuel (log (log h (CheckOutput pgrep)) (Popen daemon)))
      as [ev [E [Hs [Hp Hk]]]].
    + unfold polls in *. rewrite !count_log. simpl. lia.
    + lia.
    + exists (CheckOutput pgrep :: Popen daemon :: ev).
      split.
      * rewrite E. unfold log. rewrite <- !app_assoc. reflexivity.
      * unfold spawns, polls, signals in *. rewrite !count_cons, Hs, Hp, Hk.
        repeat split.
Qed.

End Launch.

(** The claim as stated fails: process 42 is running and not ready, and the
    signal [launch_daemon] has [kill_daemon] send to it cannot be delivered.
    [kill_daemon] gives up at once, the start loop finds the process and
    spawns nothing, and [launch_daemon] returns with process 42 still in the
    table: it was not killed. *)
Lemma launch_daemon_stale_process_survives :
  check_call_result unkillable [] "./go-ipfs/ipfs stats bitswap" = false
  /\ poll_answer unkillable [CheckCall "./go-ipfs/ipfs stats bitswap"]
     = Py.Int 42
  /\ launch_daemon unkillable Example.client 10 []
     = (Ret tt,
        [CheckCall "./go-ipfs/ipfs stats bitswap"; CheckOutput "pgrep ipfs";
         CheckOutput "pgrep ipfs"; CheckOutput "pgrep ipfs";
         Print "Killing daemon..."; Kill 42;
         Print "Launching daemon..."; CheckOutput "pgrep ipfs";
         CheckCall "./go-ipfs/ipfs stats bitswap"; Print "Success."])
  /\ poll_answer unkillable
       (snd (launch_daemon unkillable Example.client 10 [])) = Py.Int 42.
Proof. vm_compute. repeat split. Qed.

(** C7 (amended): [launch_daemon] is idempotent.  When the readiness probe
    succeeds it returns at once, having made that probe only; so a second
    call, made where a first call returned and while the daemon still
    answers the probe, spawns nothing and signals nothing.  When the probe
    fails and the process table shows a process, [kill_daemon] runs before
    the fresh start: its poll on entry is the next call made, nothing is
    spawned before it has ended, and the fresh start follows only if it
    returns.  A process that the query finds under one id [p] at the check,
    on entry of [kill_daemon] and at [n] polls of its loop, that is gone at
    the next poll, and that can be signalled, receives exactly [n] signals,
    and the fresh start begins after the poll that no longer found it.  A
    process that cannot be signalled is left as it is: after the one signal
    that fails, the fresh start begins with the process still there. *)
Theorem launch_daemon_idempotent :
  forall (os : OS) (self : IPFSClient) (fuel : nat) (h : trace),
    (check_call_result os h (_get_command self "stats bitswap") = true ->
     launch_daemon os self fuel h
     = (Ret tt, log h (CheckCall (_get_command self "stats bitswap"))))
    /\ (forall (fuel0 : nat) (h0 : trace),
          launch_daemon os self fuel0 h0 = (Ret tt, h) ->
          check_call_result os h (_get_command self "stats bitswap") = true ->
          exists h', launch_daemon os self fuel h = (Ret tt, h')
                     /\ spawns h' = spawns h /\ signals h' = signals h
                     /\ polls h' = polls h)
    /\ (check_call_result os h (_get_command self "stats bitswap") = false ->
        Py.truthy
          (poll_answer os (log h (CheckCall (_get_command self "stats bitswap"))))
        = true ->
        exists (rk : result unit) (evk : list event),
          spawns evk = 0%nat
          /\ (rk = Ret tt ->
              launch_daemon os self fuel h
              = start_daemon os self fuel
                  (h ++ [CheckCall (_get_command self "stats bitswap");
                         CheckOutput "pgrep ipfs"; CheckOutput "pgrep ipfs"]
                     ++ evk)%list)
          /\ (rk <> Ret tt ->
              launch_daemon os self fuel h
              = (rk,
                 (h ++ [CheckCall (_get_command self "stats bitswap");
                        CheckOutput "pgrep ipfs"; CheckOutput "pgrep ipfs"]
                    ++ evk)%list)))
    /\ (forall (p : Z) (n : nat),
          check_call_result os h (_get_command self "stats bitswap") = false ->
          p <> 0 ->
          (forall h', (polls h <= polls h' < polls h + 2 + n)%nat ->
                      poll_answer os h' = Py.Int p) ->
          (forall h', polls h' = (polls h + 2 + n)%nat ->
                      Py.truthy (poll_answer os h') = false) ->
          (forall h', kill_result os h' p = true) ->
          (n < fuel)%nat ->
          exists ev,
            launch_daemon os self fuel h
            = start_daemon os self fuel
                ((h ++ [CheckCall (_get_command self "stats bitswap");
                        CheckOutput "pgrep ipfs"; CheckOutput "pgrep ipfs"])
                   ++ ev ++ [CheckOutput "pgrep ipfs"])%list
            /\ signalled ev = repeat p n
            /\ polls ev = n
            /\ spawns ev = 0%nat)
    /\ (forall (p : Z) (fuel' : nat),
          check_call_result os h (_get_command self "stats bitswap") = false ->
          p <> 0 ->
          (forall h', (polls h <= polls h' < polls h + 3)%nat ->
                      poll_answer os h' = Py.Int p) ->
          (forall h', kill_result os h' p = false) ->
          fuel = S fuel' ->
          launch_daemon os self fuel h
          = start_daemon os self fuel
              (h ++ [CheckCall (_get_command self "stats bitswap");
                     CheckOutput "pgrep ipfs"; CheckOutput "pgrep ipfs";
                     CheckOutput "pgrep ipfs"; Print "Killing daemon...";
                     Kill p])%list).
Proof.
  intros os self fuel h. split; [|split; [|split; [|split]]].
  - intros Hready. rewrite launch_daemon_eq. cbv zeta. rewrite Hready.
    reflexivity.
  - intros fuel0 h0 _ Hready.
    exists (log h (CheckCall (_get_command self "stats bitswap"))).
    rewrite launch_daemon_eq. cbv zeta. rewrite Hready.
    split; [reflexivity|].
    unfold spawns, signals, polls. rewrite !count_log. simpl.
    split; [lia | split; lia].
  - intros Hnot Hrun. rewrite launch_daemon_eq. cbv zeta.
    rewrite Hnot, Hrun. unfold bind. rewrite kill_daemon_eq.
    destruct (kill_loop os fuel _ _) as [rk hk] eqn:Ek.
    apply kill_loop_trace in Ek. destruct Ek as [Hr [evk [-> [Hs _]]]].
    exists rk, evk. split; [exact Hs|].
    assert (Hshape :
              (log (log (log h (CheckCall (_get_command self "stats bitswap")))
                        (CheckOutput "pgrep ipfs"))
                   (CheckOutput "pgrep ipfs") ++ evk)%list
              = (h ++ [CheckCall (_get_command self "stats bitswap");
                       CheckOutput "pgrep ipfs"; CheckOutput "pgrep ipfs"]
                   ++ evk)%list).
    { unfold log. rewrite <- !app_assoc. reflexivity. }
    rewrite Hshape. split.
    + intros ->. reflexivity.
    + intros Hne. destruct Hr as [-> | [-> | ->]];
        [congruence | reflexivity | reflexivity].
  - intros p n Hnot Hp Hfound Hgone Hdeliver Hfuel.
    assert (Htrue : Py.truthy (Py.Int p) = true).
    { simpl. apply Z.eqb_neq in Hp. rewrite Hp. reflexivity. }
    rewrite launch_daemon_eq. cbv zeta. rewrite Hnot.
    rewrite Hfound by (unfold polls; counting; lia). rewrite Htrue.
    unfold bind at 1. rewrite kill_daemon_eq.
    rewrite (Hfound (log (log h _) _)) by (unfold polls; counting; lia).
    destruct (kill_loop_stops os (Py.Int p) (polls h + 2) (polls h + 2 + n))
      with (j := n) (fuel := fuel)
           (h := log (log (log h (CheckCall (_get_command self "stats bitswap")))
                          (CheckOutput "pgrep ipfs"))
                     (CheckOutput "pgrep ipfs"))
      as [ev [E [Hs [Hpo Hsp]]]].
    + intros h' Hh'. rewrite Hfound by lia. exact Htrue.
    + exact Hgone.
    + exact Hdeliver.
    + right. exact Hp.
    + unfold polls. counting. lia.
    + unfold polls. counting. lia.
    + exact Hfuel.
    + exists ev. rewrite E. split; [|repeat split; assumption].
      unfold log. rewrite <- !app_assoc. reflexivity.
  - intros p fuel' Hnot Hp Hfound Hfail ->.
    assert (Htrue : Py.truthy (Py.Int p) = true).
    { simpl. apply Z.eqb_neq in Hp. rewrite Hp. reflexivity. }
    rewrite launch_daemon_eq. cbv zeta. rewrite Hnot.
    rewrite Hfound by (unfold polls; counting; lia). rewrite Htrue.
    unfold bind at 1. rewrite kill_daemon_eq, kill_loop_S. cbv zeta.
    rewrite !Hfound by (unfold polls; counting; lia). rewrite Htrue.
    simpl Py.as_int. apply Z.eqb_neq in Hp. rewrite Hp, Hfail.
    unfold log. rewrite <- !app_assoc. reflexivity.
Qed.

Lemma launch_daemon_idempotent_witness :
  launch_daemon Example.five_misses Example.client 10
    (snd (launch_daemon Example.five_misses Example.client 10 []))
  = (Ret tt,
     log (snd (launch_daemon Example.five_misses Example.client 10 []))
         (CheckCall "./go-ipfs/ipfs stats bitswap"))
  /\ (exists h',
         launch_daemon Example.five_misses Example.client 10
           (snd (launch_daemon Example.five_misses Example.client 10 []))
         = (Ret tt, h') /\ spawns h' = 4%nat)
  /\ (exists (rk : result unit) (evk : list event),
         spawns evk = 0%nat
         /\ (rk = Ret tt ->
             launch_daemon stale_daemon Example.client 10 []
             = start_daemon stale_daemon Example.client 10
                 ([] ++ [CheckCall "./go-ipfs/ipfs stats bitswap";
                         CheckOutput "pgrep ipfs"; CheckOutput "pgrep ipfs"]
                    ++ evk)%list))
  /\ (exists ev,
         launch_daemon stale_daemon Example.client 10 []
         = start_daemon stale_daemon Example.client 10
             (([] ++ [CheckCall "./go-ipfs/ipfs stats bitswap";
                      CheckOutput "pgrep ipfs"; CheckOutput "pgrep ipfs"])
                ++ ev ++ [CheckOutput "pgrep ipfs"])%list
         /\ signalled ev = [4242])
  /\ launch_daemon unkillable Example.client 10 []
     = start_daemon unkillable Example.client 10
         [CheckCall "./go-ipfs/ipfs stats bitswap"; CheckOutput "pgrep ipfs";
          CheckOutput "pgrep ipfs"; CheckOutput "pgrep ipfs";
          Print "Killing daemon..."; Kill 42].
Proof.
  pose proof (launch_daemon_idempotent Example.five_misses Example.client 10
                (snd (launch_daemon Example.five_misses Example.client 10 [])))
    as [A [B _]].
  pose proof (launch_daemon_idempotent stale_daemon Example.client 10 [])
    as [_ [_ [G [C _]]]].
  pose proof (launch_daemon_idempotent unkillable Example.client 10 [])
    as [_ [_ [_ [_ D]]]].
  split; [|split; [|split; [|split]]].
  - apply A. vm_compute. reflexivity.
  - destruct (B 10%nat []) as [h' [E [Hs _]]].
    + vm_compute. reflexivity.
    + vm_compute. reflexivity.
    + exists h'. split; [exact E|]. rewrite Hs. vm_compute. reflexivity.
  - destruct G as [rk [evk [Hs [Hret _]]]]; [reflexivity | reflexivity |].
    exists rk, evk. split; [exact Hs | exact Hret].
  - destruct (C 4242 1%nat) as [ev [E [Hs _]]].
    + reflexivity.
    + discriminate.
    + intros h' Hh'. unfold poll_answer. simpl in *.
      assert (E : Nat.ltb (polls h') 3 = true) by (apply Nat.ltb_lt; lia).
      rewrite E. reflexivity.
    + intros h' Hh'. unfold poll_answer. simpl in *. rewrite Hh'. reflexivity.
    + reflexivity.
    + lia.
    + exists ev. split; [exact E | exact Hs].
  - apply (D 42 9%nat).
    + reflexivity.
    + discriminate.
    + reflexivity.
    + reflexivity.
    + reflexivity.
Defined.

(** *** Five failed polls, then a match *)

(** The claim as stated fails: with no match on five polls and a match on
    the sixth, [launch_daemon] returns after four spawn attempts, not six. *)
Lemma launch_daemon_six_spawns_refuted :
  fst (launch_daemon Example.five_misses Example.client 10 []) = Ret tt
  /\ polls (snd (launch_daemon Example.five_misses Example.client 10 [])) = 6%nat
  /\ spawns (snd (launch_daemon Example.five_misses Example.client 10 [])) = 4%nat
  /\ spawns (snd (launch_daemon Example.five_misses Example.client 10 []))
     <> 6%nat.
Proof. vm_compute. repeat split. discriminate. Qed.

(** C4 (amended): the daemon is not ready, the process-table query reports
    no match on five consecutive polls and a match on the sixth, and no
    spawn raises.  Then [launch_daemon], given room for five passes of its
    start loop, issues exactly four spawn attempts: the first failed poll is
    the check for a stale process made before the loop, and each of the four
    failed polls of the loop is followed by one spawn.  All four precede the
    sixth poll; nothing is spawned after it, and no signal is sent. *)
Theorem launch_daemon_five_misses :
  forall (os : OS) (self : IPFSClient) (fuel : nat) (h : trace),
    check_call_result os h (_get_command self "stats bitswap") = false ->
    (forall h', (polls h' < polls h + 5)%nat ->
                check_output_result os h' "pgrep ipfs" = None) ->
    (forall h', polls h' = (polls h + 5)%nat ->
                Py.truthy (poll_answer os h') = true) ->
    (forall h' cmd, popen_result os h' cmd = true) ->
    (5 <= fuel)%nat ->
    exists (before after : trace) (r : result unit),
      launch_daemon os self fuel h
      = (r, (h ++ before ++ [CheckOutput "pgrep ipfs"] ++ after)%list)
      /\ polls before = 5%nat
      /\ spawns before = 4%nat
      /\ spawns after = 0%nat
      /\ signals (before ++ after)%list = 0%nat
      /\ (r = Ret tt \/ r = Timeout).
Proof.
  intros os self fuel h Hnot Hmiss Hmatch Hspawn Hfuel.
  rewrite launch_daemon_eq. cbv zeta. rewrite Hnot.
  assert (Hnone : poll_answer os
                    (log h (CheckCall (_get_command self "stats bitswap")))
                  = Py.False_).
  { unfold poll_answer. rewrite Hmiss; [reflexivity|]. counting. lia. }
  rewrite Hnone. simpl Py.truthy. cbv iota.
  unfold start_daemon. unfold bind at 1. unfold print at 1.
  unfold bind at 1.
  destruct (spawn_loop_misses os self fuel (polls h + 5) Hmiss Hmatch Hspawn
              4%nat fuel
              (log (log (log h (CheckCall (_get_command self "stats bitswap")))
                        (CheckOutput "pgrep ipfs"))
                   (Print "Launching daemon...")))
    as [ev [E [Hs [Hp Hk]]]].
  { counting. lia. }
  { lia. }
  rewrite E. unfold bind at 1.
  destruct (ready_loop os self fuel _) as [r1 h1] eqn:Er.
  apply ready_loop_trace in Er.
  destruct Er as [Hr [ev' [-> [Hs' [Hp' Hk']]]]].
  destruct Hr as [-> | ->].
  - exists ([CheckCall (_get_command self "stats bitswap");
             CheckOutput "pgrep ipfs"; Print "Launching daemon..."] ++ ev)%list,
           (ev' ++ [Print "Success."])%list, (Ret tt).
    split.
    { unfold print, log. repeat rewrite <- app_assoc. reflexivity. }
    unfold spawns, polls, signals in *.
    repeat rewrite ?count_app, ?count_cons, ?count_nil.
    rewrite Hs, Hp, Hk, Hs', Hk'. simpl.
    repeat (split; [reflexivity|]). left. reflexivity.
  - exists ([CheckCall (_get_command self "stats bitswap");
             CheckOutput "pgrep ipfs"; Print "Launching daemon..."] ++ ev)%list,
           ev', Timeout.
    split.
    { unfold log. repeat rewrite <- app_assoc. reflexivity. }
    unfold spawns, polls, signals in *.
    repeat rewrite ?count_app, ?count_cons, ?count_nil.
    rewrite Hs, Hp, Hk, Hs', Hk'. simpl.
    repeat (split; [reflexivity|]). right. reflexivity.
Qed.

Lemma launch_daemon_five_misses_witness :
  exists (before after : trace) (r : result unit),
    launch_daemon Example.five_misses Example.client 10 []
    = (r, ([] ++ before ++ [CheckOutput "pgrep ipfs"] ++ after)%list)
    /\ polls before = 5%nat
    /\ spawns before = 4%nat
    /\ spawns after = 0%nat
    /\ signals (before ++ after)%list = 0%nat
    /\ (r = Ret tt \/ r = Timeout).
Proof.
  apply (launch_daemon_five_misses Example.five_misses Example.client 10 []).
  - reflexivity.
  - intros h' Hh'. simpl. simpl in Hh'.
    apply Nat.ltb_lt in Hh'. rewrite Hh'. reflexivity.
  - intros h' Hh'. simpl in Hh'. unfold poll_answer. simpl.
    rewrite Hh'. reflexivity.
  - reflexivity.
  - lia.
Defined.

(** *** Killing a process that was not the one found *)

(** [kill_daemon] returns right after a poll whose answer counts as false or
    right after a signal that could not be delivered, and in no other way. *)
Lemma kill_loop_end (os : OS) (fuel : nat) (pid : Py.int_or_False) :
  forall (h h' : trace),
    kill_loop os fuel pid h = (Ret tt, h') ->
    (exists hp, h' = log hp (CheckOutput "pgrep ipfs")
                /\ Py.truthy (poll_answer os hp) = false)
    \/ (exists hk, h' = log hk (Kill (Py.as_int pid))
                   /\ kill_result os hk (Py.as_int pid) = false).
Proof.
  induction fuel as [|fuel IH]; intros h h' E.
  - discriminate E.
  - rewrite kill_loop_S in E. cbv zeta in E.
    destruct (Py.truthy (poll_answer os h)) eqn:Ht.
    + destruct (Py.as_int pid =? 0); [discriminate E|].
      destruct (kill_result os _ (Py.as_int pid)) eqn:Hd.
      * apply IH in E. exact E.
      * inversion E; subst. right. eexists. split; [reflexivity | exact Hd].
    + inversion E; subst. left. exists h. split; [reflexivity | exact Ht].
Qed.

(** The host is killed by [kill_daemon] only in one way: the process id read
    before the loop is 0, the value [False] has as an integer, a poll of the
    loop yields a process id all the same, and the signal goes to id 0. *)
Lemma kill_loop_killed (os : OS) (fuel : nat) (pid : Py.int_or_False) :
  forall (h h' : trace),
    kill_loop os fuel pid h = (Killed, h') ->
    Py.as_int pid = 0
    /\ exists hp,
         h' = log (log (log hp (CheckOutput "pgrep ipfs"))
                       (Print "Killing daemon...")) (Kill 0)
         /\ Py.truthy (poll_answer os hp) = true.
Proof.
  induction fuel as [|fuel IH]; intros h h' E.
  - discriminate E.
  - rewrite kill_loop_S in E. cbv zeta in E.
    destruct (Py.truthy (poll_answer os h)) eqn:Ht; [|discriminate E].
    destruct (Py.as_int pid =? 0) eqn:Hz.
    + apply Z.eqb_eq in Hz. rewrite Hz in E. inversion E; subst.
      split; [exact Hz|]. exists h. split; [reflexivity | exact Ht].
    + destruct (kill_result os _ (Py.as_int pid)); [|discriminate E].
      apply IH in E. exact E.
Qed.

(** When its second poll yields no process id, [kill_daemon] returns after
    these two polls. *)
Lemma kill_daemon_not_running (os : OS) (fuel : nat) (h : trace) :
  Py.truthy (poll_answer os (log h (CheckOutput "pgrep ipfs"))) = false ->
  kill_daemon os (S fuel) h
  = (Ret tt, log (log h (CheckOutput "pgrep ipfs")) (CheckOutput "pgrep ipfs")).
Proof.
  intros Hno. rewrite kill_daemon_eq, kill_loop_S. cbv zeta. rewrite Hno.
  reflexivity.
Qed.

(** C9: the signal goes to the process id read before the loop, not to the
    one the query of the loop finds.  When the query made on entry finds
    nothing and the next one finds process 42, the one signal sent goes to
    process id 0, the integer value of [False], which names the process
    group of the host itself.  When the query made on entry finds 41 and the
    next one finds 42, the signal goes to 41, cannot be delivered, and
    [kill_daemon] returns with process 42 still found and never signalled. *)
Theorem kill_daemon_signals_entry_pid :
  poll_answer late_process [] = Py.False_
  /\ poll_answer late_process [CheckOutput "pgrep ipfs"] = Py.Int 42
  /\ signalled (snd (kill_daemon late_process 10 [])) = [0]
  /\ poll_answer replaced_process [CheckOutput "pgrep ipfs"] = Py.Int 42
  /\ kill_daemon replaced_process 10 []
     = (Ret tt, [CheckOutput "pgrep ipfs"; CheckOutput "pgrep ipfs";
                 Print "Killing daemon..."; Kill 41])
  /\ poll_answer replaced_process (snd (kill_daemon replaced_process 10 []))
     = Py.Int 42.
Proof. vm_compute. repeat split. Qed.

(** ** Peer connections *)

Section Peers.

Variable os : OS.
Variable self : IPFSClient.

Local Abbreviation addrs_command := (_get_command self "swarm addrs").

Lemma check_output_eq (command : string) (h : trace) :
  check_output os self command h =
  match check_output_result os h (_get_command self command) with
  | Some out => (Ret out, log h (CheckOutput (_get_command self command)))
  | None =>
      (Exit, log (log h (CheckOutput (_get_command self command)))
                 (Print (failed_ipfs_command command)))
  end.
Proof.
  unfold check_output, bind, subprocess_check_output.
  destruct (check_output_result os h _); reflexivity.
Qed.

Lemma is_connected_eq (ipfs_node : IPFSNode.t) (h : trace) :
  is_connected os self ipfs_node h =
  match check_output_result os h addrs_command with
  | Some out =>
      match decode_utf8 os out with
      | Some addrs =>
          (Ret (Py.contains (IPFSNode.id ipfs_node) addrs),
           log h (CheckOutput addrs_command))
      | None => (Raise UnicodeDecodeError, log h (CheckOutput addrs_command))
      end
  | None =>
      (Exit, log (log h (CheckOutput addrs_command))
                 (Print (failed_ipfs_command "swarm addrs")))
  end.
Proof.
  unfold is_connected. unfold bind at 1. rewrite check_output_eq.
  destruct (check_output_result os h _) as [out|]; [|reflexivity].
  destruct (decode_utf8 os out); reflexivity.
Qed.

Lemma is_connected_Ret (ipfs_node : IPFSNode.t) (h h' : trace) (b : bool) :
  is_connected os self ipfs_node h = (Ret b, h') <->
  listed os self ipfs_node h = Some b /\ h' = log h (CheckOutput addrs_command).
Proof.
  rewrite is_connected_eq. unfold listed.
  destruct (check_output_result os h _) as [out|].
  - destruct (decode_utf8 os out) as [addrs|]; simpl.
    + split.
      * intros E. inversion E; subst. split; reflexivity.
      * intros [E ->]. inversion E; subst. reflexivity.
    + split; [discriminate | intros [E _]; discriminate].
  - split; [discriminate | intros [E _]; discriminate].
Qed.

Lemma ensure_connected_eq (ipfs_node : IPFSNode.t) (h : trace) :
  ensure_connected os self ipfs_node h =
  match is_connected os self ipfs_node h with
  | (Ret true, h1) => (Ret tt, h1)
  | (Ret false, h1) =>
      match check_output_result os h1
              (_get_command self ("swarm connect " ++ IPFSNode.address ipfs_node))
      with
      | Some _ =>
          (Ret tt,
           log h1 (CheckOutput
                     (_get_command self
                        ("swarm connect " ++ IPFSNode.address ipfs_node))))
      | None =>
          (Exit,
           log (log h1 (CheckOutput
                          (_get_command self
                             ("swarm connect " ++ IPFSNode.address ipfs_node))))
               (Print (failed_ipfs_command
                         ("swarm connect " ++ IPFSNode.address ipfs_node))))
      end
  | (Exit, h1) => (Exit, h1)
  | (Raise e, h1) => (Raise e, h1)
  | (Killed, h1) => (Killed, h1)
  | (Timeout, h1) => (Timeout, h1)
  end.
Proof.
  unfold ensure_connected. unfold bind at 1.
  destruct (is_connected os self ipfs_node h) as [[[|]| | | |] h1];
    try reflexivity.
  cbn [negb]. unfold bind. rewrite check_output_eq.
  destruct (check_output_result os h1 _); reflexivity.
Qed.

End Peers.

(** The claim as stated fails: [ensure_connected] returns after a successful
    connect command, and the [is_connected] that follows returns [False],
    because the listing it obtains does not contain the peer. *)
Lemma ensure_then_is_connected_refuted :
  ensure_connected silent_swarm Example.client Example.peer []
  = (Ret tt,
     [CheckOutput "./go-ipfs/ipfs swarm addrs";
      CheckOutput "./go-ipfs/ipfs swarm connect /ip4/1.2.3.4/tcp/4001/p2p/QmA"])
  /\ fst (is_connected silent_swarm Example.client Example.peer
            (snd (ensure_connected silent_swarm Example.client Example.peer [])))
     = Ret false
  /\ fst (is_connected silent_swarm Example.client Example.peer
            (snd (ensure_connected silent_swarm Example.client Example.peer [])))
     <> Ret true.
Proof. vm_compute. repeat split. discriminate. Qed.

(** C8 (amended): [ensure_connected] makes one [is_connected] query.  When it
    reports the peer connected nothing else is done, so a call made in such a
    state issues no connect command.  When it reports the peer not connected,
    exactly one connect command is issued through [check_output], and its
    failure prints an error and exits.  An [is_connected] made right after
    [ensure_connected] has returned asks the swarm again and returns what
    that fresh listing says: [True] exactly when the listing contains the
    peer's identifier, which the code does not ensure. *)
Theorem ensure_connected_spec :
  forall (os : OS) (self : IPFSClient) (ipfs_node : IPFSNode.t) (h : trace),
    (forall h1, is_connected os self ipfs_node h = (Ret true, h1) ->
       ensure_connected os self ipfs_node h = (Ret tt, h1)
       /\ h1 = log h (CheckOutput (_get_command self "swarm addrs")))
    /\ (forall h1, is_connected os self ipfs_node h = (Ret false, h1) ->
          ensure_connected os self ipfs_node h
          = (check_output os self
               ("swarm connect " ++ IPFSNode.address ipfs_node) ;; ret tt) h1
          /\ captured (snd (ensure_connected os self ipfs_node h))
             = (captured h
                  ++ [_get_command self "swarm addrs";
                      _get_command self
                        ("swarm connect " ++ IPFSNode.address ipfs_node)])%list
          /\ (check_output_result os h1
                (_get_command self
                   ("swarm connect " ++ IPFSNode.address ipfs_node)) = None ->
              fst (ensure_connected os self ipfs_node h) = Exit))
    /\ (forall h1 b h2,
          ensure_connected os self ipfs_node h = (Ret tt, h1) ->
          is_connected os self ipfs_node h1 = (Ret b, h2) ->
          listed os self ipfs_node h1 = Some b).
Proof.
  intros os self ipfs_node h. split; [|split].
  - intros h1 E. rewrite ensure_connected_eq, E. split; [reflexivity|].
    apply is_connected_Ret in E. apply E.
  - intros h1 E. rewrite ensure_connected_eq, E.
    apply is_connected_Ret in E. destruct E as [_ ->].
    unfold bind. rewrite check_output_eq.
    destruct (check_output_result os _ _); simpl.
    + split; [reflexivity|]. split; [|discriminate].
      unfold log. rewrite !captured_app, <- app_assoc. reflexivity.
    + split; [reflexivity|]. split; [|reflexivity].
      unfold log. rewrite !captured_app, <- !app_assoc. reflexivity.
  - intros h1 b h2 _ E. apply is_connected_Ret in E. apply E.
Qed.

Lemma ensure_connected_spec_witness :
  ensure_connected full_swarm Example.client Example.peer []
  = (Ret tt, [CheckOutput "./go-ipfs/ipfs swarm addrs"])
  /\ captured (snd (ensure_connected silent_swarm Example.client Example.peer []))
     = ["./go-ipfs/ipfs swarm addrs";
        "./go-ipfs/ipfs swarm connect /ip4/1.2.3.4/tcp/4001/p2p/QmA"]
  /\ listed silent_swarm Example.client Example.peer
       (snd (ensure_connected silent_swarm Example.client Example.peer []))
     = Some false.
Proof.
  pose proof (ensure_connected_spec full_swarm Example.client Example.peer [])
    as [A _].
  pose proof (ensure_connected_spec silent_swarm Example.client Example.peer [])
    as [_ [B C]].
  split; [|split].
  - apply (A [CheckOutput "./go-ipfs/ipfs swarm addrs"]). reflexivity.
  - apply (B [CheckOutput "./go-ipfs/ipfs swarm addrs"]). reflexivity.
  - eapply C; reflexivity.
Defined.

(** ** The benchmark *)

Lemma quiet_ret {A : Type} (a : A) : quiet (ret a).
Proof.
  intros h r h' E. inversion E; subst. split; [discriminate|].
  exists []. rewrite app_nil_r. split; reflexivity.
Qed.

Lemma quiet_exit {A : Type} : quiet (@exit A).
Proof.
  intros h r h' E. inversion E; subst. split; [discriminate|].
  exists []. rewrite app_nil_r. split; reflexivity.
Qed.

Lemma quiet_raise {A : Type} (e : exn) : quiet (@raise A e).
Proof.
  intros h r h' E. inversion E; subst. split; [discriminate|].
  exists []. rewrite app_nil_r. split; reflexivity.
Qed.

Lemma quiet_bind {A B : Type} (m : M A) (k : A -> M B) :
  quiet m -> (forall a, quiet (k a)) -> quiet (bind m k).
Proof.
  intros Hm Hk h r h' E. unfold bind in E.
  destruct (m h) as [r1 h1] eqn:E1.
  destruct (Hm _ _ _ E1) as [Hr1 [ev1 [-> H1]]].
  destruct r1 as [a| |e| |].
  - destruct (Hk a _ _ _ E) as [Hr [ev2 [-> H2]]]. split; [exact Hr|].
    exists (ev1 ++ ev2)%list. rewrite app_assoc. split; [reflexivity|].
    unfold attempts in *. rewrite count_app. lia.
  - inversion E; subst. split; [discriminate|].
    exists ev1. split; [reflexivity | exact H1].
  - inversion E; subst. split; [discriminate|].
    exists ev1. split; [reflexivity | exact H1].
  - inversion E; subst. split; [discriminate|].
    exists ev1. split; [reflexivity | exact H1].
  - congruence.
Qed.

(** A single call whose event is not the start of an attempt. *)
Lemma quiet_call {A : Type} (answer : trace -> result A) (e : event) :
  (forall h, answer h <> Timeout) ->
  is_attempt e = false -> quiet (fun h => (answer h, log h e)).
Proof.
  intros Ha He h r h' E. inversion E; subst. split; [apply Ha|].
  exists [e]. split; [reflexivity|].
  unfold attempts. rewrite count_cons, He. reflexivity.
Qed.

Lemma quiet_for_each {A : Type} (l : list A) (body : A -> M unit) :
  (forall x, quiet (body x)) -> quiet (for_each l body).
Proof.
  intros Hb. induction l as [|x l IH]; simpl.
  - apply quiet_ret.
  - apply quiet_bind; [apply Hb | intros _; exact IH].
Qed.

Section Benchmark.

Variable os : OS.
Variable self : IPFSClient.

Lemma quiet_check_output (command : string) :
  quiet (check_output os self command).
Proof.
  unfold check_output. apply quiet_bind.
  - apply (quiet_call (fun h => Ret (check_output_result os h _)));
      [discriminate | reflexivity].
  - intros [out|]; [apply quiet_ret|].
    apply quiet_bind; [|intros _; apply quiet_exit].
    apply (quiet_call (fun _ => Ret tt)); [discriminate | reflexivity].
Qed.

Lemma quiet_is_connected (ipfs_node : IPFSNode.t) :
  quiet (is_connected os self ipfs_node).
Proof.
  unfold is_connected. apply quiet_bind; [apply quiet_check_output|].
  intros out. destruct (decode_utf8 os out);
    [apply quiet_ret | apply quiet_raise].
Qed.

Lemma quiet_ensure_connected (ipfs_node : IPFSNode.t) :
  quiet (ensure_connected os self ipfs_node).
Proof.
  unfold ensure_connected. apply quiet_bind; [apply quiet_is_connected|].
  intros [|]; simpl; [apply quiet_ret|].
  apply quiet_bind; [apply quiet_check_output | intros _; apply quiet_ret].
Qed.

Lemma quiet_all_connected (hosts : list IPFSNode.t) :
  quiet (all_connected os self hosts).
Proof.
  induction hosts as [|x hosts IH]; simpl; [apply quiet_ret|].
  apply quiet_bind; [apply quiet_is_connected|].
  intros [|]; [exact IH | apply quiet_ret].
Qed.

Lemma quiet_remove_local_copy (file : IPFSFile.t) :
  quiet (remove_local_copy os file).
Proof.
  unfold remove_local_copy. apply quiet_bind.
  - apply (quiet_call (fun h => Ret (path_exists_result os h _)));
      [discriminate | reflexivity].
  - intros [|]; [|apply quiet_ret].
    apply (quiet_call
             (fun h => if remove_result os h _ then Ret tt else Raise OSError));
      [|reflexivity].
    intros h. destruct (remove_result os h _); discriminate.
Qed.

Lemma quiet_time (command : string) : quiet (time os self command).
Proof.
  unfold time. apply quiet_bind.
  - apply (quiet_call (fun h => Ret (check_output_result os h _)));
      [discriminate | reflexivity].
  - assert (Hfail : quiet (print (failed_ipfs_command command) ;; @exit string)).
    { apply quiet_bind; [|intros _; apply quiet_exit].
      apply (quiet_call (fun _ => Ret tt)); [discriminate | reflexivity]. }
    intros [out|]; [|exact Hfail].
    destruct (decode_utf8 os out); [apply quiet_ret | exact Hfail].
Qed.

Lemma quiet_time_get (hash : string) : quiet (time_get os self hash).
Proof.
  unfold time_get. apply quiet_bind; [apply quiet_time|].
  intros s. destruct (float_of os (Py.strip s));
    [apply quiet_ret | apply quiet_raise].
Qed.

Lemma quiet_attempt_body (file : IPFSFile.t) (hosts : list IPFSNode.t) :
  quiet (attempt_body os self file hosts).
Proof.
  unfold attempt_body.
  apply quiet_bind;
    [apply quiet_for_each; intros x; apply quiet_ensure_connected | intros _].
  apply quiet_bind; [apply quiet_check_output | intros _].
  apply quiet_bind; [apply quiet_remove_local_copy | intros _].
  apply quiet_bind; [apply quiet_time_get | intros t].
  apply quiet_bind; [apply quiet_all_connected | intros ok].
  apply quiet_ret.
Qed.

Lemma attempt_eq (file : IPFSFile.t) (hosts : list IPFSNode.t)
    (samples tries : Z) (h : trace) :
  attempt os self file hosts samples tries h
  = attempt_body os self file hosts (log h (Print (attempt_banner tries samples))).
Proof. reflexivity. Qed.

Lemma is_attempt_banner (tries samples : Z) :
  is_attempt (Print (attempt_banner tries samples)) = true.
Proof.
  unfold attempt_banner. simpl. destruct (Py.str tries ++ _); reflexivity.
Qed.

(** Every attempt, however it ends, is announced exactly once. *)
Lemma attempt_trace (file : IPFSFile.t) (hosts : list IPFSNode.t)
    (samples tries : Z) (h : trace) (r : result (float * bool)) (h' : trace) :
  attempt os self file hosts samples tries h = (r, h') ->
  r <> Timeout /\ exists ev, h' = (h ++ ev)%list /\ attempts ev = 1%nat.
Proof.
  rewrite attempt_eq. intros E.
  destruct (quiet_attempt_body _ _ _ _ _ E) as [Hr [ev [-> Hev]]].
  split; [exact Hr|].
  exists (Print (attempt_banner tries samples) :: ev).
  unfold log. rewrite <- app_assoc. split; [reflexivity|].
  unfold attempts in *. rewrite count_cons, Hev, is_attempt_banner.
  reflexivity.
Qed.

End Benchmark.

(** *** The sampling loop *)

Section Sampling.

Variable os : OS.
Variable self : IPFSClient.
Variable file : IPFSFile.t.
Variable hosts : list IPFSNode.t.
Variable samples : Z.

Local Abbreviation len := (fun l : list float => Z.of_nat (List.length l)).

Lemma get_stats_loop_S (fuel : nat) (gets : list float) (tries : Z) (h : trace) :
  get_stats_loop os self (S fuel) file hosts samples gets tries h =
  if ((len gets <? samples) && (tries <? samples * 2))%bool
  then
    match attempt os self file hosts samples (tries + 1) h with
    | (Ret (t, ok), h1) =>
        get_stats_loop os self fuel file hosts samples
          (if ok then (gets ++ [t])%list else gets) (tries + 1) h1
    | (Exit, h1) => (Exit, h1)
    | (Raise e, h1) => (Raise e, h1)
    | (Killed, h1) => (Killed, h1)
    | (Timeout, h1) => (Timeout, h1)
    end
  else (Ret (gets, tries), h).
Proof.
  simpl. destruct ((len gets <? samples) && (tries <? samples * 2))%bool;
    [|reflexivity].
  unfold bind.
  destruct (attempt os self file hosts samples (tries + 1) h)
    as [[[t ok]| | | |] h1]; reflexivity.
Qed.

Lemma get_stats_loop_stop (fuel : nat) (gets : list float) (tries : Z) (h : trace) :
  ((len gets <? samples) && (tries <? samples * 2))%bool = false ->
  get_stats_loop os self fuel file hosts samples gets tries h
  = (Ret (gets, tries), h).
Proof.
  intros Hc. destruct fuel; simpl; rewrite Hc; reflexivity.
Qed.

(** The loop invariant.  With a bound that covers the remaining budget the
    loop never reaches it; it makes at most the remaining budget of
    attempts; and when it returns, the attempt counter has grown by the
    number of attempts made, the samples by no more than that, and the loop
    condition is false. *)
Lemma get_stats_loop_inv (fuel : nat) :
  forall (gets : list float) (tries : Z) (h : trace)
         (r : result (list float * Z)) (h' : trace),
    samples * 2 - tries <= Z.of_nat fuel ->
    get_stats_loop os self fuel file hosts samples gets tries h = (r, h') ->
    r <> Timeout
    /\ exists ev,
         h' = (h ++ ev)%list
         /\ Z.of_nat (attempts ev) <= Z.max 0 (samples * 2 - tries)
         /\ forall gets' tries',
              r = Ret (gets', tries') ->
              tries' = tries + Z.of_nat (attempts ev)
              /\ len gets <= len gets'
              /\ len gets' - len gets <= tries' - tries
              /\ len gets' <= Z.max (len gets) samples
              /\ ((len gets' <? samples) && (tries' <? samples * 2))%bool
                 = false.
Proof.
  induction fuel as [|fuel IH]; intros gets tries h r h' Hfuel E.
  - destruct ((len gets <? samples) && (tries <? samples * 2))%bool eqn:Hc.
    + apply andb_prop in Hc. destruct Hc as [_ Hc].
      apply Z.ltb_lt in Hc. simpl in Hfuel. lia.
    + rewrite get_stats_loop_stop in E by exact Hc. inversion E; subst.
      split; [discriminate|]. exists []. rewrite app_nil_r.
      split; [reflexivity|]. split; [simpl; lia|].
      intros gets' tries' [= <- <-]. simpl.
      repeat split; try lia; exact Hc.
  - rewrite get_stats_loop_S in E.
    destruct ((len gets <? samples) && (tries <? samples * 2))%bool eqn:Hc.
    + pose proof Hc as Hc'. apply andb_prop in Hc'.
      destruct Hc' as [Hg Ht]. apply Z.ltb_lt in Hg, Ht.
      destruct (attempt os self file hosts samples (tries + 1) h)
        as [r1 h1] eqn:Ea.
      apply attempt_trace in Ea. destruct Ea as [Hr1 [ev1 [-> Hev1]]].
      destruct r1 as [[t ok]| |e| |].
      * apply IH in E; [|lia].
        destruct E as [Hr [ev2 [-> [Hbound Hret]]]].
        split; [exact Hr|].
        exists (ev1 ++ ev2)%list. rewrite app_assoc.
        split; [reflexivity|].
        unfold attempts in *. rewrite count_app, Hev1.
        split; [lia|].
        intros gets' tries' Er. specialize (Hret _ _ Er).
        destruct Hret as [Ht' [Hlo [Hhi [Hmax Hstop]]]].
        assert (Hl : len gets <= len (if ok then (gets ++ [t])%list else gets)
                     <= len gets + 1).
        { destruct ok; [rewrite length_app; simpl|]; lia. }
        cbv beta in Hl. repeat split; try lia; exact Hstop.
      * inversion E; subst. split; [discriminate|].
        exists ev1. split; [reflexivity|]. rewrite Hev1.
        split; [lia | discriminate].
      * inversion E; subst. split; [discriminate|].
        exists ev1. split; [reflexivity|]. rewrite Hev1.
        split; [lia | discriminate].
      * inversion E; subst. split; [discriminate|].
        exists ev1. split; [reflexivity|]. rewrite Hev1.
        split; [lia | discriminate].
      * congruence.
    + inversion E; subst.
      split; [discriminate|]. exists []. rewrite app_nil_r.
      split; [reflexivity|]. split; [simpl; lia|].
      intros gets' tries' [= <- <-]. simpl.
      repeat split; try lia; exact Hc.
Qed.

End Sampling.

(** *** The whole benchmark *)

(** How a run of [get_stats] is made of the loop, the cleanup and the
    division. *)
Lemma get_stats_eq (os : OS) (self : IPFSClient) (file : IPFSFile.t)
    (hosts : list IPFSNode.t) (samples : Z) (h : trace) :
  get_stats os self file hosts samples h =
  match get_stats_loop os self (Z.to_nat (samples * 2)) file hosts samples
          [] 0 (log h (Print "Collecting ipfs stats...")) with
  | (Ret (gets, tries), hl) =>
      match remove_local_copy os file hl with
      | (Ret _, hc) =>
          if Z.of_nat (List.length gets) =? 0
          then (Raise ZeroDivisionError, hc)
          else (Ret {| tries := tries; gets := gets;
                       average := Py.truediv (Py.sum gets)
                                    (Z.of_nat (List.length gets)) |},
                hc)
      | (Exit, hc) => (Exit, hc)
      | (Raise e, hc) => (Raise e, hc)
      | (Killed, hc) => (Killed, hc)
      | (Timeout, hc) => (Timeout, hc)
      end
  | (Exit, hl) => (Exit, hl)
  | (Raise e, hl) => (Raise e, hl)
  | (Killed, hl) => (Killed, hl)
  | (Timeout, hl) => (Timeout, hl)
  end.
Proof.
  unfold get_stats. unfold bind at 1. unfold print at 1.
  unfold bind at 1.
  destruct (get_stats_loop _ _ _ _ _ _ _ _ _) as [[[gets tries]| | | |] hl];
    try reflexivity.
  unfold bind at 1.
  destruct (remove_local_copy os file hl) as [[[]| | | |] hc]; try reflexivity.
  unfold bind, mean_of.
  destruct (Z.of_nat (List.length gets) =? 0); reflexivity.
Qed.

(** Every run of [get_stats]: it ends without reaching the iteration bound,
    makes no more attempts than the budget, and a returned dictionary
    carries what the loop left. *)
Lemma get_stats_run (os : OS) (self : IPFSClient) (file : IPFSFile.t)
    (hosts : list IPFSNode.t) (samples : Z) (h : trace)
    (r : result stats) (h' : trace) :
  get_stats os self file hosts samples h = (r, h') ->
  r <> Timeout
  /\ exists ev,
       h' = (h ++ ev)%list
       /\ Z.of_nat (attempts ev) <= Z.max 0 (samples * 2)
       /\ forall s, r = Ret s ->
            tries s = Z.of_nat (attempts ev)
            /\ Z.of_nat (List.length (gets s)) <= tries s
            /\ Z.of_nat (List.length (gets s)) <= Z.max 0 samples
            /\ 0 < Z.of_nat (List.length (gets s))
            /\ average s
               = Py.truediv (Py.sum (gets s))
                            (Z.of_nat (List.length (gets s))).
Proof.
  rewrite get_stats_eq.
  destruct (get_stats_loop _ _ _ _ _ _ _ _ _) as [rl hl] eqn:El.
  apply get_stats_loop_inv in El; [|lia].
  destruct El as [Hrl [evl [-> [Hbound Hret]]]].
  rewrite Z.sub_0_r in Hbound.
  assert (Hframe : forall ev,
             attempts ev = 0%nat ->
             attempts ((Print "Collecting ipfs stats..." :: evl) ++ ev)%list
             = attempts evl).
  { intros ev Hev. unfold attempts in *.
    rewrite count_app, count_cons, Hev. simpl. lia. }
  assert (Hshape : forall ev,
             ((log h (Print "Collecting ipfs stats...") ++ evl) ++ ev)%list
             = (h ++ (Print "Collecting ipfs stats..." :: evl) ++ ev)%list).
  { intros ev. unfold log. rewrite <- !app_assoc. reflexivity. }
  destruct rl as [[gets0 tries0]| |e| |].
  - destruct (Hret _ _ eq_refl) as [Ht [_ [Hhi [Hmax _]]]].
    destruct (remove_local_copy os file _) as [rc hc] eqn:Ec.
    apply quiet_remove_local_copy in Ec. destruct Ec as [Hrc [evc [-> Hevc]]].
    rewrite Hshape.
    assert (Hany : forall r0 : result stats,
               r0 <> Timeout ->
               (forall s, r0 = Ret s ->
                  s = {| tries := tries0; gets := gets0;
                         average := Py.truediv (Py.sum gets0)
                                      (Z.of_nat (List.length gets0)) |}
                  /\ 0 < Z.of_nat (List.length gets0)) ->
               (r0, (h ++ (Print "Collecting ipfs stats..." :: evl) ++ evc)%list)
               = (r, h') ->
               r <> Timeout
               /\ exists ev,
                    h' = (h ++ ev)%list
                    /\ Z.of_nat (attempts ev) <= Z.max 0 (samples * 2)
                    /\ forall s, r = Ret s ->
                         tries s = Z.of_nat (attempts ev)
                         /\ Z.of_nat (List.length (gets s)) <= tries s
                         /\ Z.of_nat (List.length (gets s)) <= Z.max 0 samples
                         /\ 0 < Z.of_nat (List.length (gets s))
                         /\ average s
                            = Py.truediv (Py.sum (gets s))
                                (Z.of_nat (List.length (gets s)))).
    { intros r0 Hr0 Hs E. inversion E; subst. split; [exact Hr0|].
      exists ((Print "Collecting ipfs stats..." :: evl) ++ evc)%list.
      split; [reflexivity|]. rewrite (Hframe evc Hevc).
      split; [exact Hbound|].
      intros s Es. destruct (Hs s Es) as [-> Hpos]. simpl in *.
      repeat split; lia. }
    destruct rc as [[]| |e| |].
    + destruct (Z.of_nat (List.length gets0) =? 0) eqn:Hz; apply Hany;
        try discriminate.
      intros s [= <-]. apply Z.eqb_neq in Hz. split; [reflexivity | lia].
    + apply Hany; discriminate.
    + apply Hany; discriminate.
    + apply Hany; discriminate.
    + congruence.
  - intros E; inversion E; subst. split; [discriminate|].
    exists (Print "Collecting ipfs stats..." :: evl).
    rewrite <- (app_nil_r (_ :: evl)), <- Hshape, app_nil_r.
    split; [reflexivity|]. rewrite (Hframe [] eq_refl).
    split; [exact Hbound | discriminate].
  - intros E; inversion E; subst. split; [discriminate|].
    exists (Print "Collecting ipfs stats..." :: evl).
    rewrite <- (app_nil_r (_ :: evl)), <- Hshape, app_nil_r.
    split; [reflexivity|]. rewrite (Hframe [] eq_refl).
    split; [exact Hbound | discriminate].
  - intros E; inversion E; subst. split; [discriminate|].
    exists (Print "Collecting ipfs stats..." :: evl).
    rewrite <- (app_nil_r (_ :: evl)), <- Hshape, app_nil_r.
    split; [reflexivity|]. rewrite (Hframe [] eq_refl).
    split; [exact Hbound | discriminate].
  - congruence.
Qed.

(** C1: a run of [get_stats] never reaches the iteration bound of the
    model; with a non-negative [samples] it makes at most [2 * samples]
    attempts, however it ends; a returned dictionary holds at most [samples]
    samples, a [tries] of at most [2 * samples] that equals the number of
    attempts made, and no more samples than tries.  An attempt whose check
    after the fetch fails leaves the samples as they were and still counts:
    the loop goes on with the same samples and one more try. *)
Theorem get_stats_bounds :
  forall (os : OS) (self : IPFSClient) (file : IPFSFile.t)
         (hosts : list IPFSNode.t) (samples : Z) (h : trace),
    fst (get_stats os self file hosts samples h) <> Timeout
    /\ (0 <= samples ->
        exists ev,
          snd (get_stats os self file hosts samples h) = (h ++ ev)%list
          /\ Z.of_nat (attempts ev) <= 2 * samples)
    /\ (forall (s : stats) (h' : trace),
          get_stats os self file hosts samples h = (Ret s, h') ->
          Z.of_nat (List.length (gets s)) <= samples
          /\ tries s <= 2 * samples
          /\ Z.of_nat (List.length (gets s)) <= tries s
          /\ exists ev, h' = (h ++ ev)%list
                        /\ tries s = Z.of_nat (attempts ev))
    /\ (forall (fuel : nat) (gets0 : list float) (tries0 : Z) (h0 : trace)
               (t : float) (h1 : trace),
          ((Z.of_nat (List.length gets0) <? samples)
           && (tries0 <? samples * 2))%bool = true ->
          attempt os self file hosts samples (tries0 + 1) h0
          = (Ret (t, false), h1) ->
          get_stats_loop os self (S fuel) file hosts samples gets0 tries0 h0
          = get_stats_loop os self fuel file hosts samples gets0
              (tries0 + 1) h1).
Proof.
  intros os self file hosts samples h.
  destruct (get_stats os self file hosts samples h) as [r h'] eqn:E.
  destruct (get_stats_run _ _ _ _ _ _ _ _ E) as [Hr [ev [-> [Hb Hs]]]].
  split; [exact Hr|]. split; [|split].
  - intros Hpos. exists ev. split; [reflexivity | lia].
  - intros s h'' [= -> <-].
    destruct (Hs s eq_refl) as [Ht [Hle [Hmax [Hpos _]]]].
    repeat split; try lia. exists ev. split; [reflexivity | exact Ht].
  - intros fuel gets0 tries0 h0 t h1 Hc Ea.
    rewrite get_stats_loop_S, Hc, Ea. reflexivity.
Qed.

Lemma get_stats_bounds_witness :
  (exists ev,
      snd (get_stats churn Example.client Example.target [Example.peer] 3 [])
      = ([] ++ ev)%list
      /\ Z.of_nat (attempts ev) <= 2 * 3)
  /\ (forall (s : stats) (h' : trace),
        get_stats churn Example.client Example.target [Example.peer] 3 []
        = (Ret s, h') ->
        Z.of_nat (List.length (gets s)) <= 3 /\ tries s <= 2 * 3)
  /\ get_stats_loop churn Example.client 6 Example.target [Example.peer] 3 [] 0
       [Print "Collecting ipfs stats..."]
     = get_stats_loop churn Example.client 5 Example.target [Example.peer] 3
         [] (0 + 1)
         (snd (attempt churn Example.client Example.target [Example.peer] 3
                 (0 + 1) [Print "Collecting ipfs stats..."])).
Proof.
  pose proof (get_stats_bounds churn Example.client Example.target
                [Example.peer] 3 []) as [_ [A [B C]]].
  split; [|split].
  - apply A. lia.
  - intros s h' E. destruct (B s h' E) as [H1 [H2 _]]. split; assumption.
  - apply (C 5%nat [] 0 [Print "Collecting ipfs stats..."] 0.25%float).
    + reflexivity.
    + vm_compute. reflexivity.
Defined.




(** *** The garbage collection of an attempt *)

(** The claim as stated fails: when the garbage-collection command fails,
    the failure is not suppressed; an error is printed and the host process
    exits in the middle of the first attempt. *)
Lemma repo_gc_failure_not_suppressed :
  check_output_result gc_fails
    [Print "Collecting ipfs stats...";
     Print "Attempt 1 out of (min: 3, max: 6)";
     CheckOutput "./go-ipfs/ipfs swarm addrs"]
    "./go-ipfs/ipfs repo gc" = None
  /\ get_stats gc_fails Example.client Example.target [Example.peer] 3 []
     = (Exit,
        [Print "Collecting ipfs stats...";
         Print "Attempt 1 out of (min: 3, max: 6)";
         CheckOutput "./go-ipfs/ipfs swarm addrs";
         CheckOutput "./go-ipfs/ipfs repo gc";
         Print "ERROR: Failed to run ipfs command: repo gc. Please report this error"]).
Proof. split; vm_compute; reflexivity. Qed.

(** C5 (amended): in every attempt, once the hosts have been connected, the
    garbage-collection command is run through [check_output], the capture
    call shape.  When it succeeds its output is dropped and the attempt goes
    on with the cleanup and the timed fetch.  When it fails, an error line
    is printed and the host process exits: the attempt, the loop and
    [get_stats] all end there. *)
Theorem attempt_repo_gc :
  forall (os : OS) (self : IPFSClient) (file : IPFSFile.t)
         (hosts : list IPFSNode.t) (samples tries0 : Z) (h h1 : trace),
    for_each hosts (ensure_connected os self)
      (log h (Print (attempt_banner (tries0 + 1) samples))) = (Ret tt, h1) ->
    (forall out,
        check_output_result os h1 (_get_command self "repo gc") = Some out ->
        attempt os self file hosts samples (tries0 + 1) h
        = (remove_local_copy os file ;;
           t <- time_get os self (IPFSFile.hash file) ;;
           ok <- all_connected os self hosts ;;
           ret (t, ok))
            (log h1 (CheckOutput (_get_command self "repo gc"))))
    /\ (check_output_result os h1 (_get_command self "repo gc") = None ->
        attempt os self file hosts samples (tries0 + 1) h
        = (Exit,
           log (log h1 (CheckOutput (_get_command self "repo gc")))
               (Print (failed_ipfs_command "repo gc")))
        /\ forall (fuel : nat) (gets0 : list float),
             ((Z.of_nat (List.length gets0) <? samples)
              && (tries0 <? samples * 2))%bool = true ->
             get_stats_loop os self (S fuel) file hosts samples gets0 tries0 h
             = (Exit,
                log (log h1 (CheckOutput (_get_command self "repo gc")))
                    (Print (failed_ipfs_command "repo gc")))).
Proof.
  intros os self file hosts samples tries0 h h1 Hconn.
  assert (Hgc : attempt os self file hosts samples (tries0 + 1) h
                = (check_output os self "repo gc" ;;
                   remove_local_copy os file ;;
                   t <- time_get os self (IPFSFile.hash file) ;;
                   ok <- all_connected os self hosts ;;
                   ret (t, ok)) h1).
  { unfold attempt. unfold bind at 1. unfold print at 1.
    unfold bind at 1. rewrite Hconn. reflexivity. }
  split.
  - intros out Hout. rewrite Hgc. unfold bind at 1.
    rewrite check_output_eq, Hout. reflexivity.
  - intros Hnone.
    assert (Ha : attempt os self file hosts samples (tries0 + 1) h
                 = (Exit,
                    log (log h1 (CheckOutput (_get_command self "repo gc")))
                        (Print (failed_ipfs_command "repo gc")))).
    { rewrite Hgc. unfold bind at 1. rewrite check_output_eq, Hnone.
      reflexivity. }
    split; [exact Ha|].
    intros fuel gets0 Hc. rewrite get_stats_loop_S, Hc, Ha. reflexivity.
Qed.

Lemma attempt_repo_gc_witness :
  attempt steady Example.client Example.target [Example.peer] 3 (0 + 1) []
  = (remove_local_copy steady Example.target ;;
     t <- time_get steady Example.client "QmXYZ" ;;
     ok <- all_connected steady Example.client [Example.peer] ;;
     ret (t, ok))
      [Print "Attempt 1 out of (min: 3, max: 6)";
       CheckOutput "./go-ipfs/ipfs swarm addrs";
       CheckOutput "./go-ipfs/ipfs repo gc"]
  /\ attempt gc_fails Example.client Example.target [Example.peer] 3 (0 + 1) []
     = (Exit,
        [Print "Attempt 1 out of (min: 3, max: 6)";
         CheckOutput "./go-ipfs/ipfs swarm addrs";
         CheckOutput "./go-ipfs/ipfs repo gc";
         Print "ERROR: Failed to run ipfs command: repo gc. Please report this error"]).
Proof.
  split.
  - refine (proj1 (attempt_repo_gc steady Example.client Example.target
                     [Example.peer] 3 0 []
                     [Print "Attempt 1 out of (min: 3, max: 6)";
                      CheckOutput "./go-ipfs/ipfs swarm addrs"] _)
                  EmptyString _); vm_compute; reflexivity.
  - refine (proj1 (proj2 (attempt_repo_gc gc_fails Example.client
                            Example.target [Example.peer] 3 0 []
                            [Print "Attempt 1 out of (min: 3, max: 6)";
                             CheckOutput "./go-ipfs/ipfs swarm addrs"] _) _));
      vm_compute; reflexivity.
Defined.

(** ** Presence tokens *)

(** The session of a non-negative clock reading [a / b]. *)
Lemma sessionId_div (a : Z) (b : positive) :
  0 <= a -> sessionId (a # b) = a / (60 * Zpos b).
Proof.
  intros Ha. unfold sessionId, Py.int_of_float. simpl.
  rewrite Z.mul_1_r, Z.quot_div_nonneg by lia.
  f_equal. lia.
Qed.

Lemma Qfloor_div60 (a : Z) (b : positive) :
  Qfloor ((a # b) / 60) = a / (60 * Zpos b).
Proof.
  unfold Qfloor. simpl. rewrite Z.mul_1_r. f_equal. lia.
Qed.

Lemma Qnum_nonneg (t : Q) : (0 <= t)%Q -> 0 <= Qnum t.
Proof. unfold Qle. simpl. lia. Qed.

(** For a clock reading that is not negative, [int(now / 60)] is the floor. *)
Lemma sessionId_floor (now : Q) :
  (0 <= now)%Q -> sessionId now = Qfloor (now / 60).
Proof.
  intros H. apply Qnum_nonneg in H. destruct now as [a b].
  rewrite sessionId_div, Qfloor_div60 by exact H. reflexivity.
Qed.

Lemma publish_trace (os : OS) (self : IPFSClient) (t : string) (h : trace) :
  exists ev, publish os self t h = (Ret tt, (h ++ ev)%list)
             /\ captured ev = [publish_command self t].
Proof.
  unfold publish, bind, subprocess_check_output.
  destruct (check_output_result os h _).
  - exists [CheckOutput (publish_command self t)]. split; reflexivity.
  - exists [CheckOutput (publish_command self t);
            Print (failed_command (publish_command self t))].
    unfold print, log. rewrite <- app_assoc. split; reflexivity.
Qed.

Lemma for_each_publish_trace (os : OS) (self : IPFSClient)
    (ts : list string) :
  forall h, exists ev,
    for_each ts (publish os self) h = (Ret tt, (h ++ ev)%list)
    /\ captured ev = map (publish_command self) ts.
Proof.
  induction ts as [|t ts IH]; intros h; simpl.
  - exists []. rewrite app_nil_r. split; reflexivity.
  - unfold bind. destruct (publish_trace os self t h) as [ev1 [-> H1]].
    destruct (IH (h ++ ev1)%list) as [ev2 [-> H2]].
    exists (ev1 ++ ev2)%list. rewrite app_assoc. split; [reflexivity|].
    rewrite captured_app, H1, H2. reflexivity.
Qed.

(** [int(x)] is the floor of [x] when [x] is not negative and its ceiling
    when it is. *)
Lemma int_of_float_trunc (x : Q) :
  Py.int_of_float x = if Qle_bool 0 x then Qfloor x else Qceiling x.
Proof.
  destruct x as [a b]. unfold Py.int_of_float, Qle_bool, Qceiling, Qfloor, Qopp.
  cbn [Qnum Qden]. rewrite Z.mul_1_r. change (0 * Zpos b) with 0.
  destruct (Z.leb_spec 0 a) as [Ha|Ha].
  - apply Z.quot_div_nonneg; lia.
  - rewrite <- (Z.opp_involutive a) at 1.
    rewrite Z.quot_opp_l by lia. f_equal.
    apply Z.quot_div_nonneg; lia.
Qed.

Lemma Qle_bool_div60 (now : Q) : Qle_bool 0 (now / 60) = Qle_bool 0 now.
Proof.
  destruct now as [a b]. unfold Qle_bool, Qdiv, Qmult, Qinv.
  cbn [Qnum Qden]. rewrite !Z.mul_1_r. reflexivity.
Qed.

(** The window of every clock reading. *)
Lemma sessionId_trunc (now : Q) :
  sessionId now
  = if Qle_bool 0 now then Qfloor (now / 60) else Qceiling (now / 60).
Proof.
  unfold sessionId. rewrite int_of_float_trunc, Qle_bool_div60. reflexivity.
Qed.

(** The claim as stated fails for a clock that reads a time before the
    epoch: one second before it the floor of [now / 60] is -1, the window
    taken is 0, and the tokens published are those of the windows 0, 1 and
    2. *)
Lemma genHostSwarmFiles_window_not_floor :
  time_result before_epoch [] = inject_Z (-1)
  /\ Qfloor (inject_Z (-1) / 60) = -1
  /\ sessionId (inject_Z (-1)) = 0
  /\ captured (snd (genHostSwarmFiles before_epoch Example.client []))
     = map (fun w =>
              "echo -n " ++ Py.dquote ++ "Member of P2P CDN Session: " ++ w
                ++ Py.dquote
                ++ " | ./go-ipfs/ipfs add | awk  '{print $2}' | ./go-ipfs/ipfs pin add")
           ["0"; "1"; "2"].
Proof. vm_compute. repeat split. Qed.

(** C3 (amended): [genHostSwarmFiles] always returns.  It reads the clock
    once and takes as window [int(now / 60)], which is [floor(now / 60)]
    for a clock reading that is not negative and the ceiling of [now / 60]
    for one that is.  The commands it then runs are exactly three, in
    order: for the window and the next two, the pipeline that echoes the
    token of that window, between double quotes, into the add command of the
    client and pins the resulting hash.  When the clock reads 120 the
    windows are 2, 3 and 4 and the tokens are the three strings below. *)
Theorem genHostSwarmFiles_tokens :
  forall (os : OS) (self : IPFSClient) (h : trace),
    (exists (w : Z) (ev : list event),
        w = (if Qle_bool 0 (time_result os h)
             then Qfloor (time_result os h / 60)
             else Qceiling (time_result os h / 60))
        /\ genHostSwarmFiles os self h = (Ret tt, (h ++ ev)%list)
        /\ captured ev
           = map (fun w' =>
                    "echo -n " ++ Py.dquote ++ "Member of P2P CDN Session: "
                      ++ Py.str w' ++ Py.dquote ++ " | " ++ ipfs_binary self
                      ++ " add | awk  '{print $2}' | " ++ ipfs_binary self
                      ++ " pin add")
                 [w; w + 1; w + 2])
    /\ windows 120 = [2; 3; 4]
    /\ sharedTokens 120
       = ["Member of P2P CDN Session: 2"; "Member of P2P CDN Session: 3";
          "Member of P2P CDN Session: 4"].
Proof.
  intros os self h. split; [|split; reflexivity].
  unfold genHostSwarmFiles, bind, time_time.
  destruct (for_each_publish_trace os self
              (sharedTokens (time_result os h)) (log h TimeTime))
    as [ev [-> Hev]].
  exists (sessionId (time_result os h)), (TimeTime :: ev).
  split; [apply sessionId_trunc|].
  unfold log. rewrite <- app_assoc. split; [reflexivity|].
  change (captured (TimeTime :: ev)) with (captured ev). rewrite Hev.
  unfold sharedTokens, windows. simpl. rewrite Z.add_0_r. reflexivity.
Qed.

Lemma genHostSwarmFiles_tokens_witness :
  exists ev,
    genHostSwarmFiles at_120 Example.client [] = (Ret tt, ([] ++ ev)%list)
    /\ captured ev
       = map (fun w' =>
                "echo -n " ++ Py.dquote ++ "Member of P2P CDN Session: "
                  ++ Py.str w' ++ Py.dquote ++ " | " ++ "./go-ipfs/ipfs"
                  ++ " add | awk  '{print $2}' | " ++ "./go-ipfs/ipfs"
                  ++ " pin add")
             [2; 2 + 1; 2 + 2].
Proof.
  destruct (genHostSwarmFiles_tokens at_120 Example.client [])
    as [[w [ev [Hw [E Hc]]]] _].
  vm_compute in Hw. subst w. exists ev. split; [exact E | exact Hc].
Defined.

(** *** Windows a minute apart *)

Lemma div_shift (a b k : Z) :
  0 < b -> 0 <= k ->
  0 <= a - 60 * b * (a / (60 * b)) + k * b < 60 * b ->
  (a + (60 + k) * b) / (60 * b) = a / (60 * b) + 1.
Proof.
  intros Hb Hk Hr. symmetry.
  apply (Z.div_unique _ _ _ (a - 60 * b * (a / (60 * b)) + k * b)).
  - left. exact Hr.
  - ring.
Qed.

Lemma div_shift_twice (a b k : Z) :
  0 < b -> 0 <= k ->
  60 * b <= a - 60 * b * (a / (60 * b)) + k * b < 120 * b ->
  (a + (60 + k) * b) / (60 * b) = a / (60 * b) + 2.
Proof.
  intros Hb Hk Hr. symmetry.
  apply (Z.div_unique _ _ _ (a - 60 * b * (a / (60 * b)) + k * b - 60 * b)).
  - left. lia.
  - ring.
Qed.

Lemma windows_shift (t t' : Q) (d : Z) :
  sessionId t' = sessionId t + d ->
  windows t' = map (fun w => w + d) (windows t).
Proof.
  intros E. unfold windows. rewrite E. simpl.
  f_equal; [lia|]. f_equal; [lia|]. f_equal. lia.
Qed.

Lemma offset_lt (a : Z) (b : positive) (c : Z) :
  0 <= a ->
  (offset (a # b) < c # 1)%Q <->
  a - 60 * Zpos b * (a / (60 * Zpos b)) < c * Zpos b.
Proof.
  intros Ha. unfold offset. rewrite sessionId_div by exact Ha.
  generalize (a / (60 * Zpos b)). intros q.
  unfold Qlt, Qminus, Qplus, Qopp, inject_Z. cbn [Qnum Qden].
  rewrite Pos2Z.inj_mul. lia.
Qed.

Lemma offset_ge (a : Z) (b : positive) (c : Z) :
  0 <= a ->
  (c # 1 <= offset (a # b))%Q <->
  c * Zpos b <= a - 60 * Zpos b * (a / (60 * Zpos b)).
Proof.
  intros Ha. unfold offset. rewrite sessionId_div by exact Ha.
  generalize (a / (60 * Zpos b)). intros q.
  unfold Qle, Qminus, Qplus, Qopp, inject_Z. cbn [Qnum Qden].
  rewrite Pos2Z.inj_mul. lia.
Qed.

Lemma sessionId_61_later (a : Z) (b : positive) :
  0 <= a ->
  sessionId ((a # b) + 61) = (a + (60 + 1) * Zpos b) / (60 * Zpos b).
Proof.
  intros Ha. unfold Qplus. cbn [Qnum Qden].
  rewrite sessionId_div by lia. rewrite Pos2Z.inj_mul.
  f_equal; lia.
Qed.

(** The claim as stated fails: 59 seconds into the first minute, 61 seconds
    later is the third minute, and the windows are 2 greater, not 1.  It
    fails for times before the epoch as well, where [int] rounds up: half a
    minute before it the windows are those of 61 seconds later, and two
    minutes before it the time 59 seconds later has the same floor of
    [t / 60] and other windows. *)
Lemma windows_61_later_refuted :
  windows 59 = [0; 1; 2]
  /\ windows (59 + 61) = [2; 3; 4]
  /\ windows (59 + 61) <> map (fun w => w + 1) (windows 59)
  /\ windows (inject_Z (-30) + 61) = windows (inject_Z (-30))
  /\ Qfloor (inject_Z (-120) / 60) = Qfloor ((inject_Z (-120) + 59) / 60)
  /\ windows (inject_Z (-120) + 59) <> windows (inject_Z (-120)).
Proof. vm_compute. repeat split; discriminate. Qed.

(** C6 (amended): for a time [t] that is not negative, the windows of [t]
    and of [t + 59] are the same whenever both fall in the same minute.  The
    windows of [t + 61] are each 1 greater than those of [t] when [t] is
    less than 59 seconds into its minute, and each 2 greater otherwise. *)
Theorem windows_minute_apart :
  forall t : Q,
    (0 <= t)%Q ->
    (Qfloor (t / 60) = Qfloor ((t + 59) / 60) -> windows (t + 59) = windows t)
    /\ ((offset t < 59)%Q ->
        windows (t + 61) = map (fun w => w + 1) (windows t))
    /\ ((59 <= offset t)%Q ->
        windows (t + 61) = map (fun w => w + 2) (windows t)).
Proof.
  intros t Ht. split; [|split].
  - intros Hsame. unfold windows.
    rewrite !sessionId_floor, Hsame; [reflexivity | exact Ht|].
    apply (Qle_trans _ (0 + 0)); [discriminate|].
    apply Qplus_le_compat; [exact Ht | discriminate].
  - intros Hoff. apply windows_shift. apply Qnum_nonneg in Ht.
    destruct t as [a b]. cbn [Qnum] in Ht.
    apply offset_lt in Hoff; [|exact Ht].
    rewrite sessionId_61_later, sessionId_div by exact Ht.
    pose proof (Z.mod_pos_bound a (60 * Zpos b) ltac:(lia)) as Hm.
    rewrite Z.mod_eq in Hm by lia.
    apply div_shift; lia.
  - intros Hoff. apply windows_shift. apply Qnum_nonneg in Ht.
    destruct t as [a b]. cbn [Qnum] in Ht.
    apply offset_ge in Hoff; [|exact Ht].
    rewrite sessionId_61_later, sessionId_div by exact Ht.
    pose proof (Z.mod_pos_bound a (60 * Zpos b) ltac:(lia)) as Hm.
    rewrite Z.mod_eq in Hm by lia.
    apply div_shift_twice; lia.
Qed.

Lemma windows_minute_apart_witness :
  windows (0 + 59) = windows 0
  /\ windows (30 + 61) = map (fun w => w + 1) (windows 30)
  /\ windows (59 + 61) = map (fun w => w + 2) (windows 59).
Proof.
  split; [|split].
  - refine (proj1 (windows_minute_apart 0 _) _);
      [vm_compute; discriminate | reflexivity].
  - refine (proj1 (proj2 (windows_minute_apart 30 _)) _);
      [vm_compute; discriminate | vm_compute; reflexivity].
  - refine (proj2 (proj2 (windows_minute_apart 59 _)) _);
      vm_compute; discriminate.
Defined.

(** * Further properties of the code *)

(** ** Substrings *)

Lemma append_assoc (a b c : string) : (a ++ b) ++ c = a ++ (b ++ c).
Proof. induction a as [|x a IH]; simpl; [reflexivity | rewrite IH; reflexivity]. Qed.

Lemma append_nil_r (a : string) : a ++ EmptyString = a.
Proof. induction a as [|x a IH]; simpl; [reflexivity | rewrite IH; reflexivity]. Qed.

Lemma prefix_nil (s : string) : String.prefix EmptyString s = true.
Proof. destruct s; reflexivity. Qed.

Lemma prefix_append (a b : string) : String.prefix a (a ++ b) = true.
Proof.
  induction a as [|x a IH]; simpl; [apply prefix_nil|].
  destruct (ascii_dec x x); [exact IH | congruence].
Qed.

Lemma prefix_split (a s : string) :
  String.prefix a s = true -> exists b, s = a ++ b.
Proof.
  revert s. induction a as [|x a IH]; intros s H.
  - exists s. reflexivity.
  - destruct s as [|y s]; simpl in H; [discriminate|].
    destruct (ascii_dec x y) as [->|]; [|discriminate].
    destruct (IH s H) as [b ->]. exists b. reflexivity.
Qed.

Lemma contains_nil (needle : string) :
  Py.contains needle EmptyString = String.prefix needle EmptyString.
Proof. simpl. apply orb_false_r. Qed.

Lemma contains_cons (needle : string) (c : ascii) (hay : string) :
  Py.contains needle (String c hay)
  = (String.prefix needle (String c hay) || Py.contains needle hay)%bool.
Proof. reflexivity. Qed.

(** [needle in hay] holds exactly when [hay] is some text, then [needle],
    then some text. *)
Lemma contains_iff (needle hay : string) :
  Py.contains needle hay = true
  <-> exists before after, hay = before ++ needle ++ after.
Proof.
  split.
  - induction hay as [|c hay IH]; intros H.
    + rewrite contains_nil in H. apply prefix_split in H.
      destruct H as [b Hb]. exists EmptyString, b. exact Hb.
    + rewrite contains_cons in H. apply orb_prop in H. destruct H as [H|H].
      * apply prefix_split in H.
        destruct H as [b Hb]. exists EmptyString, b. exact Hb.
      * destruct (IH H) as [before [after ->]].
        exists (String c before), after. reflexivity.
  - intros [before [after ->]]. induction before as [|c before IH].
    + change (EmptyString ++ needle ++ after) with (needle ++ after).
      destruct (needle ++ after) as [|c rest] eqn:E.
      * rewrite contains_nil, <- E. apply prefix_append.
      * rewrite contains_cons, <- E, prefix_append. reflexivity.
    + change (String c before ++ needle ++ after)
        with (String c (before ++ needle ++ after)).
      rewrite contains_cons, IH. apply orb_true_r.
Qed.

Lemma contains_trans (a b c : string) :
  Py.contains a b = true -> Py.contains b c = true -> Py.contains a c = true.
Proof.
  rewrite !contains_iff. intros [p [q ->]] [p' [q' ->]].
  exists (p' ++ p), (q ++ q'). rewrite !append_assoc. reflexivity.
Qed.

(** ** Peer connections, further *)

(** X1: [is_connected] makes exactly one query of the swarm address listing.  It
    returns [True] exactly when the listing is obtained, decodes, and holds
    the identifier of the node somewhere in its text, whatever surrounds it;
    it exits exactly when the query fails, and raises [UnicodeDecodeError]
    exactly when the output does not decode. *)
Theorem is_connected_substring :
  forall (os : OS) (self : IPFSClient) (ipfs_node : IPFSNode.t) (h : trace),
    (fst (is_connected os self ipfs_node h) = Ret true
     <-> exists out addrs before after,
           check_output_result os h (_get_command self "swarm addrs") = Some out
           /\ decode_utf8 os out = Some addrs
           /\ addrs = before ++ IPFSNode.id ipfs_node ++ after)
    /\ (fst (is_connected os self ipfs_node h) = Exit
        <-> check_output_result os h (_get_command self "swarm addrs") = None)
    /\ (fst (is_connected os self ipfs_node h) = Raise UnicodeDecodeError
        <-> exists out,
              check_output_result os h (_get_command self "swarm addrs")
              = Some out
              /\ decode_utf8 os out = None)
    /\ captured (snd (is_connected os self ipfs_node h))
       = (captured h ++ [_get_command self "swarm addrs"])%list.
Proof.
  intros os self ipfs_node h. rewrite is_connected_eq.
  destruct (check_output_result os h _) as [out|] eqn:Eo.
  - destruct (decode_utf8 os out) as [addrs|] eqn:Ed; simpl.
    + split; [|split; [|split]].
      * split.
        -- intros [= Hc]. apply contains_iff in Hc.
           destruct Hc as [before [after ->]].
           exists out, (before ++ IPFSNode.id ipfs_node ++ after), before, after.
           repeat split. exact Ed.
        -- intros [out' [addrs' [before [after [[= <-] [Hd ->]]]]]].
           rewrite Ed in Hd. injection Hd as ->. f_equal.
           apply contains_iff. exists before, after. reflexivity.
      * split; discriminate.
      * split; [discriminate|]. intros [out' [[= <-] Hd]]. congruence.
      * unfold log. rewrite captured_app. reflexivity.
    + split; [|split; [|split]].
      * split; [discriminate|].
        intros [out' [addrs' [_ [_ [[= <-] [Hd _]]]]]]. congruence.
      * split; discriminate.
      * split; [|reflexivity]. intros _. exists out.
        split; [reflexivity | exact Ed].
      * unfold log. rewrite captured_app. reflexivity.
  - simpl. split; [|split; [|split]].
    + split; [discriminate|].
      intros [out' [addrs' [_ [_ [Hn _]]]]]. discriminate.
    + split; reflexivity.
    + split; [discriminate|]. intros [out' [Hn _]]. discriminate.
    + unfold log. rewrite !captured_app, <- app_assoc. reflexivity.
Qed.

(** X2: A node that [IPFSNode.__init__] accepted is reported connected whenever
    the listing holds its address: the assertion made at construction is
    what ties the address to the identifier that is searched. *)
Theorem constructed_node_connected :
  forall (os : OS) (self : IPFSClient) (id address : string)
         (ipfs_node : IPFSNode.t) (h : trace) (out addrs : string),
    IPFSNode_init id address = Some ipfs_node ->
    check_output_result os h (_get_command self "swarm addrs") = Some out ->
    decode_utf8 os out = Some addrs ->
    Py.contains address addrs = true ->
    is_connected os self ipfs_node h
    = (Ret true, log h (CheckOutput (_get_command self "swarm addrs"))).
Proof.
  intros os self id address ipfs_node h out addrs Hinit Hout Hdec Haddr.
  unfold IPFSNode_init in Hinit.
  destruct (Py.contains id address) eqn:Hid; [|discriminate].
  injection Hinit as <-.
  rewrite is_connected_eq, Hout, Hdec. simpl.
  rewrite (contains_trans _ _ _ Hid Haddr). reflexivity.
Qed.

Lemma constructed_node_connected_witness :
  is_connected full_swarm Example.client Example.peer []
  = (Ret true, log [] (CheckOutput "./go-ipfs/ipfs swarm addrs")).
Proof.
  apply (constructed_node_connected full_swarm Example.client
           "QmA" "/ip4/1.2.3.4/tcp/4001/p2p/QmA" Example.peer []
           "/ip4/1.2.3.4/tcp/4001/p2p/QmA" "/ip4/1.2.3.4/tcp/4001/p2p/QmA");
    reflexivity.
Defined.

Lemma ensure_disconnected_eq (os : OS) (self : IPFSClient)
    (ipfs_node : IPFSNode.t) (h : trace) :
  ensure_disconnected os self ipfs_node h =
  match is_connected os self ipfs_node h with
  | (Ret true, h1) =>
      (check_output os self
         ("swarm disconnect " ++ IPFSNode.address ipfs_node) ;; ret tt) h1
  | (Ret false, h1) => (Ret tt, h1)
  | (Exit, h1) => (Exit, h1)
  | (Raise e, h1) => (Raise e, h1)
  | (Killed, h1) => (Killed, h1)
  | (Timeout, h1) => (Timeout, h1)
  end.
Proof.
  unfold ensure_disconnected. unfold bind at 1.
  destruct (is_connected os self ipfs_node h) as [[[|]| | | |] h1]; reflexivity.
Qed.

(** X3: [ensure_connected] and [ensure_disconnected] act on opposite answers of
    the same query.  From any state in which [is_connected] answers, exactly
    one of the two issues a command and the other does nothing more than the
    query: the commands captured are the query followed by the disconnect
    command when the node is listed, and by the connect command when it is
    not.  When the query exits or raises, both end the same way. *)
Theorem ensure_connected_or_disconnected :
  forall (os : OS) (self : IPFSClient) (ipfs_node : IPFSNode.t) (h : trace),
    (forall h1, is_connected os self ipfs_node h = (Ret true, h1) ->
       ensure_connected os self ipfs_node h = (Ret tt, h1)
       /\ captured (snd (ensure_disconnected os self ipfs_node h))
          = (captured h
               ++ [_get_command self "swarm addrs";
                   _get_command self
                     ("swarm disconnect " ++ IPFSNode.address ipfs_node)])%list)
    /\ (forall h1, is_connected os self ipfs_node h = (Ret false, h1) ->
          ensure_disconnected os self ipfs_node h = (Ret tt, h1)
          /\ captured (snd (ensure_connected os self ipfs_node h))
             = (captured h
                  ++ [_get_command self "swarm addrs";
                      _get_command self
                        ("swarm connect " ++ IPFSNode.address ipfs_node)])%list)
    /\ (forall r h1, is_connected os self ipfs_node h = (r, h1) ->
          (forall b, r <> Ret b) ->
          fst (ensure_connected os self ipfs_node h)
          = fst (ensure_disconnected os self ipfs_node h)
          /\ snd (ensure_connected os self ipfs_node h) = h1
          /\ snd (ensure_disconnected os self ipfs_node h) = h1).
Proof.
  intros os self ipfs_node h. split; [|split].
  - intros h1 E. rewrite ensure_connected_eq, ensure_disconnected_eq, E.
    split; [reflexivity|].
    apply is_connected_Ret in E. destruct E as [_ ->].
    unfold bind. rewrite check_output_eq.
    destruct (check_output_result os _ _); simpl; unfold log;
      rewrite !captured_app, <- ?app_assoc; reflexivity.
  - intros h1 E. rewrite ensure_connected_eq, ensure_disconnected_eq, E.
    split; [reflexivity|].
    apply is_connected_Ret in E. destruct E as [_ ->].
    destruct (check_output_result os _ _); simpl; unfold log;
      rewrite !captured_app, <- ?app_assoc; reflexivity.
  - intros r h1 E Hr. rewrite ensure_connected_eq, ensure_disconnected_eq, E.
    destruct r as [b| |e| |]; [exfalso; exact (Hr b eq_refl)| | | |];
      repeat split.
Qed.

Lemma ensure_connected_or_disconnected_witness :
  ensure_connected full_swarm Example.client Example.peer []
  = (Ret tt, [CheckOutput "./go-ipfs/ipfs swarm addrs"])
  /\ ensure_disconnected silent_swarm Example.client Example.peer []
     = (Ret tt, [CheckOutput "./go-ipfs/ipfs swarm addrs"])
  /\ fst (ensure_connected all_fail Example.client Example.peer [])
     = fst (ensure_disconnected all_fail Example.client Example.peer []).
Proof.
  split; [|split].
  - refine (proj1 (proj1 (ensure_connected_or_disconnected full_swarm
                            Example.client Example.peer [])
                         [CheckOutput "./go-ipfs/ipfs swarm addrs"] _)).
    reflexivity.
  - refine (proj1 (proj1 (proj2 (ensure_connected_or_disconnected silent_swarm
                                   Example.client Example.peer []))
                         [CheckOutput "./go-ipfs/ipfs swarm addrs"] _)).
    reflexivity.
  - refine (proj1 (proj2 (proj2 (ensure_connected_or_disconnected all_fail
                                   Example.client Example.peer []))
                         Exit _ _ _)).
    + vm_compute. reflexivity.
    + intros b. discriminate.
Defined.

(** The trace [h] followed by [k] queries of the swarm address listing. *)
Lemma log_repeat (h : trace) (e : event) (k : nat) :
  (log h e ++ repeat e k)%list = (h ++ repeat e (S k))%list.
Proof. unfold log. rewrite <- app_assoc. reflexivity. Qed.

Lemma all_connected_trace :
  forall (os : OS) (self : IPFSClient) (hosts : list IPFSNode.t)
         (h : trace) (r : result bool) (h' : trace),
    all_connected os self hosts h = (r, h') ->
    r <> Timeout
    /\ (r = Ret true ->
        h' = (h ++ repeat (CheckOutput (_get_command self "swarm addrs"))
                     (List.length hosts))%list
        /\ forall i node,
             nth_error hosts i = Some node ->
             listed os self node
               (h ++ repeat (CheckOutput (_get_command self "swarm addrs")) i)%list
             = Some true)
    /\ (r = Ret false ->
        exists i node,
          nth_error hosts i = Some node
          /\ listed os self node
               (h ++ repeat (CheckOutput (_get_command self "swarm addrs")) i)%list
             = Some false
          /\ h' = (h ++ repeat (CheckOutput (_get_command self "swarm addrs"))
                         (S i))%list
          /\ forall j node',
               (j < i)%nat -> nth_error hosts j = Some node' ->
               listed os self node'
                 (h ++ repeat (CheckOutput (_get_command self "swarm addrs")) j)%list
               = Some true).
Proof.
  intros os self hosts. induction hosts as [|x hosts IH]; intros h r h' E.
  - simpl in E. inversion E; subst. split; [discriminate|]. split.
    + intros _. simpl. rewrite app_nil_r. split; [reflexivity|].
      intros [|i] node Hn; discriminate Hn.
    + discriminate.
  - simpl in E. unfold bind in E.
    destruct (is_connected os self x h) as [r1 h1] eqn:E1.
    destruct r1 as [[|]| |e| |].
    + apply is_connected_Ret in E1. destruct E1 as [Hx ->].
      destruct (IH _ _ _ E) as [Hr [Ht Hf]]. split; [exact Hr|]. split.
      * intros Er. destruct (Ht Er) as [-> Hall]. rewrite log_repeat.
        split; [reflexivity|].
        intros [|i] node Hn; simpl in Hn.
        -- injection Hn as <-. simpl. rewrite app_nil_r. exact Hx.
        -- rewrite <- log_repeat. apply Hall. exact Hn.
      * intros Er. destruct (Hf Er) as [i [node [Hn [Hl [-> Hbefore]]]]].
        exists (S i), node. rewrite !log_repeat in *.
        split; [exact Hn|]. split; [exact Hl|]. split; [reflexivity|].
        intros [|j] node' Hj Hn'; simpl in Hn'.
        -- injection Hn' as <-. simpl. rewrite app_nil_r. exact Hx.
        -- rewrite <- log_repeat. apply Hbefore; [lia | exact Hn'].
    + apply is_connected_Ret in E1. destruct E1 as [Hx ->].
      inversion E; subst. split; [discriminate|]. split; [discriminate|].
      intros _. exists 0%nat, x. simpl. rewrite app_nil_r.
      split; [reflexivity|]. split; [exact Hx|]. split; [reflexivity|].
      intros j node' Hj. lia.
    + inversion E; subst. split; [discriminate|].
      split; discriminate.
    + inversion E; subst. split; [discriminate|].
      split; discriminate.
    + inversion E; subst. split; [discriminate|].
      split; discriminate.
    + pose proof (quiet_is_connected os self x _ _ _ E1) as [Hne _].
      congruence.
Qed.

(** X4: [all(self.is_connected(h) for h in hosts)] asks about the hosts in
    order, one query each, and stops at the first host that is not listed.
    It returns [True] exactly when every host was listed at its own query,
    and then has made one query per host (none for an empty list); when it
    returns [False], the host at the last query made was not listed and
    every host before it was. *)
Theorem all_connected_short_circuit :
  forall (os : OS) (self : IPFSClient) (hosts : list IPFSNode.t)
         (h : trace) (r : result bool) (h' : trace),
    all_connected os self hosts h = (r, h') ->
    r <> Timeout
    /\ (r = Ret true ->
        h' = (h ++ repeat (CheckOutput (_get_command self "swarm addrs"))
                     (List.length hosts))%list
        /\ forall i node,
             nth_error hosts i = Some node ->
             listed os self node
               (h ++ repeat (CheckOutput (_get_command self "swarm addrs")) i)%list
             = Some true)
    /\ (r = Ret false ->
        exists i node,
          nth_error hosts i = Some node
          /\ listed os self node
               (h ++ repeat (CheckOutput (_get_command self "swarm addrs")) i)%list
             = Some false
          /\ h' = (h ++ repeat (CheckOutput (_get_command self "swarm addrs"))
                         (S i))%list
          /\ forall j node',
               (j < i)%nat -> nth_error hosts j = Some node' ->
               listed os self node'
                 (h ++ repeat (CheckOutput (_get_command self "swarm addrs")) j)%list
               = Some true).
Proof. exact all_connected_trace. Qed.

Lemma all_connected_short_circuit_witness :
  (exists i node,
      nth_error [Example.peer; Example.peer] i = Some node
      /\ listed churn Example.client node
           ([CheckOutput "./go-ipfs/ipfs swarm addrs"]
              ++ repeat (CheckOutput "./go-ipfs/ipfs swarm addrs") i)%list
         = Some false
      /\ snd (all_connected churn Example.client [Example.peer; Example.peer]
                [CheckOutput "./go-ipfs/ipfs swarm addrs"])
         = ([CheckOutput "./go-ipfs/ipfs swarm addrs"]
              ++ repeat (CheckOutput "./go-ipfs/ipfs swarm addrs") (S i))%list)
  /\ (snd (all_connected steady Example.client [Example.peer; Example.peer] [])
      = ([] ++ repeat (CheckOutput "./go-ipfs/ipfs swarm addrs") 2)%list).
Proof.
  split.
  - destruct (all_connected_short_circuit churn Example.client
                [Example.peer; Example.peer]
                [CheckOutput "./go-ipfs/ipfs swarm addrs"] (Ret false)
                (snd (all_connected churn Example.client
                        [Example.peer; Example.peer]
                        [CheckOutput "./go-ipfs/ipfs swarm addrs"])))
      as [_ [_ F]]; [vm_compute; reflexivity|].
    destruct (F eq_refl) as [i [node [Hn [Hl [Hh _]]]]].
    exists i, node. split; [exact Hn|]. split; [exact Hl | exact Hh].
  - destruct (all_connected_short_circuit steady Example.client
                [Example.peer; Example.peer] [] (Ret true)
                (snd (all_connected steady Example.client
                        [Example.peer; Example.peer] [])))
      as [_ [T _]]; [vm_compute; reflexivity|].
    exact (proj1 (T eq_refl)).
Defined.

(** ** The benchmark, further *)

(** X5: [get_stats] returns short of the requested number of samples only after
    the whole budget is spent: a returned dictionary has exactly [samples]
    samples, or its [tries] is exactly [2 * samples].  It returns only for a
    request of at least one sample. *)
Theorem get_stats_full_or_exhausted :
  forall (os : OS) (self : IPFSClient) (file : IPFSFile.t)
         (hosts : list IPFSNode.t) (samples : Z) (h : trace)
         (s : stats) (h' : trace),
    get_stats os self file hosts samples h = (Ret s, h') ->
    1 <= samples
    /\ (Z.of_nat (List.length (gets s)) = samples \/ tries s = 2 * samples).
Proof.
  intros os self file hosts samples h s h' E.
  pose proof (get_stats_run _ _ _ _ _ _ _ _ E) as [_ [ev [_ [Hb Hs]]]].
  destruct (Hs s eq_refl) as [Ht [Hle [Hmax [Hpos _]]]].
  rewrite get_stats_eq in E.
  destruct (get_stats_loop _ _ _ _ _ _ _ _ _) as [rl hl] eqn:El.
  apply get_stats_loop_inv in El; [|lia].
  destruct El as [_ [evl [_ [_ Hret]]]].
  destruct rl as [[gets0 tries0]| |e| |]; try discriminate E.
  destruct (Hret _ _ eq_refl) as [_ [_ [_ [_ Hstop]]]].
  destruct (remove_local_copy os file hl) as [[[]| | | |] hc];
    try discriminate E.
  destruct (Z.of_nat (List.length gets0) =? 0); [discriminate E|].
  injection E as <- _. cbn [tries gets] in *.
  apply andb_false_iff in Hstop. split; [lia|].
  destruct Hstop as [Hs1|Hs2]; [apply Z.ltb_ge in Hs1 | apply Z.ltb_ge in Hs2];
    lia.
Qed.

Lemma get_stats_full_or_exhausted_witness :
  match fst (get_stats churn Example.client Example.target [Example.peer] 3 [])
  with
  | Ret s =>
      1 <= 3 /\ (Z.of_nat (List.length (gets s)) = 3 \/ tries s = 2 * 3)
  | _ => False
  end.
Proof.
  destruct (get_stats churn Example.client Example.target [Example.peer] 3 [])
    as [r h'] eqn:E.
  pose proof E as E'. vm_compute in E'. inversion E'; subst. clear E'.
  exact (get_stats_full_or_exhausted _ _ _ _ _ _ _ _ E).
Defined.

(** X6: A request for no sample, or for a negative number of them, makes no
    attempt and returns nothing: after the cleanup the division of the empty
    sum by zero raises [ZeroDivisionError]. *)
Theorem get_stats_nothing_requested :
  forall (os : OS) (self : IPFSClient) (file : IPFSFile.t)
         (hosts : list IPFSNode.t) (samples : Z) (h : trace),
    samples <= 0 ->
    get_stats os self file hosts samples h
    = (remove_local_copy os file ;; raise ZeroDivisionError)
        (log h (Print "Collecting ipfs stats..."))
    /\ attempts (snd (get_stats os self file hosts samples h)) = attempts h
    /\ forall (s : stats), fst (get_stats os self file hosts samples h) <> Ret s.
Proof.
  intros os self file hosts samples h Hs.
  assert (E : get_stats os self file hosts samples h
              = (remove_local_copy os file ;; raise ZeroDivisionError)
                  (log h (Print "Collecting ipfs stats..."))).
  { rewrite get_stats_eq, get_stats_loop_stop.
    - unfold bind.
      destruct (remove_local_copy os file _) as [[[]| | | |] hc]; reflexivity.
    - apply andb_false_iff. left. apply Z.ltb_ge. simpl. lia. }
  split; [exact E|]. rewrite E. unfold bind.
  destruct (remove_local_copy os file _) as [rc hc] eqn:Ec.
  apply quiet_remove_local_copy in Ec. destruct Ec as [_ [ev [-> Hev]]].
  split.
  - assert (Ha : attempts ((log h (Print "Collecting ipfs stats...")) ++ ev)%list
                 = attempts h).
    { unfold attempts, log in *.
      rewrite !count_app, count_cons, count_nil, Hev. simpl. lia. }
    destruct rc as [[]| | | |]; exact Ha.
  - intros s. destruct rc as [[]| | | |]; discriminate.
Qed.

Lemma get_stats_nothing_requested_witness :
  get_stats steady Example.client Example.target [Example.peer] 0 []
  = (Raise ZeroDivisionError,
     [Print "Collecting ipfs stats..."; PathExists "QmXYZ"]).
Proof.
  rewrite (proj1 (get_stats_nothing_requested steady Example.client
                    Example.target [Example.peer] 0 [] ltac:(lia))).
  reflexivity.
Defined.

(** *** Runs in which no command fails *)

Section Calm.

Variable os : OS.
Variable self : IPFSClient.
Variable file : IPFSFile.t.
Variable hosts : list IPFSNode.t.
Variable samples : Z.

(** Every listing is obtained and decoded, the connect commands, the garbage
    collection and the removal of the local copy succeed, and the timed
    fetch prints a number. *)
Hypothesis listing_ok :
  forall h node, In node hosts -> listed os self node h <> None.
Hypothesis connect_ok :
  forall h node,
    In node hosts ->
    check_output_result os h
      (_get_command self ("swarm connect " ++ IPFSNode.address node)) <> None.
Hypothesis gc_ok :
  forall h, check_output_result os h (_get_command self "repo gc") <> None.
Hypothesis remove_ok : forall h path, remove_result os h path = true.
Hypothesis fetch_ok :
  forall h, exists out s t,
    check_output_result os h
      ("(time " ++ _get_command self ("get " ++ IPFSFile.hash file)
         ++ "&> /dev/null ) 2>&1") = Some out
    /\ decode_utf8 os out = Some s
    /\ float_of os (Py.strip s) = Some t.

Lemma calm_is_connected (node : IPFSNode.t) (h : trace) :
  In node hosts ->
  exists b, listed os self node h = Some b
            /\ is_connected os self node h
               = (Ret b, log h (CheckOutput (_get_command self "swarm addrs"))).
Proof.
  intros Hin. destruct (listed os self node h) as [b|] eqn:E.
  - exists b. split; [reflexivity|]. apply is_connected_Ret. split;
      [exact E | reflexivity].
  - exfalso. exact (listing_ok h node Hin E).
Qed.

Lemma calm_ensure_connected (node : IPFSNode.t) (h : trace) :
  In node hosts ->
  exists h1, ensure_connected os self node h = (Ret tt, h1).
Proof.
  intros Hin. rewrite ensure_connected_eq.
  destruct (calm_is_connected node h Hin) as [[|] [_ ->]].
  - eexists. reflexivity.
  - destruct (check_output_result os _ _) eqn:E.
    + eexists. reflexivity.
    + exfalso. exact (connect_ok _ node Hin E).
Qed.

Lemma calm_for_each (l : list IPFSNode.t) :
  incl l hosts ->
  forall h, exists h1, for_each l (ensure_connected os self) h = (Ret tt, h1).
Proof.
  induction l as [|x l IH]; intros Hl h; simpl.
  - eexists. reflexivity.
  - unfold bind.
    destruct (calm_ensure_connected x h (Hl x (or_introl eq_refl))) as [h1 ->].
    apply IH. intros y Hy. apply Hl. right. exact Hy.
Qed.

Lemma calm_all_connected (l : list IPFSNode.t) :
  incl l hosts ->
  forall h, exists b h1,
    all_connected os self l h = (Ret b, h1)
    /\ (b = true <->
        forall i node, nth_error l i = Some node ->
          listed os self node
            (h ++ repeat (CheckOutput (_get_command self "swarm addrs")) i)%list
          = Some true).
Proof.
  intros Hl h.
  destruct (all_connected os self l h) as [r h1] eqn:E.
  pose proof (all_connected_trace _ _ _ _ _ _ E) as [Hr [Ht Hf]].
  assert (Hb : exists b, r = Ret b).
  { clear Hr Ht Hf. revert h r h1 E.
    induction l as [|x l IH]; intros h r h1 E; simpl in E.
    - inversion E; subst. eexists. reflexivity.
    - unfold bind in E.
      destruct (calm_is_connected x h (Hl x (or_introl eq_refl)))
        as [b [_ Ex]].
      rewrite Ex in E. destruct b.
      + eapply IH; [|exact E]. intros y Hy. apply Hl. right. exact Hy.
      + inversion E; subst. eexists. reflexivity. }
  destruct Hb as [b ->]. exists b, h1. split; [reflexivity|].
  destruct b.
  - split; [intros _; apply (Ht eq_refl) | reflexivity].
  - split; [discriminate|]. intros Hall.
    destruct (Hf eq_refl) as [i [node [Hn [Hl' _]]]].
    rewrite (Hall i node Hn) in Hl'. discriminate.
Qed.

Lemma calm_remove_local_copy (h : trace) :
  exists h1, remove_local_copy os file h = (Ret tt, h1).
Proof.
  unfold remove_local_copy, bind, os_path_exists, os_remove.
  destruct (path_exists_result os h _).
  - rewrite remove_ok. eexists. reflexivity.
  - eexists. reflexivity.
Qed.

Lemma calm_time_get (h : trace) :
  exists t h1, time_get os self (IPFSFile.hash file) h = (Ret t, h1).
Proof.
  destruct (fetch_ok h) as [out [s [t [Ho [Hd Hf]]]]].
  exists t. unfold time_get, time, bind, subprocess_check_output.
  rewrite Ho, Hd. unfold ret. rewrite Hf. eexists. reflexivity.
Qed.

(** In such a run every attempt completes, and the sample is accepted
    exactly when every host is listed at its query after the fetch. *)
Lemma calm_attempt (tries0 : Z) (h : trace) :
  exists t b h1 h2,
    attempt os self file hosts samples tries0 h = (Ret (t, b), h2)
    /\ all_connected os self hosts h1 = (Ret b, h2).
Proof.
  rewrite attempt_eq. unfold attempt_body.
  unfold bind at 1.
  destruct (calm_for_each hosts (incl_refl _)
              (log h (Print (attempt_banner tries0 samples)))) as [h1 ->].
  unfold bind at 1. rewrite check_output_eq.
  destruct (check_output_result os h1 _) eqn:Eg;
    [|exfalso; exact (gc_ok _ Eg)].
  unfold bind at 1.
  destruct (calm_remove_local_copy
              (log h1 (CheckOutput (_get_command self "repo gc"))))
    as [h2 ->].
  unfold bind at 1. destruct (calm_time_get h2) as [t [h3 ->]].
  unfold bind at 1.
  destruct (calm_all_connected hosts (incl_refl _) h3) as [b [h4 [Eall _]]].
  rewrite Eall. exists t, b, h3, h4. split; [reflexivity | exact Eall].
Qed.

End Calm.

Lemma loop_all_accepted (os : OS) (self : IPFSClient) (file : IPFSFile.t)
    (hosts : list IPFSNode.t) (samples : Z) :
  (forall tries0 h, exists t h1,
      attempt os self file hosts samples tries0 h = (Ret (t, true), h1)) ->
  forall (k fuel : nat) (gets0 : list float) (h : trace),
    Z.of_nat (List.length gets0) + Z.of_nat k = samples ->
    (k <= fuel)%nat ->
    exists gets' h',
      get_stats_loop os self fuel file hosts samples gets0
        (Z.of_nat (List.length gets0)) h = (Ret (gets', samples), h')
      /\ Z.of_nat (List.length gets') = samples.
Proof.
  intros Hatt. induction k as [|k IH]; intros fuel gets0 h Hk Hfuel.
  - assert (E : Z.of_nat (List.length gets0) = samples) by lia.
    rewrite get_stats_loop_stop.
    + rewrite E. exists gets0, h. split; [reflexivity | exact E].
    + apply andb_false_iff. left. apply Z.ltb_ge. lia.
  - destruct fuel as [|fuel]; [lia|]. rewrite get_stats_loop_S.
    replace ((Z.of_nat (List.length gets0) <? samples)
             && (Z.of_nat (List.length gets0) <? samples * 2))%bool with true.
    + destruct (Hatt (Z.of_nat (List.length gets0) + 1) h) as [t [h1 ->]].
      replace (Z.of_nat (List.length gets0) + 1)
        with (Z.of_nat (List.length (gets0 ++ [t])%list))
        by (rewrite length_app; simpl; lia).
      apply IH; [rewrite length_app; simpl; lia | lia].
    + symmetry. apply andb_true_iff. split; apply Z.ltb_lt; lia.
Qed.

Lemma loop_none_accepted (os : OS) (self : IPFSClient) (file : IPFSFile.t)
    (hosts : list IPFSNode.t) (samples : Z) :
  1 <= samples ->
  (forall tries0 h, exists t h1,
      attempt os self file hosts samples tries0 h = (Ret (t, false), h1)) ->
  forall (k fuel : nat) (tries0 : Z) (h : trace),
    tries0 + Z.of_nat k = samples * 2 ->
    (k <= fuel)%nat ->
    exists h',
      get_stats_loop os self fuel file hosts samples [] tries0 h
      = (Ret ([], samples * 2), h').
Proof.
  intros Hs Hatt. induction k as [|k IH]; intros fuel tries0 h Hk Hfuel.
  - assert (E : tries0 = samples * 2) by lia.
    rewrite get_stats_loop_stop.
    + rewrite E. exists h. reflexivity.
    + apply andb_false_iff. right. apply Z.ltb_ge. lia.
  - destruct fuel as [|fuel]; [lia|]. rewrite get_stats_loop_S.
    replace ((Z.of_nat (List.length (@nil float)) <? samples)
             && (tries0 <? samples * 2))%bool with true.
    + destruct (Hatt (tries0 + 1) h) as [t [h1 ->]].
      apply IH; lia.
    + symmetry. apply andb_true_iff. split; apply Z.ltb_lt; simpl; lia.
Qed.

(** X7: When no command fails and every host is listed at every query,
    [get_stats] asked for [samples >= 1] samples accepts every attempt: it
    returns exactly [samples] samples after exactly [samples] tries. *)
Theorem get_stats_all_accepted :
  forall (os : OS) (self : IPFSClient) (file : IPFSFile.t)
         (hosts : list IPFSNode.t) (samples : Z) (h : trace),
    (forall h node, In node hosts -> listed os self node h = Some true) ->
    (forall h, check_output_result os h (_get_command self "repo gc") <> None) ->
    (forall h path, remove_result os h path = true) ->
    (forall h, exists out s t,
        check_output_result os h
          ("(time " ++ _get_command self ("get " ++ IPFSFile.hash file)
             ++ "&> /dev/null ) 2>&1") = Some out
        /\ decode_utf8 os out = Some s
        /\ float_of os (Py.strip s) = Some t) ->
    1 <= samples ->
    exists (s : stats) (h' : trace),
      get_stats os self file hosts samples h = (Ret s, h')
      /\ Z.of_nat (List.length (gets s)) = samples
      /\ tries s = samples.
Proof.
  intros os self file hosts samples h Hlist Hgc Hrm Hfetch Hs.
  assert (Hatt : forall tries0 h0, exists t h1,
             attempt os self file hosts samples tries0 h0
             = (Ret (t, true), h1)).
  { intros tries0 h0. rewrite attempt_eq. unfold attempt_body.
    assert (Hfor : forall l, incl l hosts -> forall h1,
               exists h2, for_each l (ensure_connected os self) h1
                          = (Ret tt, h2)).
    { induction l as [|x l IH]; intros Hl h1; simpl.
      - eexists. reflexivity.
      - unfold bind. rewrite ensure_connected_eq.
        assert (Ex : is_connected os self x h1
                     = (Ret true,
                        log h1 (CheckOutput (_get_command self "swarm addrs")))).
        { apply is_connected_Ret. split; [|reflexivity].
          apply Hlist. apply Hl. left. reflexivity. }
        rewrite Ex. apply IH. intros y Hy. apply Hl. right. exact Hy. }
    assert (Hall : forall l, incl l hosts -> forall h1,
               exists h2, all_connected os self l h1 = (Ret true, h2)).
    { induction l as [|x l IH]; intros Hl h1; simpl.
      - eexists. reflexivity.
      - unfold bind.
        assert (Ex : is_connected os self x h1
                     = (Ret true,
                        log h1 (CheckOutput (_get_command self "swarm addrs")))).
        { apply is_connected_Ret. split; [|reflexivity].
          apply Hlist. apply Hl. left. reflexivity. }
        rewrite Ex. apply IH. intros y Hy. apply Hl. right. exact Hy. }
    unfold bind at 1.
    destruct (Hfor hosts (incl_refl _)
                (log h0 (Print (attempt_banner tries0 samples)))) as [h1 ->].
    unfold bind at 1. rewrite check_output_eq.
    destruct (check_output_result os h1 _) eqn:Eg;
      [|exfalso; exact (Hgc _ Eg)].
    unfold bind at 1.
    destruct (calm_remove_local_copy os file Hrm
                (log h1 (CheckOutput (_get_command self "repo gc"))))
      as [h2 ->].
    unfold bind at 1.
    destruct (calm_time_get os self file Hfetch h2) as [t [h3 ->]].
    unfold bind at 1.
    destruct (Hall hosts (incl_refl _) h3) as [h4 ->].
    exists t, h4. reflexivity. }
  rewrite get_stats_eq.
  destruct (loop_all_accepted os self file hosts samples Hatt
              (Z.to_nat samples) (Z.to_nat (samples * 2)) []
              (log h (Print "Collecting ipfs stats...")))
    as [gets' [h' [El Hlen]]]; [simpl; lia | lia |].
  simpl List.length in El. simpl Z.of_nat in El. rewrite El.
  destruct (calm_remove_local_copy os file Hrm h') as [hc ->].
  destruct (Z.of_nat (List.length gets') =? 0) eqn:Hz;
    [apply Z.eqb_eq in Hz; lia|].
  eexists. eexists. split; [reflexivity|]. split; [exact Hlen | reflexivity].
Qed.

Lemma get_stats_all_accepted_witness :
  exists (s : stats) (h' : trace),
    get_stats steady Example.client Example.target [Example.peer] 3 []
    = (Ret s, h')
    /\ Z.of_nat (List.length (gets s)) = 3
    /\ tries s = 3.
Proof.
  apply (get_stats_all_accepted steady Example.client Example.target
           [Example.peer] 3 []).
  - intros h node [<-|[]]. reflexivity.
  - intros h. discriminate.
  - reflexivity.
  - intros h.
    assert (E : check_output_result steady h
                  ("(time " ++ _get_command Example.client
                                 ("get " ++ IPFSFile.hash Example.target)
                     ++ "&> /dev/null ) 2>&1")
                = Some (nth (count is_fetch h) ["0.250"; "0.500"; "0.750"]
                            "1.000" ++ Example.newline)) by reflexivity.
    rewrite E.
    destruct (count is_fetch h) as [|[|[|[|k]]]];
      eexists; eexists; eexists; (split; [reflexivity|]);
      (split; [reflexivity|]); vm_compute; reflexivity.
  - lia.
Defined.

(** X8: When no command fails but some host is never listed, no attempt is
    accepted: [get_stats] asked for [samples >= 1] samples makes exactly
    [2 * samples] attempts and then raises [ZeroDivisionError]. *)
Theorem get_stats_never_accepted :
  forall (os : OS) (self : IPFSClient) (file : IPFSFile.t)
         (hosts : list IPFSNode.t) (samples : Z) (h : trace)
         (absent : IPFSNode.t),
    In absent hosts ->
    (forall h, listed os self absent h = Some false) ->
    (forall h node, In node hosts -> listed os self node h <> None) ->
    (forall h node,
        In node hosts ->
        check_output_result os h
          (_get_command self ("swarm connect " ++ IPFSNode.address node))
        <> None) ->
    (forall h, check_output_result os h (_get_command self "repo gc") <> None) ->
    (forall h path, remove_result os h path = true) ->
    (forall h, exists out s t,
        check_output_result os h
          ("(time " ++ _get_command self ("get " ++ IPFSFile.hash file)
             ++ "&> /dev/null ) 2>&1") = Some out
        /\ decode_utf8 os out = Some s
        /\ float_of os (Py.strip s) = Some t) ->
    1 <= samples ->
    exists ev,
      get_stats os self file hosts samples h
      = (Raise ZeroDivisionError, (h ++ ev)%list)
      /\ Z.of_nat (attempts ev) = 2 * samples.
Proof.
  intros os self file hosts samples h absent Hin Habs Hlist Hconn Hgc Hrm
         Hfetch Hs.
  assert (Hatt : forall tries0 h0, exists t h1,
             attempt os self file hosts samples tries0 h0
             = (Ret (t, false), h1)).
  { intros tries0 h0.
    destruct (calm_attempt os self file hosts samples Hlist Hconn Hgc Hrm
                Hfetch tries0 h0) as [t [b [h1 [h2 [Ea Eall]]]]].
    exists t, h2. destruct b; [|exact Ea]. exfalso.
    pose proof (all_connected_trace _ _ _ _ _ _ Eall) as [_ [Ht _]].
    destruct (Ht eq_refl) as [_ Hall].
    destruct (In_nth_error _ _ Hin) as [i Hi].
    pose proof (Hall i absent Hi) as Hlisted.
    rewrite Habs in Hlisted. discriminate Hlisted. }
  destruct (loop_none_accepted os self file hosts samples Hs Hatt
              (Z.to_nat (samples * 2)) (Z.to_nat (samples * 2)) 0
              (log h (Print "Collecting ipfs stats...")))
    as [hl El]; [lia | lia |].
  pose proof El as El'. apply get_stats_loop_inv in El'; [|lia].
  destruct El' as [_ [evl [-> [_ Hret]]]].
  destruct (Hret _ _ eq_refl) as [Htries _].
  rewrite get_stats_eq, El.
  destruct (remove_local_copy os file _) as [rc hc] eqn:Ec.
  destruct (calm_remove_local_copy os file Hrm
              (log h (Print "Collecting ipfs stats...") ++ evl)%list)
    as [hc' Ec'].
  rewrite Ec in Ec'. injection Ec' as -> <-.
  apply quiet_remove_local_copy in Ec. destruct Ec as [_ [evc [-> Hevc]]].
  exists ((Print "Collecting ipfs stats..." :: evl) ++ evc)%list.
  split.
  - simpl. unfold log. rewrite <- !app_assoc. reflexivity.
  - unfold attempts in *. rewrite count_app, count_cons, Hevc.
    replace (is_attempt (Print "Collecting ipfs stats...")) with false
      by reflexivity.
    cbv iota. lia.
Qed.

Lemma get_stats_never_accepted_witness :
  exists ev,
    get_stats lonely Example.client Example.target [Example.peer] 3 []
    = (Raise ZeroDivisionError, ([] ++ ev)%list)
    /\ Z.of_nat (attempts ev) = 2 * 3.
Proof.
  apply (get_stats_never_accepted lonely Example.client Example.target
           [Example.peer] 3 [] Example.peer).
  - left. reflexivity.
  - reflexivity.
  - intros h node [<-|[]]. discriminate.
  - intros h node [<-|[]]. discriminate.
  - intros h. discriminate.
  - reflexivity.
  - intros h.
    assert (E : check_output_result lonely h
                  ("(time " ++ _get_command Example.client
                                 ("get " ++ IPFSFile.hash Example.target)
                     ++ "&> /dev/null ) 2>&1")
                = Some (nth (count is_fetch h) ["0.250"; "0.500"; "0.750"]
                            "1.000" ++ Example.newline)) by reflexivity.
    rewrite E.
    destruct (count is_fetch h) as [|[|[|[|k]]]];
      eexists; eexists; eexists; (split; [reflexivity|]);
      (split; [reflexivity|]); vm_compute; reflexivity.
  - lia.
Defined.

(** ** The daemon supervisor, further *)

(** X9: No exception escapes [kill_daemon] and it never calls [exit()]: it
    returns, reaches the iteration bound, or ends with the host killed by
    its own signal.  It spawns nothing and probes nothing, and every signal
    it sends goes to the process id read on entry.  It returns only right
    after a poll whose answer counts as false (the query failed, its output
    did not read as one integer, or the integer was 0) or right after a
    signal that could not be delivered.  The host is killed only when the
    id read on entry is 0, the integer [False] stands for, and a poll of the
    loop yields a process id all the same: the signal then goes to process
    id 0.  It is killed whenever the id read on entry is 0 and the first
    poll of the loop yields a process id. *)
Theorem kill_daemon_safe :
  forall (os : OS) (fuel : nat) (h : trace) (r : result unit) (h' : trace),
    kill_daemon os fuel h = (r, h') ->
    (r = Ret tt \/ r = Timeout \/ r = Killed)
    /\ (exists ev, h' = (h ++ ev)%list
                   /\ spawns ev = 0%nat /\ probes ev = 0%nat
                   /\ Forall (fun p => p = Py.as_int (poll_answer os h))
                             (signalled ev))
    /\ (r = Ret tt ->
        (exists hp, h' = log hp (CheckOutput "pgrep ipfs")
                    /\ Py.truthy (poll_answer os hp) = false)
        \/ (exists hk, h' = log hk (Kill (Py.as_int (poll_answer os h)))
                       /\ kill_result os hk (Py.as_int (poll_answer os h))
                          = false))
    /\ (r = Killed ->
        Py.as_int (poll_answer os h) = 0
        /\ exists hp,
             h' = log (log (log hp (CheckOutput "pgrep ipfs"))
                           (Print "Killing daemon...")) (Kill 0)
             /\ Py.truthy (poll_answer os hp) = true)
    /\ (Py.as_int (poll_answer os h) = 0 ->
        Py.truthy (poll_answer os (log h (CheckOutput "pgrep ipfs"))) = true ->
        (0 < fuel)%nat ->
        r = Killed).
Proof.
  intros os fuel h r h' E.
  destruct (kill_daemon_trace _ _ _ _ _ E) as [Hr Hev].
  split; [exact Hr|]. split; [exact Hev|]. split; [|split].
  - intros ->. rewrite kill_daemon_eq in E. apply kill_loop_end in E. exact E.
  - intros ->. rewrite kill_daemon_eq in E. apply kill_loop_killed in E.
    exact E.
  - intros Hzero Hfound Hfuel. destruct fuel as [|fuel]; [lia|].
    rewrite kill_daemon_eq, kill_loop_S in E. cbv zeta in E.
    rewrite Hfound, Hzero in E. simpl in E. inversion E. reflexivity.
Qed.

Lemma kill_daemon_safe_witness :
  (exists ev,
      snd (kill_daemon dying_process 10 []) = ([] ++ ev)%list
      /\ spawns ev = 0%nat /\ probes ev = 0%nat
      /\ Forall (fun p => p = Py.as_int (poll_answer dying_process []))
                (signalled ev))
  /\ ((exists hp,
          snd (kill_daemon dying_process 10 [])
          = log hp (CheckOutput "pgrep ipfs")
          /\ Py.truthy (poll_answer dying_process hp) = false)
      \/ (exists hk,
             snd (kill_daemon dying_process 10 [])
             = log hk (Kill (Py.as_int (poll_answer dying_process [])))
             /\ kill_result dying_process hk
                  (Py.as_int (poll_answer dying_process [])) = false))
  /\ Py.as_int (poll_answer late_process []) = 0
  /\ fst (kill_daemon late_process 10 []) = Killed.
Proof.
  destruct (kill_daemon_safe dying_process 10 [] (Ret tt)
              (snd (kill_daemon dying_process 10 [])))
    as [_ [A [B _]]]; [vm_compute; reflexivity|].
  destruct (kill_daemon_safe late_process 10 [] Killed
              (snd (kill_daemon late_process 10 [])))
    as [_ [_ [_ [C _]]]]; [vm_compute; reflexivity|].
  destruct (kill_daemon_safe late_process 10 []
              (fst (kill_daemon late_process 10 []))
              (snd (kill_daemon late_process 10 [])))
    as [_ [_ [_ [_ D]]]]; [apply surjective_pairing|].
  split; [exact A|]. split; [exact (B eq_refl)|].
  split; [exact (proj1 (C eq_refl))|].
  apply D; [reflexivity | reflexivity | lia].
Defined.

(** X10: A daemon that dies when signalled.  When the process found on entry
    (a process id that is not 0, if any signal is to be sent) stays in the
    table for [n] polls of the loop and is gone at the next, and every
    signal is delivered, [kill_daemon] given room for [n + 1] passes returns
    after exactly [n] signals, all to that process; with [n = 0], a daemon
    that is not running, it sends none. *)
Theorem kill_daemon_stops :
  forall (os : OS) (fuel n : nat) (h : trace),
    (n = 0%nat \/ Py.as_int (poll_answer os h) <> 0) ->
    (forall h', (polls h < polls h' < polls h + 1 + n)%nat ->
                Py.truthy (poll_answer os h') = true) ->
    (forall h', polls h' = (polls h + 1 + n)%nat ->
                Py.truthy (poll_answer os h') = false) ->
    (forall h' p, kill_result os h' p = true) ->
    (n < fuel)%nat ->
    exists ev,
      kill_daemon os fuel h = (Ret tt, (h ++ ev)%list)
      /\ signalled ev = repeat (Py.as_int (poll_answer os h)) n
      /\ polls ev = (n + 2)%nat
      /\ spawns ev = 0%nat.
Proof.
  intros os fuel n h Hpid Hfound Hgone Hdeliver Hfuel.
  rewrite kill_daemon_eq.
  destruct (kill_loop_stops os (poll_answer os h) (polls h + 1)
              (polls h + 1 + n)) with (j := n) (fuel := fuel)
              (h := log h (CheckOutput "pgrep ipfs"))
    as [ev [E [Hs [Hp Hsp]]]].
  - intros h' Hh'. apply Hfound. lia.
  - exact Hgone.
  - intros h'. apply Hdeliver.
  - exact Hpid.
  - unfold polls. counting. lia.
  - unfold polls. counting. lia.
  - exact Hfuel.
  - exists (CheckOutput "pgrep ipfs" :: ev ++ [CheckOutput "pgrep ipfs"])%list.
    split.
    + rewrite E. unfold log. rewrite <- !app_assoc. reflexivity.
    + split; [|split].
      * change (signalled (CheckOutput "pgrep ipfs"
                             :: ev ++ [CheckOutput "pgrep ipfs"])%list)
          with (signalled (ev ++ [CheckOutput "pgrep ipfs"])%list).
        rewrite signalled_app, Hs. apply app_nil_r.
      * unfold polls in *.
        rewrite count_cons, count_app, count_cons, count_nil, Hp. simpl. lia.
      * unfold spawns in *.
        rewrite count_cons, count_app, count_cons, count_nil, Hsp.
        reflexivity.
Qed.

Lemma kill_daemon_stops_witness :
  exists ev,
    kill_daemon dying_process 10 [] = (Ret tt, ([] ++ ev)%list)
    /\ signalled ev = repeat (Py.as_int (poll_answer dying_process [])) 2
    /\ polls ev = (2 + 2)%nat
    /\ spawns ev = 0%nat.
Proof.
  apply (kill_daemon_stops dying_process 10 2 []).
  - right. vm_compute. discriminate.
  - intros h' Hh'. unfold poll_answer. simpl in *.
    assert (E : Nat.ltb (polls h') 3 = true) by (apply Nat.ltb_lt; lia).
    rewrite E. reflexivity.
  - intros h' Hh'. unfold poll_answer. simpl in *. rewrite Hh'. reflexivity.
  - reflexivity.
  - lia.
Defined.

(** *** Spawning only after a failed poll *)

Lemma spawn_follows_miss_quiet (os : OS) (h : trace) (ev : list event) :
  spawns ev = 0%nat -> spawn_follows_miss os h ev.
Proof.
  intros Hs a cmd b E. exfalso. subst ev. unfold spawns in Hs.
  rewrite count_app, count_cons in Hs. simpl in Hs. lia.
Qed.

Lemma spawn_follows_miss_app (os : OS) (h : trace) (ev1 ev2 : list event) :
  spawn_follows_miss os h ev1 ->
  spawn_follows_miss os (h ++ ev1)%list ev2 ->
  spawn_follows_miss os h (ev1 ++ ev2)%list.
Proof.
  intros H1 H2 a cmd b E.
  apply app_eq_app in E. destruct E as [l [[E1 E2]|[E1 E2]]].
  - destruct l as [|x l].
    + rewrite app_nil_r in E1. subst a. simpl in E2.
      destruct (H2 [] cmd b (eq_sym E2)) as [a0 [Ha0 _]].
      destruct a0; discriminate Ha0.
    + injection E2 as <- ->. exact (H1 a cmd l E1).
  - destruct (H2 l cmd b E2) as [a0 [-> Hmiss]].
    exists (ev1 ++ a0)%list. subst a. rewrite <- !app_assoc.
    split; [reflexivity|]. rewrite <- app_assoc in Hmiss. exact Hmiss.
Qed.

Lemma spawn_follows_miss_step (os : OS) (h : trace) (cmd : string) :
  Py.truthy (poll_answer os h) = false ->
  spawn_follows_miss os h [CheckOutput "pgrep ipfs"; Popen cmd].
Proof.
  intros Hmiss a cmd' b E.
  destruct a as [|x [|y a]].
  - discriminate E.
  - exists []. rewrite app_nil_r. injection E as <- _ _.
    split; [reflexivity | exact Hmiss].
  - injection E as _ _ E. destruct a; discriminate E.
Qed.

Lemma ready_loop_end (os : OS) (self : IPFSClient) (fuel : nat) :
  forall (h h' : trace),
    ready_loop os self fuel h = (Ret tt, h') ->
    exists hp, h' = log hp (CheckCall (_get_command self "stats bitswap"))
               /\ check_call_result os hp (_get_command self "stats bitswap")
                  = true.
Proof.
  induction fuel as [|fuel IH]; intros h h' E.
  - discriminate E.
  - rewrite ready_loop_S in E. cbv zeta in E.
    destruct (check_call_result os h _) eqn:Hp.
    + inversion E; subst. exists h. split; [reflexivity | exact Hp].
    + apply IH in E. exact E.
Qed.

Lemma kill_daemon_killed (os : OS) (fuel : nat) (h h' : trace) :
  kill_daemon os fuel h = (Killed, h') -> exists hk, h' = log hk (Kill 0).
Proof.
  rewrite kill_daemon_eq. intros E. apply kill_loop_killed in E.
  destruct E as [_ [hp [-> _]]]. eexists. reflexivity.
Qed.

(** The start loop under any oracle. *)
Lemma spawn_loop_trace (os : OS) (self : IPFSClient) (bound fuel : nat) :
  forall (h : trace) (r : result unit) (h' : trace),
    spawn_loop os self bound fuel h = (r, h') ->
    (r = Ret tt \/ r = Timeout \/ r = Killed)
    /\ (r = Killed -> exists hk, h' = log hk (Kill 0))
    /\ exists ev,
         h' = (h ++ ev)%list
         /\ spawn_follows_miss os h ev
         /\ (r = Ret tt ->
             exists hp, h' = log hp (CheckOutput "pgrep ipfs")
                        /\ Py.truthy (poll_answer os hp) = true).
Proof.
  induction fuel as [|fuel IH]; intros h r h' E.
  - inversion E; subst. split; [right; left; reflexivity|].
    split; [discriminate|].
    exists []. rewrite app_nil_r. split; [reflexivity|].
    split; [apply spawn_follows_miss_quiet; reflexivity | discriminate].
  - rewrite spawn_loop_S in E. cbv zeta in E.
    destruct (Py.truthy (poll_answer os h)) eqn:Ht.
    + inversion E; subst. split; [left; reflexivity|].
      split; [discriminate|].
      exists [CheckOutput "pgrep ipfs"]. split; [reflexivity|].
      split; [apply spawn_follows_miss_quiet; reflexivity|].
      intros _. exists h. split; [reflexivity | exact Ht].
    + replace (log (log h (CheckOutput "pgrep ipfs"))
                   (Popen (_get_command self "daemon &")))
        with (h ++ [CheckOutput "pgrep ipfs";
                    Popen (_get_command self "daemon &")])%list in E
        by (unfold log; rewrite <- app_assoc; reflexivity).
      pose proof (spawn_follows_miss_step os h
                    (_get_command self "daemon &") Ht) as Hpre.
      destruct (popen_result os _ _).
      * destruct (IH _ _ _ E) as [Hr [Hkd [ev [-> [Hsfm Hend]]]]].
        split; [exact Hr|]. split; [exact Hkd|].
        exists ([CheckOutput "pgrep ipfs";
                 Popen (_get_command self "daemon &")] ++ ev)%list.
        split; [rewrite <- !app_assoc; reflexivity|]. split; [|exact Hend].
        apply spawn_follows_miss_app; assumption.
      * unfold bind in E.
        destruct (kill_daemon os bound _) as [rk hk] eqn:Ek.
        destruct (kill_daemon_trace _ _ _ _ _ Ek)
          as [Hrk [evk [Hhk [Hsk _]]]].
        pose proof (spawn_follows_miss_quiet os
                      (h ++ [CheckOutput "pgrep ipfs";
                             Popen (_get_command self "daemon &")])%list
                      evk Hsk) as Hquiet.
        destruct Hrk as [-> | [-> | ->]].
        -- subst hk.
           destruct (IH _ _ _ E) as [Hr [Hkd [ev [-> [Hsfm Hend]]]]].
           split; [exact Hr|]. split; [exact Hkd|].
           exists ([CheckOutput "pgrep ipfs";
                    Popen (_get_command self "daemon &")] ++ evk ++ ev)%list.
           split; [rewrite <- !app_assoc; reflexivity|]. split; [|exact Hend].
           apply spawn_follows_miss_app; [exact Hpre|].
           apply spawn_follows_miss_app; assumption.
        -- subst hk. inversion E; subst. split; [right; left; reflexivity|].
           split; [discriminate|].
           exists ([CheckOutput "pgrep ipfs";
                    Popen (_get_command self "daemon &")] ++ evk)%list.
           split; [rewrite <- !app_assoc; reflexivity|]. split; [|discriminate].
           apply spawn_follows_miss_app; assumption.
        -- apply kill_daemon_killed in Ek. subst hk.
           inversion E; subst. split; [right; right; reflexivity|].
           split; [intros _; exact Ek|].
           exists ([CheckOutput "pgrep ipfs";
                    Popen (_get_command self "daemon &")] ++ evk)%list.
           split; [rewrite <- !app_assoc; reflexivity|]. split; [|discriminate].
           apply spawn_follows_miss_app; assumption.
Qed.

Lemma start_daemon_trace (os : OS) (self : IPFSClient) (fuel : nat) :
  forall (h : trace) (r : result unit) (h' : trace),
    start_daemon os self fuel h = (r, h') ->
    (r = Ret tt \/ r = Timeout \/ r = Killed)
    /\ (r = Killed -> exists hk, h' = log hk (Kill 0))
    /\ exists ev,
         h' = (h ++ ev)%list
         /\ spawn_follows_miss os h ev
         /\ (r = Ret tt ->
             exists hp,
               h' = log (log hp (CheckCall (_get_command self "stats bitswap")))
                        (Print "Success.")
               /\ check_call_result os hp (_get_command self "stats bitswap")
                  = true).
Proof.
  intros h r h' E. unfold start_daemon in E.
  unfold bind at 1 in E. unfold print at 1 in E. unfold bind at 1 in E.
  destruct (spawn_loop os self fuel fuel _) as [r1 h1] eqn:E1.
  apply spawn_loop_trace in E1.
  destruct E1 as [Hr1 [Hkd1 [ev1 [-> [Hsfm1 _]]]]].
  assert (Hpre : spawn_follows_miss os h
                   ([Print "Launching daemon..."] ++ ev1)%list).
  { apply spawn_follows_miss_app;
      [apply spawn_follows_miss_quiet; reflexivity | exact Hsfm1]. }
  destruct Hr1 as [-> | [-> | ->]].
  - unfold bind at 1 in E.
    destruct (ready_loop os self fuel _) as [r2 h2] eqn:E2.
    pose proof (ready_loop_trace _ _ _ _ _ _ E2)
      as [Hr2 [ev2 [Hh2 [Hs2 _]]]].
    destruct Hr2 as [-> | ->].
    + apply ready_loop_end in E2. destruct E2 as [hp [Hhp Hready]].
      unfold print in E. inversion E; subst r h'. clear E.
      split; [left; reflexivity|]. split; [discriminate|].
      exists (([Print "Launching daemon..."] ++ ev1) ++ ev2
                ++ [Print "Success."])%list.
      split.
      { rewrite Hh2. unfold log. rewrite <- !app_assoc. reflexivity. }
      split.
      { apply spawn_follows_miss_app; [exact Hpre|].
        apply spawn_follows_miss_quiet. unfold spawns in *.
        rewrite count_app, Hs2. reflexivity. }
      intros _. exists hp. rewrite Hhp. split; [reflexivity | exact Hready].
    + inversion E; subst r h'. clear E. split; [right; left; reflexivity|].
      split; [discriminate|].
      exists (([Print "Launching daemon..."] ++ ev1) ++ ev2)%list.
      split.
      { rewrite Hh2. unfold log. rewrite <- !app_assoc. reflexivity. }
      split; [|discriminate].
      apply spawn_follows_miss_app; [exact Hpre|].
      apply spawn_follows_miss_quiet. exact Hs2.
  - inversion E; subst r h'. clear E. split; [right; left; reflexivity|].
    split; [discriminate|].
    exists ([Print "Launching daemon..."] ++ ev1)%list.
    split; [unfold log; rewrite <- !app_assoc; reflexivity|].
    split; [exact Hpre | discriminate].
  - inversion E; subst r h'. clear E. split; [right; right; reflexivity|].
    split; [exact Hkd1|].
    exists ([Print "Launching daemon..."] ++ ev1)%list.
    split; [unfold log; rewrite <- !app_assoc; reflexivity|].
    split; [exact Hpre | discriminate].
Qed.

Lemma launch_daemon_trace (os : OS) (self : IPFSClient) (fuel : nat) :
  forall (h : trace) (r : result unit) (h' : trace),
    launch_daemon os self fuel h = (r, h') ->
    (r = Ret tt \/ r = Timeout \/ r = Killed)
    /\ (r = Killed -> exists hk, h' = log hk (Kill 0))
    /\ exists ev,
         h' = (h ++ ev)%list
         /\ spawn_follows_miss os h ev
         /\ (r = Ret tt ->
             exists hp,
               check_call_result os hp (_get_command self "stats bitswap")
               = true
               /\ (h' = log hp (CheckCall (_get_command self "stats bitswap"))
                   \/ h' = log (log hp (CheckCall
                                          (_get_command self "stats bitswap")))
                               (Print "Success."))).
Proof.
  intros h r h' E. rewrite launch_daemon_eq in E. cbv zeta in E.
  destruct (check_call_result os h _) eqn:Hp.
  - inversion E; subst. split; [left; reflexivity|]. split; [discriminate|].
    exists [CheckCall (_get_command self "stats bitswap")].
    split; [reflexivity|].
    split; [apply spawn_follows_miss_quiet; reflexivity|].
    intros _. exists h. split; [exact Hp | left; reflexivity].
  - assert (Hstart : forall evk,
               spawns evk = 0%nat ->
               start_daemon os self fuel
                 ((h ++ [CheckCall (_get_command self "stats bitswap");
                         CheckOutput "pgrep ipfs"]) ++ evk)%list = (r, h') ->
               (r = Ret tt \/ r = Timeout \/ r = Killed)
               /\ (r = Killed -> exists hk, h' = log hk (Kill 0))
               /\ exists ev,
                    h' = (h ++ ev)%list
                    /\ spawn_follows_miss os h ev
                    /\ (r = Ret tt ->
                        exists hp,
                          check_call_result os hp
                            (_get_command self "stats bitswap") = true
                          /\ (h' = log hp (CheckCall
                                             (_get_command self "stats bitswap"))
                              \/ h' = log (log hp
                                             (CheckCall
                                                (_get_command self
                                                   "stats bitswap")))
                                          (Print "Success.")))).
    { intros evk Hsk Es. apply start_daemon_trace in Es.
      destruct Es as [Hr [Hkd [ev [Hh' [Hsfm Hend]]]]].
      split; [exact Hr|]. split; [exact Hkd|].
      exists (([CheckCall (_get_command self "stats bitswap");
                CheckOutput "pgrep ipfs"] ++ evk) ++ ev)%list.
      split; [rewrite Hh', <- !app_assoc; reflexivity|]. split.
      - apply spawn_follows_miss_app.
        + apply spawn_follows_miss_quiet. unfold spawns in *.
          rewrite count_app, Hsk. reflexivity.
        + rewrite <- !app_assoc in *. exact Hsfm.
      - intros Er. destruct (Hend Er) as [hp [Hhp Hready]].
        exists hp. split; [exact Hready | right; exact Hhp]. }
    replace (log (log h (CheckCall (_get_command self "stats bitswap")))
                 (CheckOutput "pgrep ipfs"))
      with (h ++ [CheckCall (_get_command self "stats bitswap");
                  CheckOutput "pgrep ipfs"])%list in E
      by (unfold log; rewrite <- app_assoc; reflexivity).
    destruct (Py.truthy _).
    + unfold bind in E.
      destruct (kill_daemon os fuel _) as [rk hk] eqn:Ek.
      destruct (kill_daemon_trace _ _ _ _ _ Ek) as [Hrk [evk [Hhk [Hsk _]]]].
      assert (Hstop : (rk, hk) = (r, h') -> rk <> Ret tt ->
                exists ev,
                  h' = (h ++ ev)%list
                  /\ spawn_follows_miss os h ev
                  /\ (r = Ret tt ->
                      exists hp,
                        check_call_result os hp
                          (_get_command self "stats bitswap") = true
                        /\ (h' = log hp (CheckCall
                                           (_get_command self "stats bitswap"))
                            \/ h' = log (log hp
                                           (CheckCall
                                              (_get_command self
                                                 "stats bitswap")))
                                        (Print "Success.")))).
      { intros E0 Hne. inversion E0; subst.
        exists ([CheckCall (_get_command self "stats bitswap");
                 CheckOutput "pgrep ipfs"] ++ evk)%list.
        split; [rewrite <- !app_assoc; reflexivity|].
        split; [|intros Er; contradiction].
        apply spawn_follows_miss_quiet. unfold spawns in *.
        rewrite count_app, Hsk. reflexivity. }
      destruct Hrk as [-> | [-> | ->]].
      * subst hk. apply (Hstart evk Hsk E).
      * split; [inversion E; right; left; reflexivity|].
        split; [inversion E; discriminate|].
        apply Hstop; [exact E | discriminate].
      * split; [inversion E; right; right; reflexivity|].
        split; [intros _; inversion E; subst; exact (kill_daemon_killed _ _ _ _ Ek)|].
        apply Hstop; [exact E | discriminate].
    + apply (Hstart [] eq_refl). rewrite app_nil_r. exact E.
Qed.

(** X11: No exception escapes [launch_daemon] and it never calls [exit()]:
    it returns, reaches the iteration bound, or ends with the host killed by
    a signal that [kill_daemon] sent to process id 0.  When it returns, the
    last call it made to the daemon was a readiness probe that succeeded:
    the trace ends with that probe, followed at most by the line that
    reports success.  When the host is killed, the signal to process id 0
    is the last call made. *)
Theorem launch_daemon_ready_on_return :
  forall (os : OS) (self : IPFSClient) (fuel : nat) (h : trace)
         (r : result unit) (h' : trace),
    launch_daemon os self fuel h = (r, h') ->
    (r = Ret tt \/ r = Timeout \/ r = Killed)
    /\ (r = Ret tt ->
        exists hp,
          check_call_result os hp (_get_command self "stats bitswap") = true
          /\ (h' = log hp (CheckCall (_get_command self "stats bitswap"))
              \/ h' = log (log hp (CheckCall
                                     (_get_command self "stats bitswap")))
                          (Print "Success.")))
    /\ (r = Killed -> exists hk, h' = log hk (Kill 0)).
Proof.
  intros os self fuel h r h' E.
  destruct (launch_daemon_trace _ _ _ _ _ _ E) as [Hr [Hkd [ev [_ [_ Hend]]]]].
  split; [exact Hr|]. split; assumption.
Qed.

Lemma launch_daemon_ready_on_return_witness :
  (exists hp,
      check_call_result slow_start hp "./go-ipfs/ipfs stats bitswap" = true
      /\ (snd (launch_daemon slow_start Example.client 10 [])
          = log hp (CheckCall "./go-ipfs/ipfs stats bitswap")
          \/ snd (launch_daemon slow_start Example.client 10 [])
             = log (log hp (CheckCall "./go-ipfs/ipfs stats bitswap"))
                   (Print "Success.")))
  /\ (exists hk,
         snd (launch_daemon stale_never_killed Example.client 10 [])
         = log hk (Kill 0)).
Proof.
  destruct (launch_daemon_ready_on_return slow_start Example.client 10 []
              (Ret tt) (snd (launch_daemon slow_start Example.client 10 [])))
    as [_ [A _]]; [vm_compute; reflexivity|].
  destruct (launch_daemon_ready_on_return stale_never_killed Example.client
              10 [] Killed
              (snd (launch_daemon stale_never_killed Example.client 10 [])))
    as [_ [_ B]]; [vm_compute; reflexivity|].
  split; [exact (A eq_refl) | exact (B eq_refl)].
Defined.

(** X12: every spawn [launch_daemon] makes comes right after a poll of the
    process table whose answer counts as false (the query failed, or its
    output did not read as one integer, as when two processes are listed),
    whatever the world answers and however the call ends. *)
Theorem launch_daemon_spawns_after_miss :
  forall (os : OS) (self : IPFSClient) (fuel : nat) (h : trace),
    exists ev,
      snd (launch_daemon os self fuel h) = (h ++ ev)%list
      /\ forall before cmd after,
           ev = (before ++ Popen cmd :: after)%list ->
           exists before0,
             before = (before0 ++ [CheckOutput "pgrep ipfs"])%list
             /\ Py.truthy (poll_answer os (h ++ before0)%list) = false.
Proof.
  intros os self fuel h.
  destruct (launch_daemon os self fuel h) as [r h'] eqn:E.
  destruct (launch_daemon_trace _ _ _ _ _ _ E) as [_ [_ [ev [-> [Hsfm _]]]]].
  exists ev. split; [reflexivity | exact Hsfm].
Qed.

Lemma launch_daemon_spawns_after_miss_witness :
  exists before0,
    [CheckCall "./go-ipfs/ipfs stats bitswap"; CheckOutput "pgrep ipfs";
     Print "Launching daemon..."; CheckOutput "pgrep ipfs"]
    = (before0 ++ [CheckOutput "pgrep ipfs"])%list
    /\ Py.truthy (poll_answer slow_start ([] ++ before0)%list) = false.
Proof.
  destruct (launch_daemon_spawns_after_miss slow_start Example.client 10 [])
    as [ev [Hev H]].
  vm_compute in Hev. subst ev.
  apply (H [CheckCall "./go-ipfs/ipfs stats bitswap"; CheckOutput "pgrep ipfs";
            Print "Launching daemon..."; CheckOutput "pgrep ipfs"]
           "./go-ipfs/ipfs daemon &"
           [CheckOutput "pgrep ipfs"; Popen "./go-ipfs/ipfs daemon &";
            CheckOutput "pgrep ipfs";
            CheckCall "./go-ipfs/ipfs stats bitswap";
            Print "Waiting for daemon... [may take a min, do not quit]";
            Sleep 1; CheckCall "./go-ipfs/ipfs stats bitswap";
            Print "Waiting for daemon... [may take a min, do not quit]";
            Sleep 1; CheckCall "./go-ipfs/ipfs stats bitswap";
            Print "Success."]).
  reflexivity.
Defined.

(** *** A daemon that starts and becomes ready *)





(** ** Presence tokens, further *)

Lemma publish_counts (os : OS) (self : IPFSClient) (t : string) (h : trace) :
  exists ev, publish os self t h = (Ret tt, (h ++ ev)%list)
             /\ captured ev = [publish_command self t]
             /\ spawns ev = 0%nat /\ sleeps ev = 0%nat /\ signals ev = 0%nat
             /\ probes ev = 0%nat
             /\ (check_output_result os h (publish_command self t) = None ->
                 ev = [CheckOutput (publish_command self t);
                       Print (failed_command (publish_command self t))]).
Proof.
  unfold publish, bind, subprocess_check_output.
  destruct (check_output_result os h _).
  - exists [CheckOutput (publish_command self t)].
    repeat split. discriminate.
  - exists [CheckOutput (publish_command self t);
            Print (failed_command (publish_command self t))].
    unfold print, log. rewrite <- app_assoc. repeat split.
Qed.

Lemma for_each_publish_counts (os : OS) (self : IPFSClient)
    (ts : list string) :
  forall h, exists ev,
    for_each ts (publish os self) h = (Ret tt, (h ++ ev)%list)
    /\ captured ev = map (publish_command self) ts
    /\ spawns ev = 0%nat /\ sleeps ev = 0%nat /\ signals ev = 0%nat
    /\ probes ev = 0%nat
    /\ ((forall h' cmd, check_output_result os h' cmd = None) ->
        ev = flat_map
               (fun t => [CheckOutput (publish_command self t);
                          Print (failed_command (publish_command self t))])
               ts).
Proof.
  induction ts as [|t ts IH]; intros h; simpl.
  - exists []. rewrite app_nil_r. repeat split.
  - unfold bind.
    destruct (publish_counts os self t h)
      as [ev1 [-> [Hc1 [Hs1 [Hz1 [Hk1 [Hb1 Hf1]]]]]]].
    destruct (IH (h ++ ev1)%list)
      as [ev2 [-> [Hc2 [Hs2 [Hz2 [Hk2 [Hb2 Hf2]]]]]]].
    exists (ev1 ++ ev2)%list. rewrite app_assoc. split; [reflexivity|].
    unfold spawns, sleeps, signals, probes in *.
    rewrite captured_app, !count_app, Hc1, Hc2, Hs1, Hs2, Hz1, Hz2, Hk1, Hk2,
      Hb1, Hb2.
    repeat split.
    intros Hfail. rewrite (Hf1 (Hfail _ _)), (Hf2 Hfail). reflexivity.
Qed.

(** X14: A failure to publish is never fatal.  Whatever the clock reads and
    whatever the three pipelines answer, [genHostSwarmFiles] returns, having
    run exactly the three pipelines and neither spawned, signalled nor
    slept.  When every pipeline fails, each failure is reported by one line
    that holds the whole pipeline, and the next token is still tried. *)
Theorem genHostSwarmFiles_swallows_failures :
  forall (os : OS) (self : IPFSClient) (h : trace),
    (exists ev,
        genHostSwarmFiles os self h = (Ret tt, (h ++ ev)%list)
        /\ captured ev
           = map (publish_command self) (sharedTokens (time_result os h))
        /\ List.length (captured ev) = 3%nat
        /\ spawns ev = 0%nat /\ sleeps ev = 0%nat /\ signals ev = 0%nat)
    /\ ((forall h' cmd, check_output_result os h' cmd = None) ->
        genHostSwarmFiles os self h
        = (Ret tt,
           (h ++ TimeTime
              :: flat_map
                   (fun t => [CheckOutput (publish_command self t);
                              Print (failed_command (publish_command self t))])
                   (sharedTokens (time_result os h)))%list))
    /\ (forall cmd, Py.contains cmd (failed_command cmd) = true).
Proof.
  intros os self h.
  assert (E : genHostSwarmFiles os self h
              = for_each (sharedTokens (time_result os h)) (publish os self)
                  (log h TimeTime)) by reflexivity.
  destruct (for_each_publish_counts os self
              (sharedTokens (time_result os h)) (log h TimeTime))
    as [ev [Eev [Hc [Hs [Hz [Hk [_ Hf]]]]]]].
  split; [|split].
  - exists (TimeTime :: ev). rewrite E, Eev. unfold log.
    rewrite <- app_assoc. split; [reflexivity|].
    split; [exact Hc|]. split.
    + change (captured (TimeTime :: ev)) with (captured ev).
      rewrite Hc. reflexivity.
    + unfold spawns, sleeps, signals in *. rewrite !count_cons, Hs, Hz, Hk.
      repeat split.
  - intros Hfail. rewrite E, Eev, (Hf Hfail). unfold log.
    rewrite <- app_assoc. reflexivity.
  - intros cmd. apply contains_iff.
    exists "ERROR: Failed to run command: ", ". Please report this error".
    reflexivity.
Qed.

Lemma genHostSwarmFiles_swallows_failures_witness :
  genHostSwarmFiles all_fail Example.client []
  = (Ret tt,
     ([] ++ TimeTime
        :: flat_map
             (fun t =>
                [CheckOutput (publish_command Example.client t);
                 Print (failed_command (publish_command Example.client t))])
             (sharedTokens (time_result all_fail [])))%list).
Proof.
  apply (proj1 (proj2 (genHostSwarmFiles_swallows_failures all_fail
                         Example.client []))).
  intros h' cmd. simpl. destruct (String.eqb cmd "pgrep ipfs"); reflexivity.
Defined.

(** X15: Two clock readings one minute apart, neither negative, share two of
    their three tokens: each window moves up by one, so the last two tokens
    of the earlier reading are the first two of the later one. *)
Theorem sharedTokens_overlap :
  forall t : Q,
    (0 <= t)%Q ->
    windows (t + 60) = map (fun w => w + 1) (windows t)
    /\ firstn 2 (sharedTokens (t + 60)) = skipn 1 (sharedTokens t).
Proof.
  intros t Ht. apply Qnum_nonneg in Ht.
  assert (E : sessionId (t + 60) = sessionId t + 1).
  { destruct t as [a b]. cbn [Qnum] in Ht. unfold Qplus. cbn [Qnum Qden].
    rewrite !sessionId_div by lia. rewrite Pos2Z.inj_mul.
    replace (a * 1 + 60 * Zpos b) with (a + 1 * (60 * Zpos b)) by lia.
    replace (60 * (Zpos b * 1)) with (60 * Zpos b) by lia.
    apply Z.div_add. lia. }
  split; [apply windows_shift; exact E|].
  unfold sharedTokens, windows. rewrite E. simpl.
  f_equal; [f_equal; lia|]. f_equal. f_equal. lia.
Qed.

Lemma sharedTokens_overlap_witness :
  windows (120 + 60) = map (fun w => w + 1) (windows 120)
  /\ firstn 2 (sharedTokens (120 + 60)) = skipn 1 (sharedTokens 120).
Proof. apply (sharedTokens_overlap 120). vm_compute. discriminate. Defined.

(** X16: [int()] truncates toward zero, so the session of a clock reading before
    the epoch is the opposite of the session of the opposite reading, and
    every reading within a minute of the epoch on either side falls in
    session 0. *)
Theorem sessionId_truncates :
  forall t : Q,
    sessionId (- t) = - sessionId t
    /\ ((- (60) < t)%Q -> (t < 60)%Q -> sessionId t = 0).
Proof.
  intros [a b]. split.
  - unfold sessionId, Py.int_of_float. simpl.
    rewrite !Z.mul_1_r. apply Z.quot_opp_l. discriminate.
  - unfold Qlt. cbn [Qnum Qden]. intros Hlo Hhi.
    change (Qnum (- (60))) with (-60) in Hlo.
    change (QDen (- (60))) with 1 in Hlo.
    unfold sessionId, Py.int_of_float. simpl. rewrite Z.mul_1_r.
    assert (Hd : Zpos (b * 60) = 60 * Zpos b) by lia.
    rewrite Hd.
    destruct (Z_le_gt_dec 0 a) as [Hpos|Hneg].
    + apply Z.quot_small. lia.
    + rewrite <- (Z.opp_involutive a), Z.quot_opp_l by lia.
      rewrite Z.quot_small; [reflexivity | lia].
Qed.

Lemma sessionId_truncates_witness :
  sessionId (- (30)) = - sessionId 30 /\ sessionId (- (30)) = 0.
Proof.
  split.
  - exact (proj1 (sessionId_truncates 30)).
  - apply (proj2 (sessionId_truncates (- (30)))); reflexivity.
Defined.

Lemma str_inj (n m : Z) : Py.str n = Py.str m -> n = m.
Proof.
  unfold Py.str. intros E.
  assert (Hnil : forall z, Z.to_int z <> Decimal.Pos Decimal.Nil
                           /\ Z.to_int z <> Decimal.Neg Decimal.Nil).
  { intros [|p|p]; simpl; split; try discriminate;
      intros [= H]; exact (DecimalPos.Unsigned.to_uint_nonnil p H). }
  apply (f_equal NilZero.int_of_string) in E.
  rewrite !NilZero.isi in E by apply Hnil.
  injection E as E. apply DecimalZ.to_int_inj. exact E.
Qed.

Lemma append_inj_l (a b c : string) : a ++ b = a ++ c -> b = c.
Proof.
  induction a as [|x a IH]; simpl; intros E; [exact E|].
  injection E as E. exact (IH E).
Qed.

(** X17: A token names its window: two windows have the same token only when
    they are the same window, and the three tokens published at once are
    pairwise different. *)
Theorem token_names_window :
  forall (w w' : Z) (t : Q),
    (token w = token w' <-> w = w')
    /\ NoDup (sharedTokens t).
Proof.
  intros w w' t.
  assert (Hinj : forall a b, token a = token b -> a = b).
  { intros a b E. unfold token in E. apply append_inj_l in E.
    apply str_inj. exact E. }
  split.
  - split; [apply Hinj | intros ->; reflexivity].
  - unfold sharedTokens, windows. simpl.
    repeat constructor; simpl; intros H;
      repeat (destruct H as [H|H]; [apply Hinj in H; lia|]); exact H.
Qed.

(** ** The loop of [main] *)




(** ** The download link *)

Ltac archive_name :=
  first [ exists "linux-arm64"; reflexivity
        | exists "linux-arm"; reflexivity
        | exists "linux-amd64"; reflexivity
        | exists "linux-386"; reflexivity
        | exists "darwin-amd64"; reflexivity
        | exists "darwin-386"; reflexivity ].

(** X19: [get_ipfs_download_link] yields a link exactly on the platforms named
    linux, linux2 and darwin, and the link is then the base address followed
    by an archive name that ends in [.tar.gz].  On win32 it ends in
    [sys.exit]; on any other platform the postfix is [None] and adding it to
    the base address raises [TypeError].  The machine name matters on Linux
    only: on darwin the same link is given for every machine. *)
Theorem download_link_by_platform :
  forall (maxsize : Z) (machine platform_name : string),
    ((exists url,
         IPFSDownloader.get_ipfs_download_link maxsize machine platform_name
         = IPFSDownloader.Returns url)
     <-> platform_name = "linux" \/ platform_name = "linux2"
         \/ platform_name = "darwin")
    /\ (forall url,
          IPFSDownloader.get_ipfs_download_link maxsize machine platform_name
          = IPFSDownloader.Returns url ->
          exists name,
            url = IPFSDownloader.BASE_URL ++ name ++ ".tar.gz")
    /\ (IPFSDownloader.get_ipfs_download_link maxsize machine platform_name
        = IPFSDownloader.SysExit "Windows is not supported"
        <-> platform_name = "win32")
    /\ (IPFSDownloader.get_ipfs_download_link maxsize machine platform_name
        = IPFSDownloader.TypeError
        <-> platform_name <> "linux" /\ platform_name <> "linux2"
            /\ platform_name <> "darwin" /\ platform_name <> "win32")
    /\ (forall machine',
          IPFSDownloader.get_ipfs_download_link maxsize machine "darwin"
          = IPFSDownloader.get_ipfs_download_link maxsize machine' "darwin").
Proof.
  intros maxsize machine platform_name.
  assert (Hdarwin : forall machine',
             IPFSDownloader.get_ipfs_download_link maxsize machine "darwin"
             = IPFSDownloader.get_ipfs_download_link maxsize machine' "darwin").
  { intros machine'.
    unfold IPFSDownloader.get_ipfs_download_link,
      IPFSDownloader.get_ipfs_download_postfix. cbv zeta.
    generalize (2 ^ 32 <? maxsize). intros b64. reflexivity. }
  cut (((exists url,
            IPFSDownloader.get_ipfs_download_link maxsize machine platform_name
            = IPFSDownloader.Returns url)
        <-> platform_name = "linux" \/ platform_name = "linux2"
            \/ platform_name = "darwin")
       /\ (forall url,
             IPFSDownloader.get_ipfs_download_link maxsize machine platform_name
             = IPFSDownloader.Returns url ->
             exists name,
               url = IPFSDownloader.BASE_URL ++ name ++ ".tar.gz")
       /\ (IPFSDownloader.get_ipfs_download_link maxsize machine platform_name
           = IPFSDownloader.SysExit "Windows is not supported"
           <-> platform_name = "win32")
       /\ (IPFSDownloader.get_ipfs_download_link maxsize machine platform_name
           = IPFSDownloader.TypeError
           <-> platform_name <> "linux" /\ platform_name <> "linux2"
               /\ platform_name <> "darwin" /\ platform_name <> "win32")).
  { intros [A [B [C D]]]. split; [exact A|]. split; [exact B|].
    split; [exact C|]. split; [exact D | exact Hdarwin]. }
  clear Hdarwin.
  unfold IPFSDownloader.get_ipfs_download_link,
    IPFSDownloader.get_ipfs_download_postfix. cbv zeta.
  generalize (2 ^ 32 <? maxsize). intros b64.
  generalize (Py.contains "arm" machine). intros arm.
  destruct (String.eqb_spec platform_name "linux") as [->|Hl].
  - simpl. destruct arm, b64;
      (split; [split; [intros _; left; reflexivity
                      | intros _; eexists; reflexivity]|]);
      (split; [intros url [= <-]; archive_name|]);
      (split; [split; discriminate|]);
      (split; [discriminate | intros [H _]; congruence]).
  - destruct (String.eqb_spec platform_name "linux2") as [->|Hl2].
    + simpl. destruct arm, b64;
        (split; [split; [intros _; right; left; reflexivity
                        | intros _; eexists; reflexivity]|]);
        (split; [intros url [= <-]; archive_name|]);
        (split; [split; discriminate|]);
        (split; [discriminate | intros [_ [H _]]; congruence]).
    + cbn [orb].
      destruct (String.eqb_spec platform_name "darwin") as [->|Hd].
      * destruct b64;
          (split; [split; [intros _; right; right; reflexivity
                          | intros _; eexists; reflexivity]|]);
          (split; [intros url [= <-]; archive_name|]);
          (split; [split; discriminate|]);
          (split; [discriminate | intros [_ [_ [H _]]]; congruence]).
      * destruct (String.eqb_spec platform_name "win32") as [->|Hw].
        -- split; [split; [intros [url H]; discriminate
                          | intros [H|[H|H]]; discriminate]|].
           split; [discriminate|].
           split; [split; reflexivity|].
           split; [discriminate | intros [_ [_ [_ H]]]; congruence].
        -- split; [split; [intros [url H]; discriminate
                          | intros [H|[H|H]]; congruence]|].
           split; [discriminate|].
           split; [split; [discriminate | congruence]|].
           split; [intros _; repeat split; assumption | reflexivity].
Qed.

Lemma download_link_by_platform_witness :
  (exists name,
      "https://dist.ipfs.io/go-ipfs/v0.5.0/go-ipfs_v0.5.0_linux-amd64.tar.gz"
      = IPFSDownloader.BASE_URL ++ name ++ ".tar.gz")
  /\ IPFSDownloader.get_ipfs_download_link (2 ^ 63 - 1) "x86_64" "freebsd12"
     = IPFSDownloader.TypeError.
Proof.
  split.
  - refine (proj1 (proj2 (download_link_by_platform
                            (2 ^ 63 - 1) "aarch64" "linux")) _ _).
    reflexivity.
  - apply (proj1 (proj2 (proj2 (proj2 (download_link_by_platform
                                         (2 ^ 63 - 1) "x86_64" "freebsd12"))))).
    repeat split; discriminate.
Defined.

(** ** The environment *)

(** X20: Constructing a client leaves [IPFS_PATH] set to its data directory and
    every other variable as it was, and doing it twice changes nothing
    more.  Tearing down removes [IPFS_PATH]: a value the variable had before
    the client was constructed is not put back. *)
Theorem environ_path :
  forall (self : IPFSClient) (env : environ) (key : string),
    _ensure_path self env "IPFS_PATH" = Some (ipfs_path self)
    /\ (key <> "IPFS_PATH" -> _ensure_path self env key = env key)
    /\ _ensure_path self (_ensure_path self env) key = _ensure_path self env key
    /\ _unset_path (_ensure_path self env) "IPFS_PATH" = None
    /\ (key <> "IPFS_PATH" ->
        _unset_path (_ensure_path self env) key = env key).
Proof.
  intros self env key.
  assert (Hset : _ensure_path self env "IPFS_PATH" = Some (ipfs_path self)).
  { unfold _ensure_path.
    destruct (env "IPFS_PATH") as [path|] eqn:E.
    - destruct (String.eqb_spec path (ipfs_path self)) as [<-|_];
        [exact E | reflexivity].
    - reflexivity. }
  assert (Hother : key <> "IPFS_PATH" -> _ensure_path self env key = env key).
  { intros Hk. unfold _ensure_path.
    destruct (env "IPFS_PATH") as [path|];
      [destruct (String.eqb path (ipfs_path self)); [reflexivity|]|];
      unfold environ_set; apply String.eqb_neq in Hk; rewrite Hk; reflexivity. }
  split; [exact Hset|]. split; [exact Hother|]. split; [|split].
  - unfold _ensure_path at 1. rewrite Hset, String.eqb_refl. reflexivity.
  - reflexivity.
  - intros Hk. unfold _unset_path, environ_pop.
    pose proof Hk as Hk'. apply String.eqb_neq in Hk'. rewrite Hk'.
    apply Hother. exact Hk.
Qed.

Lemma environ_path_witness :
  _ensure_path Example.client (fun _ => Some "/home/user/.ipfs") "HOME"
  = Some "/home/user/.ipfs"
  /\ _unset_path
       (_ensure_path Example.client (fun _ => Some "/home/user/.ipfs")) "HOME"
     = Some "/home/user/.ipfs"
  /\ _unset_path
       (_ensure_path Example.client (fun _ => Some "/home/user/.ipfs"))
       "IPFS_PATH"
     = None.
Proof.
  destruct (environ_path Example.client (fun _ => Some "/home/user/.ipfs")
              "HOME") as [_ [A [_ [B C]]]].
  split; [apply A; discriminate|]. split; [apply C; discriminate | exact B].
Defined.

(** ** The timed fetch *)

(** X21: How [time_get] ends.  It runs exactly one command, the fetch wrapped in
    the shell's [time].  It returns the number read from the output when the
    command succeeds, its output decodes and [float] accepts the stripped
    text.  A failing command and an output that does not decode both end in
    an error line and [exit]: the decoding sits inside the [try], so
    [time_get] never raises [UnicodeDecodeError], unlike [is_connected].
    Text that is not a number raises [ValueError]. *)
Theorem time_get_outcome :
  forall (os : OS) (self : IPFSClient) (hash : string) (h : trace),
    captured (snd (time_get os self hash h))
    = (captured h
         ++ [("(time " ++ _get_command self ("get " ++ hash)
                ++ "&> /dev/null ) 2>&1")%string])%list
    /\ (forall t,
          fst (time_get os self hash h) = Ret t
          <-> exists out s,
                check_output_result os h
                  ("(time " ++ _get_command self ("get " ++ hash)
                     ++ "&> /dev/null ) 2>&1") = Some out
                /\ decode_utf8 os out = Some s
                /\ float_of os (Py.strip s) = Some t)
    /\ (fst (time_get os self hash h) = Exit
        <-> check_output_result os h
              ("(time " ++ _get_command self ("get " ++ hash)
                 ++ "&> /dev/null ) 2>&1") = None
            \/ exists out,
                 check_output_result os h
                   ("(time " ++ _get_command self ("get " ++ hash)
                      ++ "&> /dev/null ) 2>&1") = Some out
                 /\ decode_utf8 os out = None)
    /\ fst (time_get os self hash h) <> Raise UnicodeDecodeError
    /\ (fst (time_get os self hash h) = Exit ->
        exists hp line,
          snd (time_get os self hash h) = log hp (Print line)
          /\ Py.contains ("get " ++ hash) line = true).
Proof.
  intros os self hash h.
  assert (Hline : Py.contains ("get " ++ hash)
                    (failed_ipfs_command ("get " ++ hash)) = true).
  { apply contains_iff.
    exists "ERROR: Failed to run ipfs command: ", ". Please report this error".
    reflexivity. }
  unfold time_get, time, bind, subprocess_check_output.
  destruct (check_output_result os h _) as [out|] eqn:Eo.
  - destruct (decode_utf8 os out) as [s|] eqn:Ed.
    + unfold ret, raise. destruct (float_of os (Py.strip s)) as [t|] eqn:Ef.
      * cbn [fst snd].
        split; [unfold log; rewrite captured_app; reflexivity|].
        split.
        { intros t'. split.
          - intros [= <-]. exists out, s. repeat split; assumption.
          - intros [out' [s' [[= <-] [Hd Hf]]]].
            rewrite Ed in Hd. injection Hd as <-.
            rewrite Ef in Hf. injection Hf as <-. reflexivity. }
        split.
        { split; [discriminate|].
          intros [Hn|[out' [[= <-] Hd]]]; congruence. }
        split; discriminate.
      * cbn [fst snd].
        split; [unfold log; rewrite captured_app; reflexivity|].
        split.
        { intros t'. split; [discriminate|].
          intros [out' [s' [[= <-] [Hd Hf]]]].
          rewrite Ed in Hd. injection Hd as <-. congruence. }
        split.
        { split; [discriminate|].
          intros [Hn|[out' [[= <-] Hd]]]; congruence. }
        split; discriminate.
    + unfold print, exit. cbn [fst snd]. split.
      { unfold log. rewrite !captured_app, <- app_assoc. reflexivity. }
      split.
      { intros t'. split; [discriminate|].
        intros [out' [s' [[= <-] [Hd _]]]]. congruence. }
      split.
      { split; [|reflexivity]. intros _. right. exists out.
        split; [reflexivity | exact Ed]. }
      split; [discriminate|].
      intros _. eexists. eexists. split; [reflexivity | exact Hline].
  - unfold print, exit. cbn [fst snd]. split.
    { unfold log. rewrite !captured_app, <- app_assoc. reflexivity. }
    split.
    { intros t'. split; [discriminate|].
      intros [out' [s' [Hn _]]]. discriminate. }
    split.
    { split; [|reflexivity]. intros _. left. reflexivity. }
    split; [discriminate|].
    intros _. eexists. eexists. split; [reflexivity | exact Hline].
Qed.

Lemma time_get_outcome_witness :
  exists hp line,
    snd (time_get all_fail Example.client "QmXYZ" []) = log hp (Print line)
    /\ Py.contains "get QmXYZ" line = true.
Proof.
  apply (proj2 (proj2 (proj2 (proj2 (time_get_outcome all_fail Example.client
                                       "QmXYZ" []))))).
  reflexivity.
Defined.
